(** * steampy (async port): login, mobile confirmations, client guard

    A shallow embedding of [steampy/login.py], [steampy/confirmation.py]
    and the guarded part of [steampy/client.py].

    Every coroutine becomes a function in a state-and-exception monad.
    The state holds what the Python objects hold (the session's cookie
    jar, [LoginExecutor.one_time_code], the client's fields) together
    with a log of everything the code asks of the outside world: the
    HTTP requests it issues and the one-time codes it generates.  The
    outside world itself (clock, provider) is a fixed [World].

    Third-party code (json, bs4, rsa, yarl/aiohttp) and the modules of
    the package that are not part of the development ([steampy.guard],
    [steampy.utils]) are collected in the record [Lib] and stay
    parameters of every definition.  [print] calls are not modelled. *)

From Stdlib Require Import String Ascii ZArith List Bool Lia.
From stdpp Require Import base option gmap strings pretty.

Set Warnings "-register-all".

Import ListNotations.
Local Open Scope string_scope.
Local Open Scope Z_scope.
Local Open Scope list_scope.

(** ** Python values *)

(** What [json.loads] returns. *)
Inductive json : Type :=
| JNull
| JBool (b : bool)
| JNum (z : Z)
| JStr (s : string)
| JArr (l : list json)
| JObj (d : list (string * json)).

(** Exceptions the modelled code can raise or let through. *)
Inductive exn : Type :=
| LoginRequired (msg : string)
| InvalidCredentials (msg : string)
| CaptchaRequired (msg : string)
| ConfirmationExpected
| ValueError (msg : string)
| PyException (msg : string)          (* a bare [Exception(msg)] *)
| KeyError (key : string)
| TypeError (msg : string)
| AttributeError (msg : string)
| IndexError
| JSONDecodeError
| OverflowError
| ClientError (msg : string).         (* raised by the transport *)

Inductive result (A : Type) : Type :=
| Ok (a : A)
| Raise (e : exn).
Arguments Ok {A} a.
Arguments Raise {A} e.

(** Lookup in a dict kept as an association list (first binding). *)
Fixpoint assoc {V : Type} (k : string) (d : list (string * V)) : option V :=
  match d with
  | [] => None
  | (k', v) :: d' => if String.eqb k k' then Some v else assoc k d'
  end.

(** [d[k] = v]: overwrite in place, or append a new key. *)
Fixpoint dict_set {V : Type} (k : string) (v : V) (d : list (string * V))
  : list (string * V) :=
  match d with
  | [] => [(k, v)]
  | (k', v') :: d' =>
      if String.eqb k k' then (k', v) :: d' else (k', v') :: dict_set k v d'
  end.

(** [bool(x)] for a decoded JSON value. *)
Definition truthy (j : json) : bool :=
  match j with
  | JNull => false
  | JBool b => b
  | JNum z => negb (z =? 0)
  | JStr s => negb (String.eqb s "")
  | JArr l => match l with [] => false | _ => true end
  | JObj d => match d with [] => false | _ => true end
  end.

(** [x.get(k)]: only a dict has the method. *)
Definition json_get (k : string) (j : json) : result (option json) :=
  match j with
  | JObj d => Ok (assoc k d)
  | _ => Raise (AttributeError "get")
  end.

(** [x[k]] with a string key. *)
Definition json_item (k : string) (j : json) : result json :=
  match j with
  | JObj d => match assoc k d with
              | Some v => Ok v
              | None => Raise (KeyError k)
              end
  | _ => Raise (TypeError "subscript")
  end.

(** [for x in j]: lists yield their elements, dicts their keys, strings
    their characters; nothing else is iterable. *)
Fixpoint chars (s : string) : list json :=
  match s with
  | EmptyString => []
  | String c s' => JStr (String c EmptyString) :: chars s'
  end.

Definition json_iter (j : json) : result (list json) :=
  match j with
  | JArr l => Ok l
  | JObj d => Ok (map (fun kv => JStr (fst kv)) d)
  | JStr s => Ok (chars s)
  | _ => Raise (TypeError "not iterable")
  end.

(** [needle in text]. *)
Fixpoint contains (needle text : string) : bool :=
  String.prefix needle text ||
  match text with
  | EmptyString => false
  | String _ rest => contains needle rest
  end.

(** [s.split(sep)] for a non-empty [sep]: leftmost matches, left to
    right.  [skip] counts the characters of a matched separator that are
    still to be dropped, [cur] is the piece being collected. *)
Fixpoint split_go (sep s : string) (skip : nat) (cur : string) : list string :=
  match skip with
  | S k =>
      match s with
      | EmptyString => [cur]
      | String _ s' => split_go sep s' k cur
      end
  | O =>
      match s with
      | EmptyString => [cur]
      | String c s' =>
          if String.prefix sep s
          then cur :: split_go sep s' (Nat.pred (String.length sep)) ""
          else split_go sep s' 0 (cur +:+ String c EmptyString)
      end
  end.

Definition split (sep s : string) : list string := split_go sep s 0 "".

(** [s[n:]]. *)
Fixpoint drop_chars (n : nat) (s : string) : string :=
  match n, s with
  | O, _ => s
  | S _, EmptyString => EmptyString
  | S k, String _ s' => drop_chars k s'
  end.

(** What [s.lower()] is on ASCII text: A-Z become a-z, every other
    character stays. *)
Definition lower_ascii (c : ascii) : ascii :=
  let n := nat_of_ascii c in
  if ((65 <=? n) && (n <=? 90))%nat then ascii_of_nat (n + 32) else c.

Fixpoint lower (s : string) : string :=
  match s with
  | EmptyString => EmptyString
  | String c s' => String (lower_ascii c) (lower s')
  end.

(** [s.isascii()] *)
Fixpoint isascii (s : string) : bool :=
  match s with
  | EmptyString => true
  | String c s' => (nat_of_ascii c <? 128)%nat && isascii s'
  end.

(** ** Requests, responses, the outside world *)

Inductive Method : Type := GET | POST.

(** A value of the [params=] dict. *)
Inductive param : Type :=
| PStr (s : string)
| PInt (z : Z)
| PTuple (l : list param).

(** What is handed to [params=]. *)
Inductive Params : Type :=
| NoParams
| ParamDict (d : list (string * param))
| ParamCoroutine (tag_string : string).
    (* the coroutine object of [_create_confirmation_params(tag_string)],
       not awaited *)

(** What is handed to [data=]. *)
Inductive Data : Type :=
| NoData
| Form (d : list (string * json))
| JsonData (j : json).

Record Request : Type := mkRequest {
  req_method : Method;
  req_url : string;
  req_params : Params;
  req_data : Data;
  req_headers : list (string * string)
}.

(** A response whose body has been read: [await response.text()] is
    [resp_text]; [resp_cookies] are the (domain, name, value) cookies the
    session files in its jar on receipt. *)
Record Response : Type := mkResponse {
  resp_status : Z;
  resp_text : string;
  resp_cookies : list (string * string * string)
}.

Inductive Outcome : Type :=
| Answer (r : Response)
| Fails (e : exn).

(** The [i]-th reading of [time.time()], in milliseconds, and the
    provider's reaction to a request given how many were issued before. *)
Record World : Type := mkWorld {
  clock : nat -> Z;
  server : nat -> Request -> Outcome
}.

(** What the code asks of the outside, in order: a request handed to
    the session (whether the transport then answers or raises), a
    one-time code obtained from the guard. *)
Inductive Event : Type :=
| Sent (r : Request)
| OneTimeCode (code : string).

(** An element selected by bs4: its attributes and its text. *)
Record Tag : Type := mkTag {
  tag_attrs : list (string * string);
  tag_text : string
}.

(** Code outside [login.py], [confirmation.py] and [client.py]. *)
Record Lib : Type := mkLib {
  json_loads : string -> option json;                  (* None: JSONDecodeError *)
  int16 : json -> result Z;                            (* int(x, 16) *)
  py_str : json -> string;                             (* str(x) *)
  soup_select : string -> string -> list Tag;          (* BeautifulSoup(html).select(css) *)
  rsa_encrypt_b64 : string -> Z * Z -> option string;  (* b64encode(rsa.encrypt(..)); None: OverflowError *)
  url_host : string -> string;                         (* the jar's domain key for URL(s) *)
  load_steam_guard : string -> result (list (string * string));
  generate_one_time_code : string -> Z -> result string;
  generate_confirmation_key : string -> string -> Z -> result string;
  generate_device_id : string -> result string;
  texts_between : string -> string -> string -> list string;
  str_lower : string -> string                         (* s.lower() *)
}.

(** ** State and monad *)

Record State : Type := mkState {
  events : list Event;                          (* oldest first *)
  ticks : nat;                                  (* clock readings taken *)
  cookie_jar : gmap string (gmap string string);(* session.cookie_jar._cookies *)
  scheduled : list nat;                         (* detached _fetch_rsa_params(n) tasks *)
  one_time_code : string;                       (* LoginExecutor.one_time_code *)
  was_login_executed : bool;                    (* SteamClient.was_login_executed *)
  steam_guard : option (list (string * string));(* SteamClient.steam_guard *)
  client_username : option string               (* SteamClient.username *)
}.

Definition M (A : Type) : Type := State -> result A * State.

Definition ret {A : Type} (a : A) : M A := fun s => (Ok a, s).

Definition raise {A : Type} (e : exn) : M A := fun s => (Raise e, s).

Definition bind {A B : Type} (m : M A) (f : A -> M B) : M B :=
  fun s =>
    match m s with
    | (Ok a, s') => f a s'
    | (Raise e, s') => (Raise e, s')
    end.

Notation "x <- m ;; k" := (bind m (fun x => k))
  (at level 100, m at next level, right associativity).
Notation "m ;;; k" := (bind m (fun _ => k))
  (at level 100, right associativity).

Definition lift {A : Type} (r : result A) : M A :=
  match r with
  | Ok a => ret a
  | Raise e => raise e
  end.

Definition of_option {A : Type} (e : exn) (o : option A) : M A :=
  match o with
  | Some a => ret a
  | None => raise e
  end.

(** [for x in l: f x]. *)
Fixpoint for_each {A : Type} (f : A -> M unit) (l : list A) : M unit :=
  match l with
  | [] => ret tt
  | x :: l' => f x ;;; for_each f l'
  end.

(** [[f x for x in l]], left to right. *)
Fixpoint map_m {A B : Type} (f : A -> M B) (l : list A) : M (list B) :=
  match l with
  | [] => ret []
  | x :: l' => y <- f x ;; ys <- map_m f l' ;; ret (y :: ys)
  end.

(** The requests among the events. *)
Fixpoint requests (l : list Event) : list Request :=
  match l with
  | [] => []
  | Sent r :: l' => r :: requests l'
  | OneTimeCode _ :: l' => requests l'
  end.

Fixpoint codes (l : list Event) : list string :=
  match l with
  | [] => []
  | Sent _ :: l' => codes l'
  | OneTimeCode c :: l' => c :: codes l'
  end.

Definition set_events (f : list Event -> list Event) (s : State) : State :=
  mkState (f (events s)) (ticks s) (cookie_jar s) (scheduled s)
          (one_time_code s) (was_login_executed s) (steam_guard s)
          (client_username s).

Definition set_ticks (n : nat) (s : State) : State :=
  mkState (events s) n (cookie_jar s) (scheduled s)
          (one_time_code s) (was_login_executed s) (steam_guard s)
          (client_username s).

Definition set_cookie_jar (j : gmap string (gmap string string)) (s : State)
  : State :=
  mkState (events s) (ticks s) j (scheduled s)
          (one_time_code s) (was_login_executed s) (steam_guard s)
          (client_username s).

Definition set_scheduled (l : list nat) (s : State) : State :=
  mkState (events s) (ticks s) (cookie_jar s) l
          (one_time_code s) (was_login_executed s) (steam_guard s)
          (client_username s).

Definition set_one_time_code (c : string) (s : State) : State :=
  mkState (events s) (ticks s) (cookie_jar s) (scheduled s)
          c (was_login_executed s) (steam_guard s) (client_username s).

Definition set_was_login_executed (b : bool) (s : State) : State :=
  mkState (events s) (ticks s) (cookie_jar s) (scheduled s)
          (one_time_code s) b (steam_guard s) (client_username s).

Definition set_steam_guard (g : option (list (string * string))) (s : State)
  : State :=
  mkState (events s) (ticks s) (cookie_jar s) (scheduled s)
          (one_time_code s) (was_login_executed s) g (client_username s).

Definition set_client_username (u : option string) (s : State) : State :=
  mkState (events s) (ticks s) (cookie_jar s) (scheduled s)
          (one_time_code s) (was_login_executed s) (steam_guard s) u.

(** [jar[domain][name] = value]. *)
Definition jar_set (domain name value : string)
    (jar : gmap string (gmap string string)) : gmap string (gmap string string) :=
  <[domain := <[name := value]> (default ∅ (jar !! domain))]> jar.

Definition jar_get (domain name : string)
    (jar : gmap string (gmap string string)) : option string :=
  jar !! domain ≫= fun c => c !! name.

(** [jar[domain]] on the jar's [defaultdict]: looking a missing domain
    up files an empty entry for it. *)
Definition jar_touch (domain : string)
    (jar : gmap string (gmap string string)) : gmap string (gmap string string) :=
  match jar !! domain with
  | Some _ => jar
  | None => <[domain := ∅]> jar
  end.

Definition file_cookies (cs : list (string * string * string))
    (jar : gmap string (gmap string string)) : gmap string (gmap string string) :=
  fold_left (fun j c => jar_set (fst (fst c)) (snd (fst c)) (snd c) j) cs jar.

Section Steampy.

Variable L : Lib.
Variable W : World.

(** [time.time()]: the next reading of the clock, in milliseconds. *)
Definition time_time : M Z :=
  fun s => (Ok (clock W (ticks s)), set_ticks (S (ticks s)) s).

(** [int(time.time())]. *)
Definition int_time : M Z := t <- time_time ;; ret (Z.quot t 1000).

(** [async with session.get/post(..) as response] followed by reading
    the body: the request is logged, the provider answers or the call
    raises, and the cookies of an answer are filed in the jar. *)
Definition session_request (r : Request) : M Response :=
  fun s =>
    let s1 := set_events (fun l => l ++ [Sent r]) s in
    match server W (length (requests (events s))) r with
    | Answer resp =>
        (Ok resp, set_cookie_jar (file_cookies (resp_cookies resp) (cookie_jar s1)) s1)
    | Fails e => (Raise e, s1)
    end.

(** [json.loads(await response.text())]. *)
Definition response_json (r : Response) : M json :=
  of_option JSONDecodeError (json_loads L (resp_text r)).

(** [cookie_jar.update_cookies({name: value}, response_url=URL(url))]. *)
Definition update_cookies (name value url : string) : M unit :=
  fun s => (Ok tt, set_cookie_jar (jar_set (url_host L url) name value (cookie_jar s)) s).

(** ** login.py *)

Record LoginExecutor : Type := mkLoginExecutor {
  username : string;
  password : string;
  shared_secret : string
}.

Definition COMMUNITY_URL : string := "https://steamcommunity.com".
Definition STORE_URL : string := "https://store.steampowered.com".

(** What [_fetch_rsa_params] hands back: the dict it builds, or the
    [asyncio] task wrapping the next attempt. *)
Inductive rsa_params : Type :=
| RsaDict (rsa_key : Z * Z) (rsa_timestamp : json)
| RsaTask (current_number_of_repetitions : nat).

(** The body of the [try:] in [_fetch_rsa_params]. *)
Definition parse_key_response (key_response : json) : result rsa_params :=
  match json_item "publickey_mod" key_response with
  | Raise e => Raise e
  | Ok m =>
    match int16 L m with
    | Raise e => Raise e
    | Ok rsa_mod =>
      match json_item "publickey_exp" key_response with
      | Raise e => Raise e
      | Ok x =>
        match int16 L x with
        | Raise e => Raise e
        | Ok rsa_exp =>
          match json_item "timestamp" key_response with
          | Raise e => Raise e
          | Ok rsa_timestamp => Ok (RsaDict (rsa_mod, rsa_exp) rsa_timestamp)
          end
        end
      end
    end
  end.

Definition maximal_number_of_repetitions : nat := 5.

(** [asyncio.ensure_future(coro)]: the task is queued on the loop and
    returned at once; nothing of it has run yet. *)
Definition ensure_future (n : nat) : M rsa_params :=
  fun s => (Ok (RsaTask n), set_scheduled (scheduled s ++ [n]) s).

Definition _fetch_rsa_params (self : LoginExecutor)
    (current_number_of_repetitions : nat) : M rsa_params :=
  response <- session_request
    (mkRequest POST (STORE_URL +:+ "/login/getrsakey/") NoParams
               (Form [("username", JStr (username self))]) []) ;;
  key_response <- response_json response ;;
  match parse_key_response key_response with
  | Ok d => ret d
  | Raise (KeyError _) =>
      if (current_number_of_repetitions <? maximal_number_of_repetitions)%nat
      then ensure_future (S current_number_of_repetitions)
      else raise (ValueError "Could not obtain rsa-key")
  | Raise e => raise e
  end.

(** [rsa_params[key]]: a task is not subscriptable. *)
Definition rsa_key_of (p : rsa_params) : M (Z * Z) :=
  match p with
  | RsaDict k _ => ret k
  | RsaTask _ => raise (TypeError "'Task' object is not subscriptable")
  end.

Definition rsa_timestamp_of (p : rsa_params) : M json :=
  match p with
  | RsaDict _ t => ret t
  | RsaTask _ => raise (TypeError "'Task' object is not subscriptable")
  end.

Definition _encrypt_password (self : LoginExecutor) (p : rsa_params) : M string :=
  k <- rsa_key_of p ;;
  of_option OverflowError (rsa_encrypt_b64 L (password self) k).

Definition _prepare_login_request_data (self : LoginExecutor)
    (encrypted_password : string) (rsa_timestamp : json)
  : M (list (string * json)) :=
  fun s =>
    (t <- time_time ;;
     ret [("password", JStr encrypted_password);
          ("username", JStr (username self));
          ("twofactorcode", JStr (one_time_code s));
          ("emailauth", JStr "");
          ("loginfriendlyname", JStr "");
          ("captchagid", JStr "-1");
          ("captcha_text", JStr "");
          ("emailsteamid", JStr "");
          ("rsatimestamp", rsa_timestamp);
          ("remember_login", JStr "false");
          ("donotcache", JStr (pretty t))]) s.

Definition dologin_url : string := STORE_URL +:+ "/login/dologin/".

Definition _send_login_request (self : LoginExecutor) : M Response :=
  rsa_params <- _fetch_rsa_params self 0 ;;
  encrypted_password <- _encrypt_password self rsa_params ;;
  rsa_timestamp <- rsa_timestamp_of rsa_params ;;
  request_data <- _prepare_login_request_data self encrypted_password rsa_timestamp ;;
  session_request (mkRequest POST dologin_url NoParams (Form request_data) []).

Definition _check_for_captcha (login_response : Response) : M unit :=
  data <- response_json login_response ;;
  flag <- lift (json_get "captcha_needed" data) ;;
  if truthy (default (JBool false) flag)
  then raise (CaptchaRequired "Captcha required")
  else ret tt.

(** Modelled from the spec: [steampy.guard] is not among the sources.
    Section 4.1 makes the code a function of the secret and a timestamp;
    the call [guard.generate_one_time_code(shared_secret)] passes none,
    so the guard reads the clock itself. *)
Definition guard_one_time_code (secret : string) : M string :=
  t <- int_time ;;
  code <- lift (generate_one_time_code L secret t) ;;
  fun s => (Ok code, set_events (fun l => l ++ [OneTimeCode code]) s).

Definition _enter_steam_guard_if_necessary (self : LoginExecutor)
    (login_response : Response) : M Response :=
  data <- response_json login_response ;;
  flag <- lift (json_get "requires_twofactor" data) ;;
  if truthy (default JNull flag)
  then
    code <- guard_one_time_code (shared_secret self) ;;
    (fun s => (Ok tt, set_one_time_code code s)) ;;;
    _send_login_request self
  else ret login_response.

Definition _assert_valid_credentials (login_response : Response) : M unit :=
  data <- response_json login_response ;;
  success <- lift (json_item "success" data) ;;
  if negb (truthy success)
  then raise (InvalidCredentials (py_str L data))
  else ret tt.

(** The URL argument of [session.post]: a string, or the call raises. *)
Definition as_url (j : json) : M string :=
  match j with
  | JStr u => ret u
  | _ => raise (TypeError "url")
  end.

Definition _perform_redirects (response_dict : json) : M unit :=
  parameters <- lift (json_get "transfer_parameters" response_dict) ;;
  match default JNull parameters with
  | JNull =>
      raise (PyException "Cannot perform redirects after login, no parameters fetched")
  | p =>
      transfer_urls <- lift (json_item "transfer_urls" response_dict) ;;
      urls <- lift (json_iter transfer_urls) ;;
      for_each (fun url =>
                  u <- as_url url ;;
                  session_request (mkRequest POST u NoParams (JsonData p) []) ;;;
                  ret tt)
               urls
  end.

Definition help_domain : string := "help.steampowered.com".
Definition community_domain : string := drop_chars 8 COMMUNITY_URL.
Definition store_domain : string := drop_chars 8 STORE_URL.

(** [cookie_jar._cookies[domain][name].value]: the first subscript is
    on the [defaultdict] and files a missing entry, the second one is on
    the entry and raises [KeyError] for a missing cookie. *)
Definition cookie_value (domain name : string) : M string :=
  fun s =>
    let s1 := set_cookie_jar (jar_touch domain (cookie_jar s)) s in
    of_option (KeyError name) (jar_get domain name (cookie_jar s1)) s1.

Definition set_sessionid_cookies : M unit :=
  sessionid <- cookie_value help_domain "sessionid" ;;
  update_cookies "sessionid" sessionid community_domain ;;;
  update_cookies "sessionid" sessionid store_domain.

Definition login (self : LoginExecutor) : M unit :=
  login_response <- _send_login_request self ;;
  _check_for_captcha login_response ;;;
  login_response <- _enter_steam_guard_if_necessary self login_response ;;
  _assert_valid_credentials login_response ;;;
  response_dict <- response_json login_response ;;
  _perform_redirects response_dict ;;;
  set_sessionid_cookies.

(** The event loop running the oldest detached [_fetch_rsa_params]
    task: its result or exception stays in the task object, which the
    code never awaits, so only the effects remain. *)
Definition run_scheduled_task (self : LoginExecutor)
  : State -> option (result rsa_params * State) :=
  fun s =>
    match scheduled s with
    | [] => None
    | n :: rest => Some (_fetch_rsa_params self n (set_scheduled rest s))
    end.

(** Running detached tasks until none is left; the outcomes in order. *)
Fixpoint run_scheduled_tasks (self : LoginExecutor) (fuel : nat) (s : State)
  : list (result rsa_params) * State :=
  match fuel with
  | O => ([], s)
  | S k =>
      match run_scheduled_task self s with
      | None => ([], s)
      | Some (r, s') =>
          let (rs, s'') := run_scheduled_tasks self k s' in (r :: rs, s'')
      end
  end.

(** ** confirmation.py *)

Record Confirmation : Type := mkConfirmation {
  id : string;
  data_confid : string;
  data_key : string
}.

(** [Confirmation(_id, data_confid, data_key)]. *)
Definition new_Confirmation (_id data_confid data_key : string)
  : result Confirmation :=
  match nth_error (split "conf" _id) 1 with
  | Some i => Ok (mkConfirmation i data_confid data_key)
  | None => Raise IndexError
  end.

Record ConfirmationExecutor : Type := mkConfirmationExecutor {
  _identity_secret : string;
  _my_steam_id : string
}.

Definition CONF_URL : string := "https://steamcommunity.com/mobileconf".

Definition _create_confirmation_params (self : ConfirmationExecutor)
    (tag_string : string) : M (list (string * param)) :=
  timestamp <- int_time ;;
  confirmation_key <-
    lift (generate_confirmation_key L (_identity_secret self) tag_string timestamp) ;;
  android_id <- lift (generate_device_id L (_my_steam_id self)) ;;
  ret [("p", PStr android_id);
       ("a", PStr (_my_steam_id self));
       ("k", PStr confirmation_key);
       ("t", PInt timestamp);
       ("m", PStr "android");
       ("tag", PStr tag_string)].

Definition ajaxop_url : string := CONF_URL +:+ "/ajaxop".

Definition _send_confirmation (self : ConfirmationExecutor)
    (confirmation : Confirmation) : M json :=
  let tag := "allow" in
  params <- _create_confirmation_params self tag ;;
  let params := dict_set "op" (PTuple [PStr tag]) params in  (* [tag.value,] *)
  let params := dict_set "cid" (PStr (data_confid confirmation)) params in
  let params := dict_set "ck" (PStr (data_key confirmation)) params in
  response <- session_request
    (mkRequest GET ajaxop_url (ParamDict params) NoData
               [("X-Requested-With", "XMLHttpRequest")]) ;;
  response_json response.

(** What a variable holding "the confirmations page" can be bound to:
    the body text, or a response object as annotated. *)
Inductive pyobj : Type :=
| PyStr (s : string)
| PyResponse (r : Response).

(** [x.text]. *)
Definition attr_text (x : pyobj) : M string :=
  match x with
  | PyResponse r => ret (resp_text r)
  | PyStr _ => raise (AttributeError "'str' object has no attribute 'text'")
  end.

Definition incorrect_codes_marker : string :=
  "Steam Guard Mobile Authenticator is providing incorrect Steam Guard codes.".

Definition _fetch_confirmations_page (self : ConfirmationExecutor) : M pyobj :=
  let tag := "conf" in
  let params := ParamCoroutine tag in      (* the call is not awaited *)
  response <- session_request
    (mkRequest GET (CONF_URL +:+ "/conf") params NoData
               [("X-Requested-With", "com.valvesoftware.android.steam.community")]) ;;
  let text := resp_text response in
  if contains incorrect_codes_marker text
  then raise (InvalidCredentials "Invalid Steam Guard file")
  else ret (PyStr text).

(** [tag[name]]. *)
Definition tag_item (name : string) (t : Tag) : M string :=
  of_option (KeyError name) (assoc name (tag_attrs t)).

Definition _get_confirmations (self : ConfirmationExecutor)
  : M (list Confirmation) :=
  confirmations_page <- _fetch_confirmations_page self ;;
  html <- attr_text confirmations_page ;;
  match soup_select L html "#mobileconf_empty" with
  | _ :: _ => ret []
  | [] =>
      map_m (fun confirmation_div =>
               _id <- tag_item "id" confirmation_div ;;
               data_confid <- tag_item "data-confid" confirmation_div ;;
               data_key <- tag_item "data-key" confirmation_div ;;
               lift (new_Confirmation _id data_confid data_key))
            (soup_select L html "#mobileconf_list .mobileconf_list_entry")
  end.

Definition details_url (confirmation : Confirmation) : string :=
  CONF_URL +:+ "/details/" +:+ id confirmation.

Definition _fetch_confirmation_details_page (self : ConfirmationExecutor)
    (confirmation : Confirmation) : M json :=
  let tag := "details" +:+ id confirmation in
  params <- _create_confirmation_params self tag ;;
  response <- session_request
    (mkRequest GET (details_url confirmation) (ParamDict params) NoData []) ;;
  resp_data <- response_json response ;;
  lift (json_item "html" resp_data).

(** The pure part of [_get_confirmation_trade_offer_id]. *)
Definition trade_offer_id_of (confirmation_details_page : json) : result string :=
  match confirmation_details_page with
  | JStr html =>
      match soup_select L html ".tradeoffer" with
      | [] => Raise IndexError
      | t :: _ =>
          match assoc "id" (tag_attrs t) with
          | None => Raise (KeyError "id")
          | Some full_offer_id =>
              match nth_error (split "_" full_offer_id) 1 with
              | Some i => Ok i
              | None => Raise IndexError
              end
          end
      end
  | _ => Raise (TypeError "markup")
  end.

Definition _get_confirmation_trade_offer_id (confirmation_details_page : json)
  : M string :=
  lift (trade_offer_id_of confirmation_details_page).

Fixpoint _select_trade_offer_confirmation (self : ConfirmationExecutor)
    (confirmations : list Confirmation) (trade_offer_id : string)
  : M Confirmation :=
  match confirmations with
  | [] => raise ConfirmationExpected
  | confirmation :: rest =>
      confirmation_details_page <-
        _fetch_confirmation_details_page self confirmation ;;
      confirmation_id <-
        _get_confirmation_trade_offer_id confirmation_details_page ;;
      if String.eqb confirmation_id trade_offer_id
      then ret confirmation
      else _select_trade_offer_confirmation self rest trade_offer_id
  end.

Definition send_trade_allow_request (self : ConfirmationExecutor)
    (trade_offer_id : string) : M json :=
  confirmations <- _get_confirmations self ;;
  confirmation <-
    _select_trade_offer_confirmation self confirmations trade_offer_id ;;
  _send_confirmation self confirmation.

End Steampy.


(** ** client.py

    [SteamClient] and the decorator, in a module of their own since
    the client has a [login] too.  [SteamUrl.COMMUNITY_URL] is taken to
    be the community URL of [login.py]. *)

Module Client.
Section Methods.

Variable L : Lib.
Variable W : World.

(** The decorator. *)
Definition login_required {A : Type} (func : M A) : M A :=
  fun s =>
    if negb (was_login_executed s)
    then raise (LoginRequired "Use login method first") s
    else func s.

(** [SteamClient.login]. *)
Definition login (username password steam_guard : string) : M unit :=
  g <- lift (load_steam_guard L steam_guard) ;;
  (fun s => (Ok tt, set_steam_guard (Some g) s)) ;;;
  (fun s => (Ok tt, set_client_username (Some username) s)) ;;;
  secret <- of_option (KeyError "shared_secret") (assoc "shared_secret" g) ;;
  let login_executor := mkLoginExecutor username password secret in
  (fun s => (Ok tt, set_one_time_code "" s)) ;;;   (* LoginExecutor.__init__ *)
  login L W login_executor ;;;
  fun s => (Ok tt, set_was_login_executed true s).

(** [SteamClient.is_session_alive], a guarded operation. *)
Definition is_session_alive : M bool :=
  login_required
    (steam_login <- (fun s => (Ok (client_username s), s)) ;;
     response <- session_request W
       (mkRequest GET COMMUNITY_URL NoParams NoData []) ;;
     main_page_response_text <- ret (resp_text response) ;;
     match steam_login with
     | Some u => ret (contains (str_lower L u) (str_lower L main_page_response_text))
     | None => raise (AttributeError "'NoneType' object has no attribute 'lower'")
     end).

Definition receipt_url (trade_id : string) : string :=
  "https://steamcommunity.com/trade/" +:+ trade_id +:+ "/receipt".

Definition oItem_end : string :=
  String ";" (String (ascii_of_nat 13) (String (ascii_of_nat 10)
    (String (ascii_of_nat 9) "oItem"))).

(** [SteamClient.get_trade_receipt]: no decorator. *)
Definition get_trade_receipt (trade_id : string) : M (list json) :=
  response <- session_request W
    (mkRequest GET (receipt_url trade_id) NoParams NoData []) ;;
  let html := resp_text response in
  map_m (fun item => of_option JSONDecodeError (json_loads L item))
        (texts_between L html "oItem = " oItem_end).

(** [SteamClient._confirm_transaction]. *)
Definition _confirm_transaction (trade_offer_id : string) : M json :=
  g <- (fun s => of_option (TypeError "'NoneType' object is not subscriptable")
                   (steam_guard s) s) ;;
  identity_secret <- of_option (KeyError "identity_secret") (assoc "identity_secret" g) ;;
  steamid <- of_option (KeyError "steamid") (assoc "steamid" g) ;;
  send_trade_allow_request L W (mkConfirmationExecutor identity_secret steamid)
                           trade_offer_id.

End Methods.
End Client.

(** ** Vocabulary of the statements *)

(** The exceptions of the statements below, as the code words them. *)
Definition not_logged_in : exn := LoginRequired "Use login method first".
Definition no_parameters : exn :=
  PyException "Cannot perform redirects after login, no parameters fetched".
Definition task_not_subscriptable : exn :=
  TypeError "'Task' object is not subscriptable".
Definition str_has_no_text : exn :=
  AttributeError "'str' object has no attribute 'text'".

(** The request of [_fetch_rsa_params]. *)
Definition rsa_request (self : LoginExecutor) : Request :=
  mkRequest POST (STORE_URL +:+ "/login/getrsakey/") NoParams
            (Form [("username", JStr (username self))]) [].

(** The request of [_send_confirmation], up to its parameters. *)
Definition allow_request (params : list (string * param)) : Request :=
  mkRequest GET ajaxop_url (ParamDict params) NoData
            [("X-Requested-With", "XMLHttpRequest")].

(** Requests to the allow endpoint. *)
Definition is_allow (r : Request) : bool := String.eqb (req_url r) ajaxop_url.

(** Fetching the detail page of one confirmation and reading the trade
    offer identifier off it: one turn of the loop in
    [_select_trade_offer_confirmation], up to the comparison. *)
Definition resolve L W (self : ConfirmationExecutor) (c : Confirmation) : M string :=
  page <- _fetch_confirmation_details_page L W self c ;;
  _get_confirmation_trade_offer_id L page.

(** Starting in [s], every confirmation of the list resolves, in order,
    to an identifier other than [target]; the state reached. *)
Fixpoint scan_misses L W (self : ConfirmationExecutor) (target : string)
    (cs : list Confirmation) (s : State) : option State :=
  match cs with
  | [] => Some s
  | c :: cs' =>
      match resolve L W self c s with
      | (Ok i, s1) =>
          if String.eqb i target then None
          else scan_misses L W self target cs' s1
      | (Raise _, _) => None
      end
  end.

(** A computation that leaves [was_login_executed] alone. *)
Definition keeps_flag {A : Type} (m : M A) : Prop :=
  forall s, was_login_executed (snd (m s)) = was_login_executed s.

(** ** A small provider to run the code against *)

Module Fixture.

Definition hex_digit (c : ascii) : option Z :=
  let n := Z.of_nat (nat_of_ascii c) in
  if (48 <=? n) && (n <=? 57) then Some (n - 48)
  else if (97 <=? n) && (n <=? 102) then Some (n - 87)
  else if (65 <=? n) && (n <=? 70) then Some (n - 55)
  else None.

Fixpoint hex_go (acc : Z) (s : string) : option Z :=
  match s with
  | EmptyString => Some acc
  | String c s' =>
      match hex_digit c with
      | Some d => hex_go (16 * acc + d) s'
      | None => None
      end
  end.

Definition int16 (j : json) : result Z :=
  match j with
  | JStr EmptyString => Raise (ValueError "invalid literal for int()")
  | JStr s =>
      match hex_go 0 s with
      | Some z => Ok z
      | None => Raise (ValueError "invalid literal for int()")
      end
  | _ => Raise (TypeError "int() can't convert non-string with explicit base")
  end.

Fixpoint join (sep : string) (l : list string) : string :=
  match l with
  | [] => ""
  | [x] => x
  | x :: l' => x +:+ sep +:+ join sep l'
  end.

Fixpoint py_str (j : json) : string :=
  match j with
  | JNull => "None"
  | JBool true => "True"
  | JBool false => "False"
  | JNum z => pretty z
  | JStr s => "'" +:+ s +:+ "'"
  | JArr l => "[" +:+ join ", " (map py_str l) +:+ "]"
  | JObj d =>
      "{" +:+ join ", " (map (fun kv => match kv with
                                        | (k, v) => "'" +:+ k +:+ "': " +:+ py_str v
                                        end) d) +:+ "}"
  end.

Definition key_body : string :=
  "{'success': true, 'publickey_mod': 'c5', 'publickey_exp': '11', 'timestamp': '288000'}".
Definition no_key_body : string := "{'success': false}".
Definition twofactor_body : string :=
  "{'success': false, 'requires_twofactor': true}".
Definition rejected_body : string :=
  "{'success': false, 'message': 'Incorrect login.'}".
Definition captcha_body : string :=
  "{'success': false, 'captcha_needed': true}".
Definition no_transfer_body : string := "{'success': true}".
Definition transfer_community : string := "https://steamcommunity.com/login/transfer".
Definition transfer_help : string := "https://help.steampowered.com/login/transfer".
Definition transfer_parameters : json :=
  JObj [("steamid", JStr "76561197991861652"); ("token", JStr "T0K3N")].
Definition logged_in_body : string :=
  "{'success': true, 'transfer_urls': [..], 'transfer_parameters': {..}}".
Definition allowed_body : string := "{'success': true}".
Definition details_body (offer : string) : string := "{'html': 'offer " +:+ offer +:+ "'}".
Definition details_html (offer : string) : string :=
  "<div class='tradeoffer' id='tradeofferid_" +:+ offer +:+ "'></div>".
Definition empty_page : string :=
  "<div id='mobileconf_empty'>Nothing to confirm</div>".

Definition json_table : list (string * json) :=
  [ (key_body, JObj [("success", JBool true); ("publickey_mod", JStr "c5");
                     ("publickey_exp", JStr "11"); ("timestamp", JStr "288000")]);
    (no_key_body, JObj [("success", JBool false)]);
    (twofactor_body, JObj [("success", JBool false); ("requires_twofactor", JBool true)]);
    (rejected_body, JObj [("success", JBool false); ("message", JStr "Incorrect login.")]);
    (captcha_body, JObj [("success", JBool false); ("captcha_needed", JBool true)]);
    (no_transfer_body, JObj [("success", JBool true)]);
    (logged_in_body, JObj [("success", JBool true);
                           ("transfer_urls", JArr [JStr transfer_community; JStr transfer_help]);
                           ("transfer_parameters", transfer_parameters)]);
    (details_body "A", JObj [("html", JStr (details_html "A"))]);
    (details_body "B", JObj [("html", JStr (details_html "B"))]);
    (details_body "C", JObj [("html", JStr (details_html "C"))]) ].

Definition soup_select (html css : string) : list Tag :=
  if String.eqb css "#mobileconf_empty" then
    if contains "id='mobileconf_empty'" html
    then [mkTag [("id", "mobileconf_empty")] "Nothing to confirm"] else []
  else if String.eqb css ".tradeoffer" then
    if String.eqb html (details_html "A") then [mkTag [("class", "tradeoffer"); ("id", "tradeofferid_A")] ""]
    else if String.eqb html (details_html "B") then [mkTag [("class", "tradeoffer"); ("id", "tradeofferid_B")] ""]
    else if String.eqb html (details_html "C") then [mkTag [("class", "tradeoffer"); ("id", "tradeofferid_C")] ""]
    else []
  else [].

Definition lib : Lib :=
  mkLib (fun s => assoc s json_table)
        int16
        py_str
        soup_select
        (fun pw k => Some ("rsa(" +:+ pw +:+ ")"))
        (fun u => "")        (* a URL without a scheme has no host *)
        (fun g => Ok [("steamid", "76561197991861652");
                      ("shared_secret", g);
                      ("identity_secret", "uaNLaqNO8PPK6phxwbkmBk4uSDk=")])
        (fun secret t => Ok ("otp@" +:+ pretty (t / 30)))
        (fun secret tag t => Ok ("sig(" +:+ tag +:+ "@" +:+ pretty t +:+ ")"))
        (fun steamid => Ok ("android:" +:+ steamid))
        (fun html a b => [])
        lower.

Definition form_field (name : string) (r : Request) : option json :=
  match req_data r with
  | Form d => assoc name d
  | _ => None
  end.

Definition answer (body : string) : Outcome := Answer (mkResponse 200 body []).

(** Accounts: [nokey] gets no RSA key, [mallory] is rejected, [carol]
    meets a captcha, [dave] logs in but gets no transfer parameters,
    everybody else needs a one-time code and then gets in. *)
Definition provider (i : nat) (r : Request) : Outcome :=
  let url := req_url r in
  if String.eqb url (STORE_URL +:+ "/login/getrsakey/") then
    match form_field "username" r with
    | Some (JStr "nokey") => answer no_key_body
    | _ => answer key_body
    end
  else if String.eqb url dologin_url then
    match form_field "username" r, form_field "twofactorcode" r with
    | Some (JStr "mallory"), _ => answer rejected_body
    | Some (JStr "carol"), _ => answer captcha_body
    | Some (JStr "dave"), _ => answer no_transfer_body
    | _, Some (JStr "") => answer twofactor_body
    | _, _ => answer logged_in_body
    end
  else if String.eqb url transfer_community then answer "ok"
  else if String.eqb url transfer_help then
    Answer (mkResponse 200 "ok" [("help.steampowered.com", "sessionid", "s3ss10n")])
  else if String.eqb url (CONF_URL +:+ "/conf") then
    match req_params r with
    | ParamCoroutine _ => Fails (TypeError "Invalid query type")
    | _ => answer empty_page
    end
  else if String.eqb url (CONF_URL +:+ "/details/1") then answer (details_body "A")
  else if String.eqb url (CONF_URL +:+ "/details/2") then answer (details_body "B")
  else if String.eqb url (CONF_URL +:+ "/details/3") then answer (details_body "C")
  else if String.eqb url ajaxop_url then answer allowed_body
  else if String.eqb url (Client.receipt_url "77") then answer "<html>receipt</html>"
  else Fails (ClientError "cannot connect").

Definition world : World :=
  mkWorld (fun i => 1541318400000 + 1500 * Z.of_nat i) provider.

(** A freshly constructed [SteamClient]. *)
Definition fresh : State := mkState [] 0 ∅ [] "" false None None.

Definition alice : LoginExecutor := mkLoginExecutor "alice" "hunter2" "c2VjcmV0".
Definition mallory : LoginExecutor := mkLoginExecutor "mallory" "guess" "c2VjcmV0".
Definition nokey : LoginExecutor := mkLoginExecutor "nokey" "hunter2" "c2VjcmV0".
Definition dave : LoginExecutor := mkLoginExecutor "dave" "hunter2" "c2VjcmV0".

Definition executor : ConfirmationExecutor :=
  mkConfirmationExecutor "uaNLaqNO8PPK6phxwbkmBk4uSDk=" "76561197991861652".

Definition three_confirmations : list Confirmation :=
  [ mkConfirmation "1" "confid1" "key1";
    mkConfirmation "2" "confid2" "key2";
    mkConfirmation "3" "confid3" "key3" ].

End Fixture.


(** ** client.py: the Web API calls

    These go through the API key, not through the login.
    [SteamUrl.API_URL] and [TradeOfferState.Active] belong to
    [steampy.models] and the merging of descriptions to
    [steampy.utils]; they are parameters here, as is the client's
    [_api_key]. *)

(** [sep.join(l)]. *)
Fixpoint str_join (sep : string) (l : list string) : string :=
  match l with
  | [] => ""
  | [x] => x
  | x :: l' => x +:+ sep +:+ str_join sep l'
  end.

(** A value of a parameter dict, as it sits in a [data=] dict. *)
Fixpoint param_json (p : param) : json :=
  match p with
  | PStr s => JStr s
  | PInt z => JNum z
  | PTuple l => JArr (map param_json l)
  end.

(** [x[0]]. *)
Definition json_first (j : json) : result json :=
  match j with
  | JArr (x :: _) => Ok x
  | JArr [] => Raise IndexError
  | JStr (String c _) => Ok (JStr (String c EmptyString))
  | JStr EmptyString => Raise IndexError
  | JObj _ => Raise (KeyError "0")
  | _ => Raise (TypeError "subscript")
  end.

Module Api.
Section Calls.

Variable L : Lib.
Variable W : World.
Variable API_URL : string.
Variable _api_key : string.
Variable Active : json -> bool.                 (* x == TradeOfferState.Active *)
Variable merge_items_with_descriptions_from_offers : json -> result json.

Definition invalid_key_message : string :=
  "Access is denied. Retrying will not help. " +:+
  "Please verify your <pre>key=</pre> parameter".

Definition is_invalid_api_key (text : string) : bool :=
  contains invalid_key_message text.

Definition api_call (request_method interface api_method version : string)
    (params : option (list (string * param))) : M string :=
  let url := str_join "/" [API_URL; interface; api_method; version] in
  text <-
    (if String.eqb request_method "GET"
     then
       response <- session_request W
         (mkRequest GET url
            (match params with Some d => ParamDict d | None => NoParams end)
            NoData []) ;;
       ret (resp_text response)
     else
       response <- session_request W
         (mkRequest POST url NoParams
            (match params with
             | Some d => Form (map (fun kv => (fst kv, param_json (snd kv))) d)
             | None => NoData
             end) []) ;;
       ret (resp_text response)) ;;
  if is_invalid_api_key text
  then raise (InvalidCredentials "Invalid API key")
  else ret text.

Definition get_trade_offers_summary : M json :=
  let params := [("key", PStr _api_key)] in
  text <- api_call "GET" "CEconService" "GetTradeOffersSummary" "v1" (Some params) ;;
  of_option JSONDecodeError (json_loads L text).

(** [list(filter(lambda offer: offer['trade_offer_state'] == Active, offers))]. *)
Fixpoint filter_active (offers : list json) : result (list json) :=
  match offers with
  | [] => Ok []
  | offer :: rest =>
      match json_item "trade_offer_state" offer with
      | Raise e => Raise e
      | Ok state =>
          match filter_active rest with
          | Raise e => Raise e
          | Ok kept => Ok (if Active state then offer :: kept else kept)
          end
      end
  end.

(** [list(filter(.., x))] for whatever [x] is. *)
Definition filter_active_of (x : json) : result (list json) :=
  match json_iter x with
  | Ok offers => filter_active offers
  | Raise e => Raise e
  end.

Definition _filter_non_active_offers (offers_response : json) : result json :=
  match offers_response with
  | JObj top =>
      match assoc "response" top with
      | None => Raise (KeyError "response")
      | Some (JObj response) =>
          let offers_received :=
            default (JArr []) (assoc "trade_offers_received" response) in
          let offers_sent :=
            default (JArr []) (assoc "trade_offers_sent" response) in
          match filter_active_of offers_received with
          | Raise e => Raise e
          | Ok received =>
              let response1 :=
                dict_set "trade_offers_received" (JArr received) response in
              match filter_active_of offers_sent with
              | Raise e => Raise e
              | Ok sent =>
                  let response2 :=
                    dict_set "trade_offers_sent" (JArr sent) response1 in
                  Ok (JObj (dict_set "response" (JObj response2) top))
              end
          end
      | Some _ => Raise (AttributeError "get")
      end
  | _ => Raise (TypeError "subscript")
  end.

Definition get_trade_offers (merge : bool) : M json :=
  let params := [("key", PStr _api_key);
                 ("get_sent_offers", PInt 1);
                 ("get_received_offers", PInt 1);
                 ("get_descriptions", PInt 1);
                 ("language", PStr "english");
                 ("active_only", PInt 1);
                 ("historical_only", PInt 0);
                 ("time_historical_cutoff", PStr "")] in
  text <- api_call "GET" "CEconService" "GetTradeOffers" "v1" (Some params) ;;
  response <- of_option JSONDecodeError (json_loads L text) ;;
  response <- lift (_filter_non_active_offers response) ;;
  if merge
  then lift (merge_items_with_descriptions_from_offers response)
  else ret response.

Definition decline_trade_offer (trade_offer_id : string) : M json :=
  let params := [("key", PStr _api_key); ("tradeofferid", PStr trade_offer_id)] in
  text <- api_call "POST" "IEconService" "DeclineTradeOffer" "v1" (Some params) ;;
  of_option JSONDecodeError (json_loads L text).

Definition cancel_trade_offer (trade_offer_id : string) : M json :=
  let params := [("key", PStr _api_key); ("tradeofferid", PStr trade_offer_id)] in
  text <- api_call "POST" "IEconService" "CancelTradeOffer" "v1" (Some params) ;;
  of_option JSONDecodeError (json_loads L text).

Definition get_profile (steam_id : string) : M json :=
  let params := [("steamids", PStr steam_id); ("key", PStr _api_key)] in
  response <- api_call "GET" "ISteamUser" "GetPlayerSummaries" "v0002" (Some params) ;;
  data <- of_option JSONDecodeError (json_loads L response) ;;
  r <- lift (json_item "response" data) ;;
  players <- lift (json_item "players" r) ;;
  lift (json_first players).

(** [SteamClient._get_trade_offer_url]. *)
Definition _get_trade_offer_url (COMMUNITY : string) (trade_offer_id : string)
  : string :=
  COMMUNITY +:+ "/tradeoffer/" +:+ trade_offer_id.

End Calls.
End Api.

(** ** login.py: the home page *)

Definition _fetch_home_page (W : World) : M string :=
  response <- session_request W
    (mkRequest POST (COMMUNITY_URL +:+ "/my/home/") NoParams NoData []) ;;
  ret (resp_text response).

(** ** More vocabulary *)

(** The log grows by events of total weight at most [n]. *)
Definition adds_at_most (weight : Event -> nat) (n : nat) {A : Type} (m : M A)
  : Prop :=
  forall s, exists new,
    events (snd (m s)) = events s ++ new /\
    (list_sum (map weight new) <= n)%nat.

Definition is_code (e : Event) : nat :=
  match e with OneTimeCode _ => 1%nat | Sent _ => 0%nat end.

(** A submission of credentials: a form posted to the login endpoint. *)
Definition is_submission (e : Event) : nat :=
  match e with
  | Sent (mkRequest POST url _ (Form _) _) =>
      if String.eqb url dologin_url then 1%nat else 0%nat
  | _ => 0%nat
  end.

(** The request of [_fetch_confirmations_page]. *)
Definition conf_request : Request :=
  mkRequest GET (CONF_URL +:+ "/conf") (ParamCoroutine "conf") NoData
    [("X-Requested-With", "com.valvesoftware.android.steam.community")].


(** ** A second provider: accounts that never get in *)

Module Fixture2.

(** [eve] is asked for a one-time code on every submission; [frank]'s
    key response carries a modulus that is not hexadecimal. *)
Definition bad_key_body : string := "{'success': true, 'publickey_mod': 'xyz'}".

Definition json_table : list (string * json) :=
  (bad_key_body, JObj [("success", JBool true); ("publickey_mod", JStr "xyz")])
  :: Fixture.json_table.

Definition lib : Lib :=
  mkLib (fun s => assoc s json_table)
        (int16 Fixture.lib) (py_str Fixture.lib) (soup_select Fixture.lib)
        (rsa_encrypt_b64 Fixture.lib) (url_host Fixture.lib)
        (load_steam_guard Fixture.lib) (generate_one_time_code Fixture.lib)
        (generate_confirmation_key Fixture.lib) (generate_device_id Fixture.lib)
        (texts_between Fixture.lib) (str_lower Fixture.lib).

Definition provider (i : nat) (r : Request) : Outcome :=
  let url := req_url r in
  if String.eqb url (STORE_URL +:+ "/login/getrsakey/") then
    match Fixture.form_field "username" r with
    | Some (JStr "frank") => Fixture.answer bad_key_body
    | _ => Fixture.provider i r
    end
  else if String.eqb url dologin_url then
    match Fixture.form_field "username" r with
    | Some (JStr "eve") => Fixture.answer Fixture.twofactor_body
    | _ => Fixture.provider i r
    end
  else Fixture.provider i r.

Definition world : World := mkWorld (clock Fixture.world) provider.

Definition eve : LoginExecutor := mkLoginExecutor "eve" "hunter2" "c2VjcmV0".
Definition frank : LoginExecutor := mkLoginExecutor "frank" "hunter2" "c2VjcmV0".
Definition carol : LoginExecutor := mkLoginExecutor "carol" "hunter2" "c2VjcmV0".

End Fixture2.

(** ** confirmation.py: the sell-listing path

    Strings are read as sequences of characters with code below 256. *)

(** [c.isspace()]. *)
Definition is_space (c : ascii) : bool :=
  let n := nat_of_ascii c in
  (((9 <=? n) && (n <=? 13)) || ((28 <=? n) && (n <=? 32))
   || (n =? 133) || (n =? 160))%nat.

Fixpoint lstrip (s : string) : string :=
  match s with
  | EmptyString => EmptyString
  | String c s' => if is_space c then lstrip s' else s
  end.

Fixpoint rstrip (s : string) : string :=
  match s with
  | EmptyString => EmptyString
  | String c s' =>
      match rstrip s' with
      | EmptyString => if is_space c then EmptyString else String c EmptyString
      | r => String c r
      end
  end.

(** [s.strip()]. *)
Definition strip (s : string) : string := rstrip (lstrip s).

(** [s.index(sub)]; [None]: [ValueError]. *)
Fixpoint index_of (sub s : string) : option nat :=
  if String.prefix sub s then Some 0%nat
  else match s with
       | EmptyString => None
       | String _ s' => option_map S (index_of sub s')
       end.

(** [s[:n]]. *)
Fixpoint take_chars (n : nat) (s : string) : string :=
  match n, s with
  | O, _ => EmptyString
  | S _, EmptyString => EmptyString
  | S k, String c s' => String c (take_chars k s')
  end.

(** [s.replace("\n", "")]. *)
Fixpoint remove_newlines (s : string) : string :=
  match s with
  | EmptyString => EmptyString
  | String c s' =>
      if (nat_of_ascii c =? 10)%nat then remove_newlines s'
      else String c (remove_newlines s')
  end.

Definition substring_not_found : exn := ValueError "substring not found".

Section SellListing.

Variable L : Lib.
Variable W : World.

(** The pure part of [_get_confirmation_sell_listing_id]. *)
Definition sell_listing_id_of (confirmation_details_page : json) : result json :=
  match confirmation_details_page with
  | JStr html =>
      match nth_error (soup_select L html "script") 2 with
      | None => Raise IndexError
      | Some script =>
          let scr_raw := strip (tag_text script) in
          match index_of "'confiteminfo', " scr_raw with
          | None => Raise substring_not_found
          | Some i =>
              let scr_raw := drop_chars (i + 16) scr_raw in
              match index_of ", UserYou" scr_raw with
              | None => Raise substring_not_found
              | Some j =>
                  let scr_raw := remove_newlines (take_chars j scr_raw) in
                  match json_loads L scr_raw with
                  | None => Raise JSONDecodeError
                  | Some v => json_item "id" v
                  end
              end
          end
      end
  | _ => Raise (TypeError "markup")
  end.

Definition _get_confirmation_sell_listing_id (confirmation_details_page : json)
  : M json :=
  lift (sell_listing_id_of confirmation_details_page).

(** [confirmation_id == asset_id] for a decoded value and a string. *)
Definition json_eq_str (j : json) (s : string) : bool :=
  match j with
  | JStr x => String.eqb x s
  | _ => false
  end.

Fixpoint _select_sell_listing_confirmation (self : ConfirmationExecutor)
    (confirmations : list Confirmation) (asset_id : string)
  : M Confirmation :=
  match confirmations with
  | [] => raise ConfirmationExpected
  | confirmation :: rest =>
      confirmation_details_page <-
        _fetch_confirmation_details_page L W self confirmation ;;
      confirmation_id <-
        _get_confirmation_sell_listing_id confirmation_details_page ;;
      if json_eq_str confirmation_id asset_id
      then ret confirmation
      else _select_sell_listing_confirmation self rest asset_id
  end.

Definition confirm_sell_listing (self : ConfirmationExecutor)
    (asset_id : string) : M json :=
  confirmations <- _get_confirmations L W self ;;
  confirmation <- _select_sell_listing_confirmation self confirmations asset_id ;;
  _send_confirmation L W self confirmation.

(** One turn of the sell-listing loop, up to the comparison. *)
Definition resolve_listing (self : ConfirmationExecutor) (c : Confirmation)
  : M json :=
  page <- _fetch_confirmation_details_page L W self c ;;
  _get_confirmation_sell_listing_id page.

(** Starting in [s], every confirmation of the list resolves, in order,
    to something other than [target]; the state reached. *)
Fixpoint listing_scan_misses (self : ConfirmationExecutor) (target : string)
    (cs : list Confirmation) (s : State) : option State :=
  match cs with
  | [] => Some s
  | c :: cs' =>
      match resolve_listing self c s with
      | (Ok i, s1) =>
          if json_eq_str i target then None
          else listing_scan_misses self target cs' s1
      | (Raise _, _) => None
      end
  end.

End SellListing.

(** An offer whose [trade_offer_state] is there and active. *)
Definition is_active_offer (Active : json -> bool) (offer : json) : bool :=
  match json_item "trade_offer_state" offer with
  | Ok state => Active state
  | Raise _ => false
  end.

(** ** A third provider: listings and the Web API *)

Module Fixture3.

Definition newline : string := String (ascii_of_nat 10) EmptyString.

Definition listing_script (asset : string) : string :=
  "  BuildHover( 'confiteminfo', {'id':" +:+ newline +:+ "'" +:+ asset +:+
  "'}, UserYou );  ".

Definition listing_json (asset : string) : string :=
  "{'id':'" +:+ asset +:+ "'}".

Definition listing_html (asset : string) : string :=
  "<script>a</script><script>b</script><script>" +:+ listing_script asset +:+
  "</script>".

Definition listing_body (asset : string) : string :=
  "{'html': 'listing " +:+ asset +:+ "'}".

Definition offers_body : string := "{'response': {offers}}".

Definition offer (i state : Z) : json :=
  JObj [("tradeofferid", JNum i); ("trade_offer_state", JNum state)].

Definition offers_json : json :=
  JObj [("response",
         JObj [("trade_offers_received", JArr [offer 1 2; offer 2 7; offer 3 2]);
               ("descriptions", JArr [])])].

Definition players_body : string := "{'response': {'players': [gaben]}}".
Definition no_players_body : string := "{'response': {'players': []}}".
Definition denied_body : string :=
  "<html><body>" +:+ Api.invalid_key_message +:+ "</body></html>".

Definition json_table : list (string * json) :=
  [ (listing_body "A", JObj [("html", JStr (listing_html "A"))]);
    (listing_body "B", JObj [("html", JStr (listing_html "B"))]);
    (listing_json "A", JObj [("id", JStr "A")]);
    (listing_json "B", JObj [("id", JStr "B")]);
    (offers_body, offers_json);
    (players_body, JObj [("response", JObj [("players", JArr [JObj [("personaname", JStr "gaben")]])])]);
    (no_players_body, JObj [("response", JObj [("players", JArr [])])]) ]
  ++ Fixture.json_table.

Definition soup_select (html css : string) : list Tag :=
  if String.eqb css "script" then
    if String.eqb html (listing_html "A")
    then [mkTag [] "a"; mkTag [] "b"; mkTag [] (listing_script "A")]
    else if String.eqb html (listing_html "B")
    then [mkTag [] "a"; mkTag [] "b"; mkTag [] (listing_script "B")]
    else [mkTag [] "a"]
  else Fixture.soup_select html css.

Definition lib : Lib :=
  mkLib (fun s => assoc s json_table)
        (int16 Fixture.lib) (py_str Fixture.lib) soup_select
        (rsa_encrypt_b64 Fixture.lib) (url_host Fixture.lib)
        (load_steam_guard Fixture.lib) (generate_one_time_code Fixture.lib)
        (generate_confirmation_key Fixture.lib) (generate_device_id Fixture.lib)
        (texts_between Fixture.lib) (str_lower Fixture.lib).

Definition api : string := "https://api.steampowered.com".

Definition provider (i : nat) (r : Request) : Outcome :=
  let url := req_url r in
  if String.eqb url (CONF_URL +:+ "/details/1") then Fixture.answer (listing_body "A")
  else if String.eqb url (CONF_URL +:+ "/details/2") then Fixture.answer (listing_body "B")
  else if String.eqb url (api +:+ "/CEconService/GetTradeOffers/v1")
  then Fixture.answer offers_body
  else if String.eqb url (api +:+ "/ISteamUser/GetPlayerSummaries/v0002") then
    match req_params r with
    | ParamDict d =>
        match assoc "steamids" d with
        | Some (PStr "76561197960287930") => Fixture.answer players_body
        | _ => Fixture.answer no_players_body
        end
    | _ => Fixture.answer no_players_body
    end
  else if String.eqb url (api +:+ "/IEconService/DeclineTradeOffer/v1")
  then Fixture.answer denied_body
  else if String.eqb url COMMUNITY_URL
  then Fixture.answer "<a href='/id/ALICE/'>Alice's profile</a>"
  else Fixture.provider i r.

Definition world : World := mkWorld (clock Fixture.world) provider.

Definition active (j : json) : bool :=
  match j with JNum 2 => true | _ => false end.

Definition logged_in : State :=
  set_client_username (Some "Alice") (set_was_login_executed true Fixture.fresh).

End Fixture3.

(** ** The query of a request

    What the HTTP library (yarl, from 1.6 on, as [requests] before it)
    makes of a [params=] mapping: a string or an integer gives one
    [key=value] pair, a list or tuple of them one pair per element. *)

Definition query_var (p : param) : result string :=
  match p with
  | PStr s => Ok s
  | PInt z => Ok (pretty z)
  | PTuple _ => Raise (TypeError "Invalid variable type")
  end.

Fixpoint query_vars (k : string) (l : list param) : result (list (string * string)) :=
  match l with
  | [] => Ok []
  | p :: l' =>
      match query_var p, query_vars k l' with
      | Ok v, Ok rest => Ok ((k, v) :: rest)
      | Raise e, _ => Raise e
      | _, Raise e => Raise e
      end
  end.

Fixpoint query_pairs (d : list (string * param)) : result (list (string * string)) :=
  match d with
  | [] => Ok []
  | (k, p) :: d' =>
      match (match p with PTuple l => query_vars k l | _ => query_vars k [p] end),
            query_pairs d' with
      | Ok here, Ok rest => Ok (here ++ rest)
      | Raise e, _ => Raise e
      | _, Raise e => Raise e
      end
  end.

(** ** A fourth provider: a captcha together with Steam Guard, and a
    transport that would answer the list request *)

Module Fixture4.

Definition both_body : string :=
  "{'success': false, 'captcha_needed': true, 'requires_twofactor': true}".

Definition json_table : list (string * json) :=
  (both_body, JObj [("success", JBool false); ("captcha_needed", JBool true);
                    ("requires_twofactor", JBool true)])
  :: Fixture.json_table.

Definition lib : Lib :=
  mkLib (fun s => assoc s json_table)
        (int16 Fixture.lib) (py_str Fixture.lib) (soup_select Fixture.lib)
        (rsa_encrypt_b64 Fixture.lib) (url_host Fixture.lib)
        (load_steam_guard Fixture.lib) (generate_one_time_code Fixture.lib)
        (generate_confirmation_key Fixture.lib) (generate_device_id Fixture.lib)
        (texts_between Fixture.lib) (str_lower Fixture.lib).

(** [grace] is asked for a captcha and a one-time code at once; the
    list request is answered whatever its parameters are. *)
Definition provider (i : nat) (r : Request) : Outcome :=
  let url := req_url r in
  if String.eqb url dologin_url then
    match Fixture.form_field "username" r with
    | Some (JStr "grace") => Fixture.answer both_body
    | _ => Fixture.provider i r
    end
  else if String.eqb url (CONF_URL +:+ "/conf") then Fixture.answer Fixture.empty_page
  else Fixture.provider i r.

Definition world : World := mkWorld (clock Fixture.world) provider.


End Fixture4.

(** * Properties *)

(** ** The monad *)

Lemma bind_eq_ok {A B : Type} (m : M A) (f : A -> M B) s a s1 :
  m s = (Ok a, s1) -> bind m f s = f a s1.
Proof. intros H. unfold bind. now rewrite H. Qed.

Lemma bind_eq_raise {A B : Type} (m : M A) (f : A -> M B) s e s1 :
  m s = (Raise e, s1) -> bind m f s = (Raise e, s1).
Proof. intros H. unfold bind. now rewrite H. Qed.


Lemma lift_ok_inv {A : Type} (r : result A) s a s' :
  lift r s = (Ok a, s') -> r = Ok a /\ s' = s.
Proof. destruct r; cbn; intros H; inversion H; auto. Qed.

Lemma of_option_ok_inv {A : Type} e (o : option A) s a s' :
  of_option e o s = (Ok a, s') -> o = Some a /\ s' = s.
Proof. destruct o; cbn; intros H; inversion H; auto. Qed.

(** ** The authentication flag is touched by [SteamClient.login] only *)


Create HintDb keeps.

Lemma keeps_ret {A : Type} (a : A) : keeps_flag (ret a).
Proof. now intros s. Qed.

Lemma keeps_raise {A : Type} e : keeps_flag (@raise A e).
Proof. now intros s. Qed.

Lemma keeps_bind {A B : Type} (m : M A) (f : A -> M B) :
  keeps_flag m -> (forall a, keeps_flag (f a)) -> keeps_flag (bind m f).
Proof.
  intros Hm Hf s. unfold bind. specialize (Hm s).
  destruct (m s) as [[a|e] s1]; cbn in *.
  - now rewrite Hf.
  - exact Hm.
Qed.

Lemma keeps_lift {A : Type} (r : result A) : keeps_flag (lift r).
Proof. destruct r; cbn; [apply keeps_ret | apply keeps_raise]. Qed.

Lemma keeps_of_option {A : Type} e (o : option A) : keeps_flag (of_option e o).
Proof. destruct o; cbn; [apply keeps_ret | apply keeps_raise]. Qed.

Lemma keeps_if {A : Type} (b : bool) (m1 m2 : M A) :
  keeps_flag m1 -> keeps_flag m2 -> keeps_flag (if b then m1 else m2).
Proof. now destruct b. Qed.

Lemma keeps_for_each {A : Type} (f : A -> M unit) l :
  (forall a, keeps_flag (f a)) -> keeps_flag (for_each f l).
Proof.
  intros Hf. induction l as [|x l IH]; cbn.
  - apply keeps_ret.
  - apply keeps_bind; auto.
Qed.

#[local] Hint Resolve keeps_ret keeps_raise keeps_lift keeps_of_option
  keeps_for_each : keeps.
#[local] Hint Extern 2 (keeps_flag (bind _ _)) => apply keeps_bind; [|intros] : keeps.
#[local] Hint Extern 2 (keeps_flag (if _ then _ else _)) => apply keeps_if : keeps.

Section Flag.

Variable L : Lib.
Variable W : World.

Lemma keeps_time_time : keeps_flag (time_time W).
Proof. now intros s. Qed.

Lemma keeps_session_request r : keeps_flag (session_request W r).
Proof.
  intros s. unfold session_request.
  now destruct (server W _ r).
Qed.

Lemma keeps_response_json r : keeps_flag (response_json L r).
Proof. unfold response_json. auto with keeps. Qed.

Lemma keeps_update_cookies n v u : keeps_flag (update_cookies L n v u).
Proof. now intros s. Qed.

#[local] Hint Resolve keeps_time_time keeps_session_request
  keeps_response_json keeps_update_cookies : keeps.

Lemma keeps_int_time : keeps_flag (int_time W).
Proof. unfold int_time. auto with keeps. Qed.

Lemma keeps_fetch_rsa_params self n : keeps_flag (_fetch_rsa_params L W self n).
Proof.
  unfold _fetch_rsa_params. do 2 (apply keeps_bind; [auto with keeps | intros]).
  destruct (parse_key_response L a0) as [d|[]]; auto with keeps.
Qed.

Lemma keeps_send_login_request self : keeps_flag (_send_login_request L W self).
Proof.
  unfold _send_login_request.
  apply keeps_bind; [apply keeps_fetch_rsa_params | intros p].
  apply keeps_bind; [| intros enc].
  { unfold _encrypt_password, rsa_key_of. destruct p; auto with keeps. }
  apply keeps_bind; [| intros ts].
  { unfold rsa_timestamp_of. destruct p; auto with keeps. }
  apply keeps_bind; [| intros data; auto with keeps].
  intros s. unfold _prepare_login_request_data.
  apply (keeps_bind (time_time W)); auto with keeps.
Qed.

Lemma keeps_guard_one_time_code secret : keeps_flag (guard_one_time_code L W secret).
Proof.
  unfold guard_one_time_code.
  apply keeps_bind; [apply keeps_int_time | intros t].
  apply keeps_bind; [auto with keeps | intros c]. now intros s.
Qed.

Lemma keeps_login self : keeps_flag (login L W self).
Proof.
  unfold login.
  apply keeps_bind; [apply keeps_send_login_request | intros r].
  apply keeps_bind; [| intros _].
  { unfold _check_for_captcha. auto 10 with keeps. }
  apply keeps_bind; [| intros r'].
  { unfold _enter_steam_guard_if_necessary.
    do 2 (apply keeps_bind; [auto with keeps | intros]).
    apply keeps_if; [| auto with keeps].
    apply keeps_bind; [apply keeps_guard_one_time_code | intros c].
    apply keeps_bind; [now intros s | intros _].
    apply keeps_send_login_request. }
  apply keeps_bind; [| intros _].
  { unfold _assert_valid_credentials. auto 10 with keeps. }
  apply keeps_bind; [auto with keeps | intros d].
  apply keeps_bind; [| intros _].
  { unfold _perform_redirects.
    apply keeps_bind; [auto with keeps | intros q].
    assert (Hloop : forall p, keeps_flag
      (transfer_urls <- lift (json_item "transfer_urls" d) ;;
       urls <- lift (json_iter transfer_urls) ;;
       for_each (fun url => u <- as_url url ;;
                   session_request W (mkRequest POST u NoParams (JsonData p) []) ;;;
                   ret tt) urls)).
    { intros p. do 2 (apply keeps_bind; [auto with keeps | intros]).
      apply keeps_for_each. intros url.
      apply keeps_bind; [destruct url; cbn; auto with keeps | intros].
      auto with keeps. }
    destruct (default JNull q); auto with keeps. }
  unfold set_sessionid_cookies.
  apply keeps_bind; [| intros v; auto with keeps].
  intros s. unfold cookie_value. cbn zeta.
  now destruct (jar_get help_domain "sessionid" _).
Qed.

End Flag.

(** ** client.py: the guard and the flag *)


(** An operation wrapped by the decorator, called while the flag is
    down, raises at once and leaves the state (so also the log of
    requests) as it was. *)
Lemma login_required_fails_fast {A : Type} (func : M A) s :
  was_login_executed s = false ->
  Client.login_required func s = (Raise not_logged_in, s).
Proof. intros H. unfold Client.login_required. now rewrite H. Qed.

Lemma login_required_passes {A : Type} (func : M A) s :
  was_login_executed s = true -> Client.login_required func s = func s.
Proof. intros H. unfold Client.login_required. now rewrite H. Qed.

Lemma is_session_alive_before_login L W s :
  was_login_executed s = false ->
  Client.is_session_alive L W s = (Raise not_logged_in, s).
Proof. apply login_required_fails_fast. Qed.

(** C10.  [SteamClient.login], started with the flag down, leaves it
    down whenever it raises, so that every decorated operation still
    raises [LoginRequired]; the flag is up afterwards exactly when the
    call returned, and then [LoginExecutor.login] has run to its end. *)
Theorem client_login_atomic L W u p g s r s' :
  was_login_executed s = false ->
  Client.login L W u p g s = (r, s') ->
  (was_login_executed s' = true <-> r = Ok tt) /\
  (forall e, r = Raise e ->
     was_login_executed s' = false /\
     forall (A : Type) (func : M A),
       Client.login_required func s' = (Raise not_logged_in, s')) /\
  (r = Ok tt ->
     exists guard secret s1 s2,
       load_steam_guard L g = Ok guard /\
       assoc "shared_secret" guard = Some secret /\
       login L W (mkLoginExecutor u p secret) s1 = (Ok tt, s2) /\
       s' = set_was_login_executed true s2).
Proof.
  intros Hs Hrun.
  assert (Hcases :
    (exists e, r = Raise e /\ was_login_executed s' = false) \/
    (r = Ok tt /\ exists guard secret s1 s2,
       load_steam_guard L g = Ok guard /\
       assoc "shared_secret" guard = Some secret /\
       login L W (mkLoginExecutor u p secret) s1 = (Ok tt, s2) /\
       s' = set_was_login_executed true s2)).
  { revert Hrun. unfold Client.login, bind.
    destruct (load_steam_guard L g) as [guard|e] eqn:Hg; cbn.
    2:{ intros H; inversion H; subst. left. eauto. }
    destruct (assoc "shared_secret" guard) as [secret|] eqn:Hsec; cbn.
    2:{ intros H; inversion H; subst. left. eauto. }
    match goal with |- context [login L W ?x ?st] =>
      pose proof (keeps_login L W x st) as Hk;
      destruct (login L W x st) as [[[]|e] s2] eqn:Hl end;
      cbn in Hk; intros H; inversion H; subst.
    - right. split; [reflexivity|]. eauto 10.
    - left. eexists; split; [reflexivity|]. now rewrite Hk. }
  destruct Hcases as [(e & -> & Hf) | (-> & guard & secret & s1 & s2 & Hg & Hsec & Hl & ->)].
  - split; [|split].
    + split; [congruence | discriminate].
    + intros e' _. split; [exact Hf|]. intros A func.
      now apply login_required_fails_fast.
    + discriminate.
  - split; [|split].
    + now split.
    + discriminate.
    + intros _. eauto 10.
Qed.

(** C7.  [get_trade_receipt] carries no decorator: called on a client
    that has not logged in, it does not raise [LoginRequired] first but
    hands the receipt request to the session. *)
Theorem get_trade_receipt_before_login L W trade_id s :
  was_login_executed s = false ->
  exists new,
    events (snd (Client.get_trade_receipt L W trade_id s)) =
      events s ++ Sent (mkRequest GET (Client.receipt_url trade_id) NoParams NoData []) :: new.
Proof.
  intros _. unfold Client.get_trade_receipt, bind, session_request.
  destruct (server W _ _) as [resp|e]; cbn.
  - match goal with |- context [map_m ?f ?l ?st] =>
      assert (Hev : forall l0 st0, events (snd (map_m f l0 st0)) = events st0) end.
    { induction l0 as [|x l0 IH]; intros st0; cbn; [reflexivity|].
      unfold bind. destruct (json_loads L x); cbn.
      - specialize (IH st0). destruct (map_m _ l0 st0) as [[ys|e] st1]; cbn in *; exact IH.
      - reflexivity. }
    exists []. rewrite Hev. reflexivity.
  - exists []. reflexivity.
Qed.

Lemma get_trade_receipt_before_login_witness :
  was_login_executed Fixture.fresh = false /\
  exists new,
    events (snd (Client.get_trade_receipt Fixture.lib Fixture.world "77" Fixture.fresh)) =
      events Fixture.fresh ++
      Sent (mkRequest GET (Client.receipt_url "77") NoParams NoData []) :: new.
Proof.
  split; [reflexivity|].
  apply (get_trade_receipt_before_login Fixture.lib Fixture.world "77" Fixture.fresh).
  reflexivity.
Defined.

Lemma client_login_atomic_witness :
  exists s',
    Client.login Fixture.lib Fixture.world "mallory" "guess" "c2VjcmV0" Fixture.fresh
      = (Raise (InvalidCredentials "{'success': False, 'message': 'Incorrect login.'}"), s') /\
    was_login_executed s' = false /\
    Client.is_session_alive Fixture.lib Fixture.world s' = (Raise not_logged_in, s').
Proof.
  eexists. split; [vm_compute; reflexivity|].
  match goal with |- was_login_executed ?st = _ /\ _ =>
    destruct (client_login_atomic Fixture.lib Fixture.world
                "mallory" "guess" "c2VjcmV0" Fixture.fresh
                (Raise (InvalidCredentials "{'success': False, 'message': 'Incorrect login.'}"))
                st) as (_ & Hraise & _) end.
  - reflexivity.
  - vm_compute. reflexivity.
  - destruct (Hraise _ eq_refl) as [Hflag Hguard].
    split; [exact Hflag | apply Hguard].
Defined.

(** ** login.py: following the transfer URLs *)


(** One turn of the loop of [_perform_redirects]. *)
Lemma redirect_step W p u s :
  let post := mkRequest POST u NoParams (JsonData p) [] in
  (v <- as_url (JStr u) ;;
   session_request W (mkRequest POST v NoParams (JsonData p) []) ;;; ret tt) s =
  match server W (length (requests (events s))) post with
  | Answer resp =>
      (Ok tt, set_cookie_jar
                (file_cookies (resp_cookies resp) (cookie_jar s))
                (set_events (fun l => l ++ [Sent post]) s))
  | Fails e => (Raise e, set_events (fun l => l ++ [Sent post]) s)
  end.
Proof.
  cbn zeta. unfold bind, session_request. cbn.
  now destruct (server W _ _).
Qed.

(** The loop over string URLs: whatever happens, the posts issued are
    an initial part of the list, in its order, each carrying the same
    payload, and the loop returns only after the whole list. *)
Lemma redirect_loop_prefix W p urls s r s' :
  let post := fun u => mkRequest POST u NoParams (JsonData p) [] in
  for_each (fun url => u <- as_url url ;;
              session_request W (post u) ;;; ret tt)
           (map JStr urls) s = (r, s') ->
  exists k,
    events s' = events s ++ map (fun u => Sent (post u)) (firstn k urls) /\
    (r = Ok tt -> k = length urls).
Proof.
  cbn zeta. revert s. induction urls as [|u urls IH]; intros s H.
  - inversion H; subst. exists 0%nat. split; [now rewrite app_nil_r | reflexivity].
  - cbn [map for_each] in H. unfold bind at 1 in H.
    rewrite redirect_step in H.
    destruct (server W _ _) as [resp|e].
    + apply IH in H. destruct H as (k & Hev & Hk).
      exists (S k). split.
      * rewrite Hev. cbn. now rewrite <- app_assoc.
      * intros Hr. cbn. now rewrite Hk.
    + inversion H; subst. exists 1%nat. split; [reflexivity | discriminate].
Qed.

Lemma redirect_loop_total W p urls s :
  let post := fun u => mkRequest POST u NoParams (JsonData p) [] in
  (forall i u, In u urls -> exists resp, server W i (post u) = Answer resp) ->
  exists s',
    for_each (fun url => u <- as_url url ;;
                session_request W (post u) ;;; ret tt)
             (map JStr urls) s = (Ok tt, s') /\
    events s' = events s ++ map (fun u => Sent (post u)) urls.
Proof.
  cbn zeta. revert s. induction urls as [|u urls IH]; intros s Hserver.
  - exists s. split; [reflexivity | now rewrite app_nil_r].
  - cbn [map for_each]. unfold bind at 1. rewrite redirect_step.
    destruct (Hserver (length (requests (events s))) u) as [resp Hresp]; [now left|].
    rewrite Hresp.
    match goal with |- context [for_each ?f ?l ?st] =>
      destruct (IH st) as (s' & Hrun & Hev) end.
    { intros i v Hv. apply Hserver. now right. }
    exists s'. split; [exact Hrun|].
    rewrite Hev. cbn. now rewrite <- app_assoc.
Qed.

(** C9.  Without [transfer_parameters] the step raises and the state,
    hence the log of requests, is untouched.  With a payload and a list
    of transfer URLs that the provider answers, the step returns after
    posting that one payload to each URL, in the order of the list. *)
Theorem perform_redirects_spec W d s :
  (assoc "transfer_parameters" d = None ->
     _perform_redirects W (JObj d) s = (Raise no_parameters, s)) /\
  (forall p urls,
     assoc "transfer_parameters" d = Some p -> p <> JNull ->
     assoc "transfer_urls" d = Some (JArr (map JStr urls)) ->
     (forall i u, In u urls ->
        exists resp, server W i (mkRequest POST u NoParams (JsonData p) []) = Answer resp) ->
     exists s',
       _perform_redirects W (JObj d) s = (Ok tt, s') /\
       events s' =
         events s ++ map (fun u => Sent (mkRequest POST u NoParams (JsonData p) [])) urls).
Proof.
  split.
  - intros Habs. unfold _perform_redirects, bind. cbn. now rewrite Habs.
  - intros p urls Hp Hnn Hurls Hserver.
    destruct (redirect_loop_total W p urls s Hserver) as (s' & Hrun & Hev).
    exists s'. split; [|exact Hev].
    unfold _perform_redirects, bind. cbn. rewrite Hp. cbn.
    destruct p; try congruence; cbn; rewrite Hurls; cbn; exact Hrun.
Qed.

Lemma perform_redirects_spec_witness :
  exists s',
    _perform_redirects Fixture.world
      (JObj [("success", JBool true);
             ("transfer_urls", JArr (map JStr [Fixture.transfer_community; Fixture.transfer_help]));
             ("transfer_parameters", Fixture.transfer_parameters)])
      Fixture.fresh = (Ok tt, s') /\
    events s' =
      [Sent (mkRequest POST Fixture.transfer_community NoParams (JsonData Fixture.transfer_parameters) []);
       Sent (mkRequest POST Fixture.transfer_help NoParams (JsonData Fixture.transfer_parameters) [])].
Proof.
  refine (proj2 (perform_redirects_spec Fixture.world _ Fixture.fresh)
            Fixture.transfer_parameters
            [Fixture.transfer_community; Fixture.transfer_help] _ _ _ _).
  - reflexivity.
  - discriminate.
  - reflexivity.
  - intros i u [<-|[<-|[]]]; eexists; vm_compute; reflexivity.
Defined.

(** The same step on the whole response: a payload that is present but
    [null] counts as absent. *)
Lemma perform_redirects_null W d s :
  assoc "transfer_parameters" d = Some JNull ->
  _perform_redirects W (JObj d) s = (Raise no_parameters, s).
Proof. intros H. unfold _perform_redirects, bind. cbn. now rewrite H. Qed.

(** ** login.py: rejected credentials *)

(** C8.  When the response to the submission has a false [success],
    no [captcha_needed] and no [requires_twofactor], [login] raises
    [InvalidCredentials] carrying [str(data)], in the very state the
    submission left: nothing was sent after it. *)
Theorem invalid_credentials_no_resubmission L W self s r s1 d v :
  _send_login_request L W self s = (Ok r, s1) ->
  json_loads L (resp_text r) = Some (JObj d) ->
  truthy (default (JBool false) (assoc "captcha_needed" d)) = false ->
  truthy (default JNull (assoc "requires_twofactor" d)) = false ->
  assoc "success" d = Some v ->
  truthy v = false ->
  login L W self s = (Raise (InvalidCredentials (py_str L (JObj d))), s1).
Proof.
  intros Hsend Hjson Hcap H2fa Hsucc Hv.
  unfold login. rewrite (bind_eq_ok _ _ _ _ _ Hsend).
  unfold _check_for_captcha, _enter_steam_guard_if_necessary,
    _assert_valid_credentials, response_json, bind.
  repeat first [ rewrite Hjson | rewrite Hcap | rewrite H2fa
               | rewrite Hsucc | rewrite Hv | progress cbn ].
  reflexivity.
Qed.

Lemma invalid_credentials_no_resubmission_witness :
  exists s1,
    login Fixture.lib Fixture.world Fixture.mallory Fixture.fresh =
      (Raise (InvalidCredentials "{'success': False, 'message': 'Incorrect login.'}"), s1) /\
    map req_url (requests (events s1)) =
      [STORE_URL +:+ "/login/getrsakey/"; dologin_url].
Proof.
  eexists. split.
  - eapply (invalid_credentials_no_resubmission Fixture.lib Fixture.world
              Fixture.mallory Fixture.fresh
              (mkResponse 200 Fixture.rejected_body []) _
              [("success", JBool false); ("message", JStr "Incorrect login.")]
              (JBool false)).
    + vm_compute. reflexivity.
    + reflexivity.
    + reflexivity.
    + reflexivity.
    + reflexivity.
    + reflexivity.
  - vm_compute. reflexivity.
Defined.

(** ** login.py: the RSA key and the submission *)



(** C5.  A key response without [publickey_mod], on any attempt below
    the bound, makes [_fetch_rsa_params] return the detached task of
    the next attempt instead of that attempt's result: one request has
    been sent, the next one is only queued, and the caller
    [_send_login_request] stops with a [TypeError] on the task. *)
Theorem fetch_rsa_params_hands_back_task L W self n s resp d :
  (n < maximal_number_of_repetitions)%nat ->
  server W (length (requests (events s))) (rsa_request self) = Answer resp ->
  json_loads L (resp_text resp) = Some (JObj d) ->
  assoc "publickey_mod" d = None ->
  exists s',
    _fetch_rsa_params L W self n s = (Ok (RsaTask (S n)), s') /\
    events s' = events s ++ [Sent (rsa_request self)] /\
    scheduled s' = scheduled s ++ [S n] /\
    (n = 0%nat ->
       _send_login_request L W self s = (Raise task_not_subscriptable, s')).
Proof.
  intros Hn Hserver Hjson Hmod.
  assert (Hfetch : forall m, (m < maximal_number_of_repetitions)%nat ->
    _fetch_rsa_params L W self m s =
      (Ok (RsaTask (S m)),
       set_scheduled (scheduled s ++ [S m])
         (set_cookie_jar (file_cookies (resp_cookies resp) (cookie_jar s))
            (set_events (fun l => l ++ [Sent (rsa_request self)]) s)))).
  { intros m Hm. unfold _fetch_rsa_params, bind, session_request, response_json.
    fold (rsa_request self). rewrite Hserver. cbn. rewrite Hjson. cbn.
    unfold parse_key_response, json_item. rewrite Hmod.
    unfold maximal_number_of_repetitions in *.
    destruct m as [|[|[|[|[|m]]]]]; [reflexivity .. | lia]. }
  eexists. split; [apply (Hfetch n Hn)|].
  split; [reflexivity|]. split; [reflexivity|].
  intros ->. unfold _send_login_request.
  rewrite (bind_eq_ok _ _ _ _ _ (Hfetch 0%nat Hn)). reflexivity.
Qed.

Lemma fetch_rsa_params_hands_back_task_witness :
  exists s',
    _fetch_rsa_params Fixture.lib Fixture.world Fixture.nokey 0 Fixture.fresh
      = (Ok (RsaTask 1), s') /\
    events s' = [Sent (rsa_request Fixture.nokey)] /\
    scheduled s' = [1%nat] /\
    _send_login_request Fixture.lib Fixture.world Fixture.nokey Fixture.fresh
      = (Raise task_not_subscriptable, s').
Proof.
  destruct (fetch_rsa_params_hands_back_task Fixture.lib Fixture.world
              Fixture.nokey 0 Fixture.fresh
              (mkResponse 200 Fixture.no_key_body [])
              [("success", JBool false)])
    as (s' & H1 & H2 & H3 & H4).
  - unfold maximal_number_of_repetitions. lia.
  - reflexivity.
  - reflexivity.
  - reflexivity.
  - exists s'. repeat split; auto.
Defined.

(** The detached attempts, if the event loop gets to run them, repeat
    the fetch with counters 1 to 5; the last raises inside its task. *)
Example detached_retries :
  let s1 := snd (_fetch_rsa_params Fixture.lib Fixture.world Fixture.nokey 0 Fixture.fresh) in
  let (outcomes, s2) :=
    run_scheduled_tasks Fixture.lib Fixture.world Fixture.nokey 10 s1 in
  outcomes = [Ok (RsaTask 2); Ok (RsaTask 3); Ok (RsaTask 4); Ok (RsaTask 5);
              Raise (ValueError "Could not obtain rsa-key")] /\
  length (requests (events s2)) = 6%nat.
Proof. vm_compute. split; reflexivity. Qed.

(** A key response with the three fields is parsed and returned after
    that single request; nothing is queued. *)
Lemma fetch_rsa_params_returns_key L W self n s resp d m x t rsa_mod rsa_exp :
  server W (length (requests (events s))) (rsa_request self) = Answer resp ->
  json_loads L (resp_text resp) = Some (JObj d) ->
  assoc "publickey_mod" d = Some m -> int16 L m = Ok rsa_mod ->
  assoc "publickey_exp" d = Some x -> int16 L x = Ok rsa_exp ->
  assoc "timestamp" d = Some t ->
  exists s',
    _fetch_rsa_params L W self n s = (Ok (RsaDict (rsa_mod, rsa_exp) t), s') /\
    events s' = events s ++ [Sent (rsa_request self)] /\
    scheduled s' = scheduled s.
Proof.
  intros Hserver Hjson Hm Hmi Hx Hxi Ht.
  eexists. split; [|split].
  - unfold _fetch_rsa_params, bind, session_request, response_json.
    fold (rsa_request self). rewrite Hserver. cbn. rewrite Hjson. cbn.
    unfold parse_key_response, json_item. rewrite Hm, Hmi, Hx, Hxi, Ht. reflexivity.
  - reflexivity.
  - reflexivity.
Qed.

(** What a submission leaves in the log: the key request alone when it
    does not get through, else the key request and one post of the form,
    whose [twofactorcode] is the executor's current one-time code. *)
Lemma send_login_request_events L W self s r s' :
  _send_login_request L W self s = (r, s') ->
  one_time_code s' = one_time_code s /\
  ((events s' = events s ++ [Sent (rsa_request self)] /\
    forall resp, r <> Ok resp) \/
   (exists data,
      events s' = events s ++
        [Sent (rsa_request self);
         Sent (mkRequest POST dologin_url NoParams (Form data) [])] /\
      assoc "twofactorcode" data = Some (JStr (one_time_code s)))).
Proof.
  unfold _send_login_request, _fetch_rsa_params, _encrypt_password,
    _prepare_login_request_data, rsa_key_of, rsa_timestamp_of, ensure_future,
    response_json, time_time, session_request, bind, of_option.
  fold (rsa_request self). cbn.
  destruct (server W _ (rsa_request self)) as [resp|e]; cbn.
  2:{ intros H; inversion H; subst; cbn. split; [reflexivity|]. left. now split. }
  destruct (json_loads L (resp_text resp)) as [kr|]; cbn.
  2:{ intros H; inversion H; subst; cbn. split; [reflexivity|]. left. now split. }
  destruct (parse_key_response L kr) as [[k t|m]|e]; cbn.
  - destruct (rsa_encrypt_b64 L (password self) k) as [enc|]; cbn.
    2:{ intros H; inversion H; subst; cbn. split; [reflexivity|]. left. now split. }
    destruct (server W _ _) as [resp2|e2]; cbn;
      intros H; inversion H; subst; cbn; (split; [reflexivity|]); right;
      eexists; (split; [rewrite <- app_assoc; reflexivity | reflexivity]).
  - intros H; inversion H; subst; cbn. split; [reflexivity|]. left. now split.
  - destruct e; cbn;
      intros H; inversion H; subst; cbn; (split; [reflexivity|]); left; now split.
Qed.

Lemma codes_app l1 l2 : codes (l1 ++ l2) = codes l1 ++ codes l2.
Proof.
  induction l1 as [|[r|c] l1 IH]; cbn; [reflexivity | exact IH | now rewrite IH].
Qed.

Lemma requests_app l1 l2 : requests (l1 ++ l2) = requests l1 ++ requests l2.
Proof.
  induction l1 as [|[r|c] l1 IH]; cbn; [reflexivity | now rewrite IH | exact IH].
Qed.

(** ** login.py: the Steam Guard step *)

(** The whole login of an account with Steam Guard: one code, two
    submissions, then the transfers. *)
Example login_with_steam_guard :
  let (r, s) := login Fixture.lib Fixture.world Fixture.alice Fixture.fresh in
  r = Ok tt /\
  codes (events s) = ["otp@51377280"] /\
  map req_url (requests (events s)) =
    [STORE_URL +:+ "/login/getrsakey/"; dologin_url;
     STORE_URL +:+ "/login/getrsakey/"; dologin_url;
     Fixture.transfer_community; Fixture.transfer_help].
Proof. vm_compute. repeat split; reflexivity. Qed.

(** ** login.py: the session identifier on the other origins *)

Lemma jar_get_set_eq d n v j : jar_get d n (jar_set d n v j) = Some v.
Proof.
  unfold jar_get, jar_set. rewrite lookup_insert_eq. cbn.
  apply lookup_insert_eq.
Qed.

Lemma jar_get_set_same_value d d' n v j :
  jar_get d n j = Some v -> jar_get d n (jar_set d' n v j) = Some v.
Proof.
  intros H. destruct (decide (d' = d)) as [->|Hne].
  - apply jar_get_set_eq.
  - unfold jar_get, jar_set. rewrite lookup_insert_ne; [exact H | exact Hne].
Qed.

Lemma jar_get_touch d n d' j : jar_get d n (jar_touch d' j) = jar_get d n j.
Proof.
  unfold jar_get, jar_touch. destruct (j !! d') as [c|] eqn:Hd'; [reflexivity|].
  destruct (decide (d' = d)) as [->|Hne].
  - rewrite lookup_insert_eq, Hd'. cbn. apply lookup_empty.
  - now rewrite lookup_insert_ne.
Qed.






(** ** confirmation.py: scanning and allowing *)





Lemma select_cons L W self c rest target s :
  _select_trade_offer_confirmation L W self (c :: rest) target s =
  match resolve L W self c s with
  | (Ok i, s1) =>
      if String.eqb i target then (Ok c, s1)
      else _select_trade_offer_confirmation L W self rest target s1
  | (Raise e, s1) => (Raise e, s1)
  end.
Proof.
  cbn [_select_trade_offer_confirmation]. unfold resolve, bind.
  destruct (_fetch_confirmation_details_page L W self c s) as [[page|e] s1];
    [|reflexivity].
  destruct (_get_confirmation_trade_offer_id L page s1) as [[i|e] s2];
    [|reflexivity].
  now destruct (String.eqb i target).
Qed.

(** A turn that yields an identifier has sent exactly the detail
    request of its confirmation. *)
Lemma resolve_events L W self c s i s1 :
  resolve L W self c s = (Ok i, s1) ->
  exists params,
    events s1 = events s ++
      [Sent (mkRequest GET (details_url c) (ParamDict params) NoData [])].
Proof.
  unfold resolve, _fetch_confirmation_details_page, _create_confirmation_params,
    _get_confirmation_trade_offer_id, int_time, time_time, response_json,
    session_request, bind. cbn.
  destruct (generate_confirmation_key L _ _ _) as [k|e]; cbn; [|discriminate].
  destruct (generate_device_id L _) as [dev|e]; cbn; [|discriminate].
  destruct (server W _ _) as [resp|e]; cbn; [|discriminate].
  destruct (json_loads L _) as [j|]; cbn; [|discriminate].
  destruct (json_item "html" j) as [page|e]; cbn; [|discriminate].
  destruct (trade_offer_id_of L page) as [i'|e]; cbn; [|discriminate].
  intros H; inversion H; subst; cbn. eexists. reflexivity.
Qed.

Lemma details_url_is_not_allow c : String.eqb (details_url c) ajaxop_url = false.
Proof.
  apply String.eqb_neq. intros H.
  apply (f_equal (String.get 38)) in H. vm_compute in H. discriminate.
Qed.

Lemma filter_allow_details cs :
  forall new, map req_url new = map details_url cs -> List.filter is_allow new = [].
Proof.
  induction cs as [|c cs IH]; intros [|r new] H; try discriminate; [reflexivity|].
  cbn in H. inversion H as [[Hr Hnew]]. cbn. unfold is_allow at 1.
  rewrite Hr, details_url_is_not_allow. now apply IH.
Qed.

(** A scan over entries none of which matches: [ConfirmationExpected],
    after one detail request per entry, in list order. *)
Lemma select_misses L W self target cs s s1 :
  scan_misses L W self target cs s = Some s1 ->
  _select_trade_offer_confirmation L W self cs target s =
    (Raise ConfirmationExpected, s1) /\
  exists new,
    requests (events s1) = requests (events s) ++ new /\
    map req_url new = map details_url cs.
Proof.
  revert s. induction cs as [|c cs IH]; intros s H.
  - cbn in H. inversion H; subst. split; [reflexivity|].
    exists []. split; [now rewrite app_nil_r | reflexivity].
  - rewrite select_cons. cbn [scan_misses] in H.
    destruct (resolve L W self c s) as [[i|e] s0] eqn:Hres; [|discriminate].
    destruct (String.eqb i target); [discriminate|].
    destruct (IH _ H) as (Hsel & new & Hreq & Hurls).
    split; [exact Hsel|].
    destruct (resolve_events _ _ _ _ _ _ _ Hres) as (params & Hev).
    eexists (_ :: new). split.
    + rewrite Hreq, Hev, requests_app. cbn. rewrite <- app_assoc. reflexivity.
    + cbn. now rewrite Hurls.
Qed.

(** A scan that meets a matching entry after entries that do not match
    returns that entry; the entries behind it are not asked about. *)
Lemma select_hits L W self target pre c post s s1 s2 :
  scan_misses L W self target pre s = Some s1 ->
  resolve L W self c s1 = (Ok target, s2) ->
  _select_trade_offer_confirmation L W self (pre ++ c :: post) target s =
    (Ok c, s2) /\
  exists new,
    requests (events s2) = requests (events s) ++ new /\
    map req_url new = map details_url (pre ++ [c]).
Proof.
  revert s. induction pre as [|c0 pre IH]; intros s Hpre Hc.
  - cbn in Hpre. inversion Hpre; subst. cbn [app]. rewrite select_cons, Hc.
    rewrite String.eqb_refl. split; [reflexivity|].
    destruct (resolve_events _ _ _ _ _ _ _ Hc) as (params & Hev).
    eexists [_]. split; [rewrite Hev, requests_app; reflexivity | reflexivity].
  - cbn [app]. rewrite select_cons. cbn [scan_misses] in Hpre.
    destruct (resolve L W self c0 s) as [[i|e] s0] eqn:Hres; [|discriminate].
    destruct (String.eqb i target); [discriminate|].
    destruct (IH _ Hpre Hc) as (Hsel & new & Hreq & Hurls).
    split; [exact Hsel|].
    destruct (resolve_events _ _ _ _ _ _ _ Hres) as (params & Hev).
    eexists (_ :: new). split.
    + rewrite Hreq, Hev, requests_app. cbn. rewrite <- app_assoc. reflexivity.
    + cbn. now rewrite Hurls.
Qed.

(** What [_send_confirmation] hands to the session when signing works. *)
Lemma send_confirmation_events L W self c s k dev :
  generate_confirmation_key L (_identity_secret self) "allow"
    (Z.quot (clock W (ticks s)) 1000) = Ok k ->
  generate_device_id L (_my_steam_id self) = Ok dev ->
  events (snd (_send_confirmation L W self c s)) =
    events s ++
    [Sent (allow_request
       [("p", PStr dev); ("a", PStr (_my_steam_id self)); ("k", PStr k);
        ("t", PInt (Z.quot (clock W (ticks s)) 1000)); ("m", PStr "android");
        ("tag", PStr "allow"); ("op", PTuple [PStr "allow"]);
        ("cid", PStr (data_confid c)); ("ck", PStr (data_key c))])].
Proof.
  intros Hk Hdev.
  unfold _send_confirmation, _create_confirmation_params, int_time, time_time,
    response_json, session_request, bind. cbn.
  rewrite Hk. cbn. rewrite Hdev. cbn.
  destruct (server W _ _) as [resp|e]; cbn; [|reflexivity].
  now destruct (json_loads L _).
Qed.

(** C2.  Selecting and allowing, on a list whose entries up to [c] do
    not resolve to [target] while [c] does: the detail pages of those
    entries and of [c] are requested in list order, nothing is asked
    about the entries behind [c], and one request goes to the allow
    endpoint, with [c]'s [data_confid] as [cid] and [data_key] as [ck].
    On a list no entry of which resolves to [target]: one detail request
    per entry, no allow request, and [ConfirmationExpected]. *)
Theorem scan_stops_at_first_match L W self target :
  (forall pre c post s s1 s2 k dev,
     scan_misses L W self target pre s = Some s1 ->
     resolve L W self c s1 = (Ok target, s2) ->
     generate_confirmation_key L (_identity_secret self) "allow"
       (Z.quot (clock W (ticks s2)) 1000) = Ok k ->
     generate_device_id L (_my_steam_id self) = Ok dev ->
     let run :=
       (confirmation <-
          _select_trade_offer_confirmation L W self (pre ++ c :: post) target ;;
        _send_confirmation L W self confirmation) s in
     run = _send_confirmation L W self c s2 /\
     exists params new,
       requests (events (snd run)) = requests (events s) ++ new /\
       map req_url new = map details_url (pre ++ [c]) ++ [ajaxop_url] /\
       List.filter is_allow new = [allow_request params] /\
       assoc "cid" params = Some (PStr (data_confid c)) /\
       assoc "ck" params = Some (PStr (data_key c))) /\
  (forall cs s s1,
     scan_misses L W self target cs s = Some s1 ->
     (confirmation <- _select_trade_offer_confirmation L W self cs target ;;
      _send_confirmation L W self confirmation) s
       = (Raise ConfirmationExpected, s1) /\
     exists new,
       requests (events s1) = requests (events s) ++ new /\
       map req_url new = map details_url cs /\
       List.filter is_allow new = []).
Proof.
  split.
  - intros pre c post s s1 s2 k dev Hpre Hc Hk Hdev run.
    destruct (select_hits _ _ _ _ _ _ post _ _ _ Hpre Hc)
      as (Hsel & new & Hreq & Hurls).
    assert (Hrun : run = _send_confirmation L W self c s2).
    { unfold run. now rewrite (bind_eq_ok _ _ _ _ _ Hsel). }
    split; [exact Hrun|].
    eexists _, (new ++ [_]). rewrite Hrun.
    rewrite (send_confirmation_events _ _ _ _ _ _ _ Hk Hdev).
    rewrite requests_app, Hreq, <- app_assoc. cbn [requests].
    split; [reflexivity|]. split; [|split].
    + rewrite map_app, Hurls. reflexivity.
    + rewrite List.filter_app, (filter_allow_details _ _ Hurls). reflexivity.
    + split; reflexivity.
  - intros cs s s1 Hcs.
    destruct (select_misses _ _ _ _ _ _ _ Hcs) as (Hsel & new & Hreq & Hurls).
    split; [now rewrite (bind_eq_raise _ _ _ _ _ Hsel)|].
    exists new. split; [exact Hreq|]. split; [exact Hurls|].
    exact (filter_allow_details _ _ Hurls).
Qed.

Lemma scan_stops_at_first_match_witness :
  let run :=
    (confirmation <-
       _select_trade_offer_confirmation Fixture.lib Fixture.world Fixture.executor
         Fixture.three_confirmations "B" ;;
     _send_confirmation Fixture.lib Fixture.world Fixture.executor confirmation)
      Fixture.fresh in
  (exists params new,
     requests (events (snd run)) = new /\
     map req_url new =
       [CONF_URL +:+ "/details/1"; CONF_URL +:+ "/details/2"; ajaxop_url] /\
     List.filter is_allow new = [allow_request params] /\
     assoc "cid" params = Some (PStr "confid2") /\
     assoc "ck" params = Some (PStr "key2")) /\
  exists s1,
    (confirmation <-
       _select_trade_offer_confirmation Fixture.lib Fixture.world Fixture.executor
         Fixture.three_confirmations "Z" ;;
     _send_confirmation Fixture.lib Fixture.world Fixture.executor confirmation)
      Fixture.fresh = (Raise ConfirmationExpected, s1) /\
    map req_url (requests (events s1)) =
      [CONF_URL +:+ "/details/1"; CONF_URL +:+ "/details/2"; CONF_URL +:+ "/details/3"].
Proof.
  split.
  - destruct (proj1 (scan_stops_at_first_match Fixture.lib Fixture.world
                       Fixture.executor "B")
                [mkConfirmation "1" "confid1" "key1"]
                (mkConfirmation "2" "confid2" "key2")
                [mkConfirmation "3" "confid3" "key3"]
                Fixture.fresh
                (snd (resolve Fixture.lib Fixture.world Fixture.executor
                        (mkConfirmation "1" "confid1" "key1") Fixture.fresh))
                (snd (resolve Fixture.lib Fixture.world Fixture.executor
                        (mkConfirmation "2" "confid2" "key2")
                        (snd (resolve Fixture.lib Fixture.world Fixture.executor
                                (mkConfirmation "1" "confid1" "key1") Fixture.fresh))))
                "sig(allow@1541318403)" "android:76561197991861652")
      as (_ & params & new & H1 & H2 & H3 & H4 & H5).
    + vm_compute. reflexivity.
    + vm_compute. reflexivity.
    + vm_compute. reflexivity.
    + reflexivity.
    + exists params, new. repeat split; assumption.
  - destruct (proj2 (scan_stops_at_first_match Fixture.lib Fixture.world
                       Fixture.executor "Z")
                Fixture.three_confirmations Fixture.fresh
                (snd (_select_trade_offer_confirmation Fixture.lib Fixture.world
                        Fixture.executor Fixture.three_confirmations "Z"
                        Fixture.fresh)))
      as (Hrun & new & H1 & H2 & _).
    + vm_compute. reflexivity.
    + eexists. split; [exact Hrun|]. rewrite H1. exact H2.
Defined.

(** C3.  The allow request is a GET to the ajax endpoint whose query
    carries [op=allow], the confirmation's [data_confid] as [cid] and
    [data_key] as [ck], and as [k] the confirmation key signed for the
    tag [allow] at the time [t] that [_send_confirmation] reads from the
    clock itself, a reading it uses up.  The list fetch before it never
    reads the clock, so there is no earlier signature to reuse. *)
Theorem allow_request_query L W self c s k dev :
  generate_confirmation_key L (_identity_secret self) "allow"
    (Z.quot (clock W (ticks s)) 1000) = Ok k ->
  generate_device_id L (_my_steam_id self) = Ok dev ->
  let run := _send_confirmation L W self c s in
  exists params,
    events (snd run) = events s ++ [Sent (allow_request params)] /\
    req_method (allow_request params) = GET /\
    req_url (allow_request params) = "https://steamcommunity.com/mobileconf/ajaxop" /\
    query_pairs params =
      Ok [("p", dev); ("a", _my_steam_id self); ("k", k);
          ("t", pretty (Z.quot (clock W (ticks s)) 1000)); ("m", "android");
          ("tag", "allow"); ("op", "allow");
          ("cid", data_confid c); ("ck", data_key c)] /\
    ticks (snd run) = S (ticks s) /\
    (forall s0, ticks (snd (_fetch_confirmations_page W self s0)) = ticks s0).
Proof.
  intros Hk Hdev. cbn zeta. eexists.
  split; [exact (send_confirmation_events _ _ _ _ _ _ _ Hk Hdev)|].
  split; [reflexivity|]. split; [reflexivity|]. split; [reflexivity|]. split.
  - unfold _send_confirmation, _create_confirmation_params, int_time, time_time,
      response_json, session_request, bind. cbn.
    rewrite Hk. cbn. rewrite Hdev. cbn.
    destruct (server W _ _) as [resp|e]; cbn; [|reflexivity].
    now destruct (json_loads L _).
  - intros s0. unfold _fetch_confirmations_page, session_request, bind.
    destruct (server W _ _) as [resp|e]; cbn; [|reflexivity].
    now destruct (contains _ _).
Qed.

Lemma allow_request_query_witness :
  exists params,
    events (snd (_send_confirmation Fixture.lib Fixture.world Fixture.executor
                   (mkConfirmation "2" "confid2" "key2") Fixture.fresh)) =
      [Sent (allow_request params)] /\
    query_pairs params =
      Ok [("p", "android:76561197991861652"); ("a", "76561197991861652");
          ("k", "sig(allow@1541318400)"); ("t", "1541318400"); ("m", "android");
          ("tag", "allow"); ("op", "allow"); ("cid", "confid2"); ("ck", "key2")].
Proof.
  destruct (allow_request_query Fixture.lib Fixture.world Fixture.executor
              (mkConfirmation "2" "confid2" "key2") Fixture.fresh
              "sig(allow@1541318400)" "android:76561197991861652"
              eq_refl eq_refl)
    as (params & H1 & _ & _ & H2 & _).
  exists params. split; [exact H1 | exact H2].
Defined.

(** ** confirmation.py: the list of confirmations *)


(** [_fetch_confirmations_page] returns the body text, and
    [_get_confirmations] asks that string for [.text]: it never gets to
    look for the empty marker, whatever the page. *)
Lemma get_confirmations_never_returns L W self s :
  forall l, fst (_get_confirmations L W self s) <> Ok l.
Proof.
  intros l. unfold _get_confirmations, _fetch_confirmations_page,
    session_request, bind. cbn.
  destruct (server W _ _) as [resp|e]; cbn; [|discriminate].
  destruct (contains _ _); cbn; discriminate.
Qed.

(** C1.  The branch that returns the empty list for a page with the
    empty marker is never reached: for every provider
    [_get_confirmations] raises, with the transport's error when the
    list request is refused, else with [InvalidCredentials] or with the
    [AttributeError] of [.text] on the body text; so neither it nor
    [send_trade_allow_request] ever returns an empty result. *)
Theorem empty_marker_branch_is_never_reached L W self trade_offer_id s :
  (forall confirmations,
     fst (_get_confirmations L W self s) <> Ok confirmations) /\
  (forall result,
     fst (send_trade_allow_request L W self trade_offer_id s) <> Ok result) /\
  match server W (length (requests (events s)))
          (mkRequest GET (CONF_URL +:+ "/conf") (ParamCoroutine "conf") NoData
             [("X-Requested-With", "com.valvesoftware.android.steam.community")])
  with
  | Fails e => fst (_get_confirmations L W self s) = Raise e
  | Answer resp =>
      fst (_get_confirmations L W self s) =
        Raise (InvalidCredentials "Invalid Steam Guard file") \/
      fst (_get_confirmations L W self s) = Raise str_has_no_text
  end.
Proof.
  assert (Hget : forall l, fst (_get_confirmations L W self s) <> Ok l)
    by apply get_confirmations_never_returns.
  split; [exact Hget|]. split.
  - intros result. unfold send_trade_allow_request, bind.
    destruct (_get_confirmations L W self s) as [[l|e] s1]; cbn in *.
    + now destruct (Hget l).
    + discriminate.
  - unfold _get_confirmations, _fetch_confirmations_page, session_request, bind.
    destruct (server W _ _) as [resp|e]; cbn; [|reflexivity].
    destruct (contains _ _); cbn; [now left | now right].
Qed.

(** The same at a page with the empty marker: under the transport as it
    is, which refuses the parameter coroutine, and under one that would
    answer the request. *)
Example empty_marker_page_raises :
  soup_select Fixture.lib Fixture.empty_page "#mobileconf_empty" <> [] /\
  fst (_get_confirmations Fixture.lib Fixture.world Fixture.executor Fixture.fresh)
    = Raise (TypeError "Invalid query type") /\
  fst (_get_confirmations Fixture4.lib Fixture4.world Fixture.executor Fixture.fresh)
    = Raise str_has_no_text /\
  fst (send_trade_allow_request Fixture4.lib Fixture4.world Fixture.executor "B"
         Fixture.fresh) = Raise str_has_no_text.
Proof.
  split; [vm_compute; discriminate|]. repeat split; vm_compute; reflexivity.
Qed.

(** * Further properties *)

(** ** How much a computation adds to the log *)

Section Weights.

Variable weight : Event -> nat.

Lemma aam_ret {A : Type} (a : A) n : adds_at_most weight n (ret a).
Proof. intros s. exists []. cbn. split; [now rewrite app_nil_r | lia]. Qed.

Lemma aam_raise {A : Type} e n : adds_at_most weight n (@raise A e).
Proof. intros s. exists []. cbn. split; [now rewrite app_nil_r | lia]. Qed.

Lemma aam_weaken {A : Type} (m : M A) n n' :
  (n <= n')%nat -> adds_at_most weight n m -> adds_at_most weight n' m.
Proof.
  intros Hn Hm s. destruct (Hm s) as (new & Hev & Hw).
  exists new. split; [exact Hev | lia].
Qed.

Lemma aam_bind {A B : Type} (m : M A) (f : A -> M B) n1 n2 :
  adds_at_most weight n1 m ->
  (forall a, adds_at_most weight n2 (f a)) ->
  adds_at_most weight (n1 + n2) (bind m f).
Proof.
  intros Hm Hf s. unfold bind. destruct (Hm s) as (new1 & Hev1 & Hw1).
  destruct (m s) as [[a|e] s1]; cbn in *.
  - destruct (Hf a s1) as (new2 & Hev2 & Hw2).
    exists (new1 ++ new2). split.
    + now rewrite Hev2, Hev1, <- app_assoc.
    + rewrite map_app, list_sum_app. lia.
  - exists new1. split; [exact Hev1 | lia].
Qed.

Lemma aam_bind0 {A B : Type} (m : M A) (f : A -> M B) n :
  adds_at_most weight 0 m ->
  (forall a, adds_at_most weight n (f a)) ->
  adds_at_most weight n (bind m f).
Proof. intros Hm Hf. change n with (0 + n)%nat. now apply aam_bind. Qed.

Lemma aam_lift {A : Type} (r : result A) n : adds_at_most weight n (lift r).
Proof. destruct r; cbn; [apply aam_ret | apply aam_raise]. Qed.

Lemma aam_of_option {A : Type} e (o : option A) n :
  adds_at_most weight n (of_option e o).
Proof. destruct o; cbn; [apply aam_ret | apply aam_raise]. Qed.

Lemma aam_for_each {A : Type} (f : A -> M unit) l :
  (forall a, adds_at_most weight 0 (f a)) ->
  adds_at_most weight 0 (for_each f l).
Proof.
  intros Hf. induction l as [|x l IH]; cbn.
  - apply aam_ret.
  - apply aam_bind0; auto.
Qed.

Lemma aam_state_only {A : Type} (a : A) (g : State -> State) n :
  (forall s, events (g s) = events s) ->
  adds_at_most weight n (fun s => (Ok a, g s)).
Proof.
  intros Hg s. exists []. cbn. split; [now rewrite Hg, app_nil_r | lia].
Qed.

Lemma aam_session_request W r :
  adds_at_most weight (weight (Sent r)) (session_request W r).
Proof.
  intros s. exists [Sent r]. unfold session_request.
  destruct (server W _ r); cbn; (split; [reflexivity | lia]).
Qed.

Lemma aam_time_time W n : adds_at_most weight n (time_time W).
Proof. intros s. exists []. cbn. split; [now rewrite app_nil_r | lia]. Qed.

Lemma aam_response_json L r n : adds_at_most weight n (response_json L r).
Proof. apply aam_of_option. Qed.

End Weights.

(** ** login.py: how far a login can go *)

Section LoginWeight.

Variable L : Lib.
Variable W : World.
Variable weight : Event -> nat.
Variables a b : nat.
Hypothesis weight_code : forall c, weight (OneTimeCode c) = b.
Hypothesis weight_post :
  forall u p, weight (Sent (mkRequest POST u NoParams (JsonData p) [])) = 0%nat.
Hypothesis weight_send :
  forall self, adds_at_most weight a (_send_login_request L W self).

Lemma aam_guard_one_time_code secret :
  adds_at_most weight b (guard_one_time_code L W secret).
Proof.
  unfold guard_one_time_code, int_time.
  apply aam_bind0; [|intros t].
  { apply aam_bind0; [apply aam_time_time | intros; apply aam_ret]. }
  apply aam_bind0; [apply aam_lift | intros code].
  intros s. exists [OneTimeCode code]. cbn. rewrite weight_code.
  split; [reflexivity | lia].
Qed.

Lemma aam_enter_steam_guard self r :
  adds_at_most weight (b + a) (_enter_steam_guard_if_necessary L W self r).
Proof.
  unfold _enter_steam_guard_if_necessary.
  apply aam_bind0; [apply aam_response_json | intros data].
  apply aam_bind0; [apply aam_lift | intros flag].
  destruct (truthy _); [|apply aam_ret].
  apply aam_bind; [apply aam_guard_one_time_code | intros code].
  apply aam_bind0; [now apply aam_state_only | intros _].
  apply weight_send.
Qed.

Lemma aam_perform_redirects d : adds_at_most weight 0 (_perform_redirects W d).
Proof.
  unfold _perform_redirects.
  apply aam_bind0; [apply aam_lift | intros q].
  assert (Hloop : forall p, adds_at_most weight 0
    (transfer_urls <- lift (json_item "transfer_urls" d) ;;
     urls <- lift (json_iter transfer_urls) ;;
     for_each (fun url => u <- as_url url ;;
                 session_request W (mkRequest POST u NoParams (JsonData p) []) ;;;
                 ret tt) urls)).
  { intros p. do 2 (apply aam_bind0; [apply aam_lift | intros]).
    apply aam_for_each. intros url.
    apply aam_bind0; [destruct url; cbn; first [apply aam_ret | apply aam_raise] | intros u].
    apply aam_bind0; [|intros; apply aam_ret].
    rewrite <- (weight_post u p). apply aam_session_request. }
  destruct (default JNull q); first [apply aam_raise | apply Hloop].
Qed.

Lemma aam_set_sessionid_cookies : adds_at_most weight 0 (set_sessionid_cookies L).
Proof.
  unfold set_sessionid_cookies.
  apply aam_bind0; [| intros v].
  { intros s. exists []. unfold cookie_value. cbn zeta.
    destruct (jar_get help_domain "sessionid" _); cbn;
      (split; [now rewrite app_nil_r | lia]). }
  apply aam_bind0; [now apply aam_state_only | intros _].
  now apply aam_state_only.
Qed.

Lemma aam_login self : adds_at_most weight (a + (b + a)) (login L W self).
Proof.
  unfold login.
  apply aam_bind; [apply weight_send | intros r].
  apply aam_bind0; [| intros _].
  { unfold _check_for_captcha.
    apply aam_bind0; [apply aam_response_json | intros data].
    apply aam_bind0; [apply aam_lift | intros flag].
    destruct (truthy _); [apply aam_raise | apply aam_ret]. }
  replace (b + a)%nat with ((b + a) + 0)%nat by lia.
  apply aam_bind; [apply aam_enter_steam_guard | intros r'].
  apply aam_bind0; [| intros _].
  { unfold _assert_valid_credentials.
    apply aam_bind0; [apply aam_response_json | intros data].
    apply aam_bind0; [apply aam_lift | intros v].
    destruct (negb _); [apply aam_raise | apply aam_ret]. }
  apply aam_bind0; [apply aam_response_json | intros d].
  apply aam_bind0; [apply aam_perform_redirects | intros _].
  apply aam_set_sessionid_cookies.
Qed.

End LoginWeight.

Lemma send_login_request_no_code L W self :
  adds_at_most is_code 0 (_send_login_request L W self).
Proof.
  intros s. destruct (_send_login_request L W self s) as [r s'] eqn:Hrun.
  apply send_login_request_events in Hrun.
  destruct Hrun as [_ [[Hev _] | (data & Hev & _)]];
    eexists; (split; [exact Hev | cbn; lia]).
Qed.

Lemma send_login_request_one_submission L W self :
  adds_at_most is_submission 1 (_send_login_request L W self).
Proof.
  intros s. destruct (_send_login_request L W self s) as [r s'] eqn:Hrun.
  apply send_login_request_events in Hrun.
  destruct Hrun as [_ [[Hev _] | (data & Hev & _)]];
    eexists; (split; [exact Hev | vm_compute; lia]).
Qed.

Lemma sum_is_code l : list_sum (map is_code l) = length (codes l).
Proof.
  induction l as [|[r|c] l IH]; [reflexivity | exact IH |].
  change (S (list_sum (map is_code l)) = S (length (codes l))).
  now rewrite IH.
Qed.

(** X1.  Whatever the provider answers, one run of [login] obtains at
    most one one-time code and posts the credentials form at most
    twice: the Steam Guard step is a single retry, not a loop. *)
Theorem login_is_bounded L W self s :
  exists new,
    events (snd (login L W self s)) = events s ++ new /\
    (length (codes new) <= 1)%nat /\
    (list_sum (map is_submission new) <= 2)%nat.
Proof.
  destruct (aam_login L W is_code 0 1 (fun _ => eq_refl) (fun _ _ => eq_refl)
              (send_login_request_no_code L W) self s) as (new & Hev & Hc).
  destruct (aam_login L W is_submission 1 0 (fun _ => eq_refl) (fun _ _ => eq_refl)
              (send_login_request_one_submission L W) self s) as (new' & Hev' & Hs).
  assert (new' = new) by (rewrite Hev in Hev'; now apply app_inv_head in Hev').
  subst new'. exists new. split; [exact Hev|].
  rewrite <- sum_is_code. split; [exact Hc | exact Hs].
Qed.

(** ** login.py: the Steam Guard step within a login *)






(** ** login.py: the captcha check comes first *)

(** X2.  A first response with a truthy [captcha_needed] ends the login
    with [CaptchaRequired] in the state the submission left, whatever
    else the response says (also when it asks for a one-time code): no
    code is generated and nothing more is sent. *)
Theorem captcha_stops_login L W self s r s1 d v :
  _send_login_request L W self s = (Ok r, s1) ->
  json_loads L (resp_text r) = Some (JObj d) ->
  assoc "captcha_needed" d = Some v ->
  truthy v = true ->
  login L W self s = (Raise (CaptchaRequired "Captcha required"), s1).
Proof.
  intros Hsend Hjson Hcap Hv.
  unfold login. rewrite (bind_eq_ok _ _ _ _ _ Hsend).
  unfold _check_for_captcha, response_json, bind.
  rewrite Hjson. cbn. rewrite Hcap. cbn. now rewrite Hv.
Qed.

Lemma captcha_stops_login_witness :
  exists s1,
    login Fixture2.lib Fixture2.world Fixture2.carol Fixture.fresh =
      (Raise (CaptchaRequired "Captcha required"), s1) /\
    codes (events s1) = [] /\
    map req_url (requests (events s1)) =
      [STORE_URL +:+ "/login/getrsakey/"; dologin_url].
Proof.
  eexists. split.
  - eapply (captcha_stops_login Fixture2.lib Fixture2.world Fixture2.carol
              Fixture.fresh (mkResponse 200 Fixture.captcha_body []) _
              [("success", JBool false); ("captcha_needed", JBool true)]
              (JBool true)).
    + vm_compute. reflexivity.
    + reflexivity.
    + reflexivity.
    + reflexivity.
  - split; vm_compute; reflexivity.
Defined.

(** ** login.py: the key fetch, case by case *)

(** What one call of [_fetch_rsa_params] does once the provider has
    answered with a JSON object without [publickey_mod]. *)
Lemma fetch_rsa_params_missing_mod L W self n s resp d :
  server W (length (requests (events s))) (rsa_request self) = Answer resp ->
  json_loads L (resp_text resp) = Some (JObj d) ->
  assoc "publickey_mod" d = None ->
  let s1 := set_cookie_jar (file_cookies (resp_cookies resp) (cookie_jar s))
              (set_events (fun l => l ++ [Sent (rsa_request self)]) s) in
  _fetch_rsa_params L W self n s =
    if (n <? maximal_number_of_repetitions)%nat
    then (Ok (RsaTask (S n)), set_scheduled (scheduled s ++ [S n]) s1)
    else (Raise (ValueError "Could not obtain rsa-key"), s1).
Proof.
  intros Hserver Hjson Hmod. cbn zeta.
  unfold _fetch_rsa_params, bind, session_request, response_json.
  fold (rsa_request self). rewrite Hserver. cbn [of_option ret].
  rewrite Hjson. cbn [of_option ret].
  unfold parse_key_response, json_item. rewrite Hmod.
  now destruct (n <? maximal_number_of_repetitions)%nat.
Qed.

(** X3.  From the fifth repetition on, a key response without
    [publickey_mod] makes [_fetch_rsa_params] raise
    [ValueError('Could not obtain rsa-key')] after its one request;
    nothing further is queued. *)
Theorem fetch_rsa_params_gives_up L W self n s resp d :
  (maximal_number_of_repetitions <= n)%nat ->
  server W (length (requests (events s))) (rsa_request self) = Answer resp ->
  json_loads L (resp_text resp) = Some (JObj d) ->
  assoc "publickey_mod" d = None ->
  exists s',
    _fetch_rsa_params L W self n s =
      (Raise (ValueError "Could not obtain rsa-key"), s') /\
    events s' = events s ++ [Sent (rsa_request self)] /\
    scheduled s' = scheduled s.
Proof.
  intros Hn Hserver Hjson Hmod.
  rewrite (fetch_rsa_params_missing_mod _ _ _ n _ _ _ Hserver Hjson Hmod).
  apply Nat.ltb_ge in Hn. rewrite Hn.
  eexists. split; [reflexivity|]. split; reflexivity.
Qed.

Lemma fetch_rsa_params_gives_up_witness :
  exists s',
    _fetch_rsa_params Fixture.lib Fixture.world Fixture.nokey 5 Fixture.fresh =
      (Raise (ValueError "Could not obtain rsa-key"), s') /\
    events s' = [Sent (rsa_request Fixture.nokey)] /\
    scheduled s' = [].
Proof.
  apply (fetch_rsa_params_gives_up Fixture.lib Fixture.world Fixture.nokey 5
           Fixture.fresh (mkResponse 200 Fixture.no_key_body [])
           [("success", JBool false)]).
  - unfold maximal_number_of_repetitions. lia.
  - reflexivity.
  - reflexivity.
  - reflexivity.
Defined.

(** X4.  Only a missing key is retried.  A modulus that [int(.., 16)]
    rejects with anything but a [KeyError] ends the call with that
    error on any repetition, and a body that is not JSON ends it with
    the decoder's error; in both cases one request was sent and nothing
    is queued. *)
Theorem fetch_rsa_params_other_errors L W self n s resp :
  server W (length (requests (events s))) (rsa_request self) = Answer resp ->
  (forall d m e,
     json_loads L (resp_text resp) = Some (JObj d) ->
     assoc "publickey_mod" d = Some m ->
     int16 L m = Raise e ->
     (forall k, e <> KeyError k) ->
     exists s',
       _fetch_rsa_params L W self n s = (Raise e, s') /\
       events s' = events s ++ [Sent (rsa_request self)] /\
       scheduled s' = scheduled s) /\
  (json_loads L (resp_text resp) = None ->
     exists s',
       _fetch_rsa_params L W self n s = (Raise JSONDecodeError, s') /\
       events s' = events s ++ [Sent (rsa_request self)] /\
       scheduled s' = scheduled s).
Proof.
  intros Hserver. split.
  - intros d m e Hjson Hmod Hint Hne.
    unfold _fetch_rsa_params, bind, session_request, response_json.
    fold (rsa_request self). rewrite Hserver. cbn [of_option ret].
    rewrite Hjson. cbn [of_option ret].
    unfold parse_key_response, json_item. rewrite Hmod, Hint.
    destruct e; try (eexists; split; [reflexivity|]; split; reflexivity).
    now destruct (Hne key).
  - intros Hjson.
    unfold _fetch_rsa_params, bind, session_request, response_json.
    fold (rsa_request self). rewrite Hserver. cbn [of_option ret].
    rewrite Hjson. eexists. split; [reflexivity|]. split; reflexivity.
Qed.

Lemma fetch_rsa_params_other_errors_witness :
  exists s',
    _fetch_rsa_params Fixture2.lib Fixture2.world Fixture2.frank 0 Fixture.fresh =
      (Raise (ValueError "invalid literal for int()"), s') /\
    events s' = [Sent (rsa_request Fixture2.frank)] /\
    scheduled s' = [].
Proof.
  apply (proj1 (fetch_rsa_params_other_errors Fixture2.lib Fixture2.world
                  Fixture2.frank 0 Fixture.fresh
                  (mkResponse 200 Fixture2.bad_key_body []) eq_refl)
           [("success", JBool true); ("publickey_mod", JStr "xyz")]
           (JStr "xyz") (ValueError "invalid literal for int()")).
  - reflexivity.
  - reflexivity.
  - reflexivity.
  - discriminate.
Defined.

(** X5.  A key response that has the three fields, with hexadecimal
    modulus and exponent, is returned parsed on any repetition, after
    that one request and with nothing queued. *)
Theorem fetch_rsa_params_parses_key L W self n s resp d m x t rsa_mod rsa_exp :
  server W (length (requests (events s))) (rsa_request self) = Answer resp ->
  json_loads L (resp_text resp) = Some (JObj d) ->
  assoc "publickey_mod" d = Some m -> int16 L m = Ok rsa_mod ->
  assoc "publickey_exp" d = Some x -> int16 L x = Ok rsa_exp ->
  assoc "timestamp" d = Some t ->
  exists s',
    _fetch_rsa_params L W self n s = (Ok (RsaDict (rsa_mod, rsa_exp) t), s') /\
    events s' = events s ++ [Sent (rsa_request self)] /\
    scheduled s' = scheduled s.
Proof. apply fetch_rsa_params_returns_key. Qed.

Lemma fetch_rsa_params_parses_key_witness :
  exists s',
    _fetch_rsa_params Fixture.lib Fixture.world Fixture.alice 3 Fixture.fresh =
      (Ok (RsaDict (197, 17) (JStr "288000")), s') /\
    events s' = [Sent (rsa_request Fixture.alice)] /\
    scheduled s' = [].
Proof.
  apply (fetch_rsa_params_parses_key Fixture.lib Fixture.world Fixture.alice 3
           Fixture.fresh (mkResponse 200 Fixture.key_body [])
           [("success", JBool true); ("publickey_mod", JStr "c5");
            ("publickey_exp", JStr "11"); ("timestamp", JStr "288000")]
           (JStr "c5") (JStr "11") (JStr "288000") 197 17);
    reflexivity.
Defined.

(** One turn of the event loop on a queue holding one repetition. *)
Lemma run_scheduled_task_missing_mod L W self n s resp d :
  (forall i, server W i (rsa_request self) = Answer resp) ->
  json_loads L (resp_text resp) = Some (JObj d) ->
  assoc "publickey_mod" d = None ->
  scheduled s = [n] ->
  exists s',
    run_scheduled_task L W self s =
      Some (if (n <? maximal_number_of_repetitions)%nat
            then Ok (RsaTask (S n))
            else Raise (ValueError "Could not obtain rsa-key"), s') /\
    events s' = events s ++ [Sent (rsa_request self)] /\
    scheduled s' = if (n <? maximal_number_of_repetitions)%nat then [S n] else [].
Proof.
  intros Hserver Hjson Hmod Hq. unfold run_scheduled_task. rewrite Hq.
  rewrite (fetch_rsa_params_missing_mod _ _ _ n _ _ _ (Hserver _) Hjson Hmod).
  destruct (n <? maximal_number_of_repetitions)%nat;
    eexists; (split; [reflexivity|]); split; reflexivity.
Qed.

(** X6.  Against a provider that never sends a key, the attempts chained
    through detached tasks end: if the event loop runs them, the five
    queued repetitions send one request each, the last one raises
    [ValueError] inside its task, and the queue is empty, six requests
    in all counting the awaited call. *)
Theorem detached_retries_are_bounded L W self s resp d fuel :
  (forall i, server W i (rsa_request self) = Answer resp) ->
  json_loads L (resp_text resp) = Some (JObj d) ->
  assoc "publickey_mod" d = None ->
  scheduled s = [] ->
  (5 <= fuel)%nat ->
  let s1 := snd (_fetch_rsa_params L W self 0 s) in
  let run := run_scheduled_tasks L W self fuel s1 in
  fst run = [Ok (RsaTask 2); Ok (RsaTask 3); Ok (RsaTask 4); Ok (RsaTask 5);
             Raise (ValueError "Could not obtain rsa-key")] /\
  events (snd run) = events s ++ repeat (Sent (rsa_request self)) 6 /\
  scheduled (snd run) = [].
Proof.
  intros Hserver Hjson Hmod Hq Hfuel. cbn zeta.
  rewrite (fetch_rsa_params_missing_mod _ _ _ 0 _ _ _ (Hserver _) Hjson Hmod).
  cbn [snd Nat.ltb Nat.leb maximal_number_of_repetitions].
  match goal with |- context [run_scheduled_tasks _ _ _ _ ?st] =>
    set (s1 := st);
    assert (Hq1 : scheduled s1 = [1%nat]) by (unfold s1; cbn; now rewrite Hq);
    assert (Hev1 : events s1 = events s ++ [Sent (rsa_request self)]) by reflexivity
  end.
  clearbody s1.
  destruct fuel as [|[|[|[|[|fuel]]]]]; try lia. clear Hfuel.
  destruct (run_scheduled_task_missing_mod _ _ _ 1 s1 _ _ Hserver Hjson Hmod Hq1)
    as (s2 & Hr2 & Hev2 & Hq2).
  destruct (run_scheduled_task_missing_mod _ _ _ 2 s2 _ _ Hserver Hjson Hmod Hq2)
    as (s3 & Hr3 & Hev3 & Hq3).
  destruct (run_scheduled_task_missing_mod _ _ _ 3 s3 _ _ Hserver Hjson Hmod Hq3)
    as (s4 & Hr4 & Hev4 & Hq4).
  destruct (run_scheduled_task_missing_mod _ _ _ 4 s4 _ _ Hserver Hjson Hmod Hq4)
    as (s5 & Hr5 & Hev5 & Hq5).
  destruct (run_scheduled_task_missing_mod _ _ _ 5 s5 _ _ Hserver Hjson Hmod Hq5)
    as (s6 & Hr6 & Hev6 & Hq6).
  cbn [Nat.ltb Nat.leb maximal_number_of_repetitions] in *.
  assert (Hstop : forall k, run_scheduled_tasks L W self k s6 = ([], s6)).
  { intros [|k]; [reflexivity|]. cbn. unfold run_scheduled_task. now rewrite Hq6. }
  cbn [run_scheduled_tasks]. rewrite Hr2, Hr3, Hr4, Hr5, Hr6, Hstop. cbn.
  split; [reflexivity|]. split; [|exact Hq6].
  rewrite Hev6, Hev5, Hev4, Hev3, Hev2, Hev1, <- !app_assoc. reflexivity.
Qed.

Lemma detached_retries_are_bounded_witness :
  let s1 := snd (_fetch_rsa_params Fixture.lib Fixture.world Fixture.nokey 0
                   Fixture.fresh) in
  let run := run_scheduled_tasks Fixture.lib Fixture.world Fixture.nokey 7 s1 in
  fst run = [Ok (RsaTask 2); Ok (RsaTask 3); Ok (RsaTask 4); Ok (RsaTask 5);
             Raise (ValueError "Could not obtain rsa-key")] /\
  events (snd run) = repeat (Sent (rsa_request Fixture.nokey)) 6 /\
  scheduled (snd run) = [].
Proof.
  apply (detached_retries_are_bounded Fixture.lib Fixture.world Fixture.nokey
           Fixture.fresh (mkResponse 200 Fixture.no_key_body [])
           [("success", JBool false)] 7).
  - intros i. reflexivity.
  - reflexivity.
  - reflexivity.
  - reflexivity.
  - lia.
Defined.

(** ** login.py: one submission *)

(** X7.  One call of [_send_login_request] asks for the key once and
    posts the form at most once; it returns a response only after
    posting, and the form's [twofactorcode] is the one-time code the
    executor held on entry (empty on a first attempt), which the call
    does not change. *)
Theorem submission_carries_current_code L W self s r s' :
  _send_login_request L W self s = (r, s') ->
  one_time_code s' = one_time_code s /\
  ((events s' = events s ++ [Sent (rsa_request self)] /\
    forall resp, r <> Ok resp) \/
   (exists data,
      events s' = events s ++
        [Sent (rsa_request self);
         Sent (mkRequest POST dologin_url NoParams (Form data) [])] /\
      assoc "twofactorcode" data = Some (JStr (one_time_code s)) /\
      assoc "username" data = Some (JStr (username self)))).
Proof.
  intros Hrun. split; [exact (proj1 (send_login_request_events _ _ _ _ _ _ Hrun))|].
  revert Hrun.
  unfold _send_login_request, _fetch_rsa_params, _encrypt_password,
    _prepare_login_request_data, rsa_key_of, rsa_timestamp_of, ensure_future,
    response_json, time_time, session_request, bind, of_option.
  fold (rsa_request self). cbn.
  destruct (server W _ (rsa_request self)) as [resp|e]; cbn.
  2:{ intros H; inversion H; subst; cbn. left. now split. }
  destruct (json_loads L (resp_text resp)) as [kr|]; cbn.
  2:{ intros H; inversion H; subst; cbn. left. now split. }
  destruct (parse_key_response L kr) as [[k t|m]|e]; cbn.
  - destruct (rsa_encrypt_b64 L (password self) k) as [enc|]; cbn.
    2:{ intros H; inversion H; subst; cbn. left. now split. }
    destruct (server W _ _) as [resp2|e2]; cbn;
      intros H; inversion H; subst; cbn; right;
      eexists; (split; [rewrite <- app_assoc; reflexivity | split; reflexivity]).
  - intros H; inversion H; subst; cbn. left. now split.
  - destruct e; cbn; intros H; inversion H; subst; cbn; left; now split.
Qed.

Lemma submission_carries_current_code_witness :
  exists r s' data,
    _send_login_request Fixture.lib Fixture.world Fixture.alice
      (set_one_time_code "12345" Fixture.fresh) = (Ok r, s') /\
    events s' =
      [Sent (rsa_request Fixture.alice);
       Sent (mkRequest POST dologin_url NoParams (Form data) [])] /\
    assoc "twofactorcode" data = Some (JStr "12345").
Proof.
  destruct (_send_login_request Fixture.lib Fixture.world Fixture.alice
              (set_one_time_code "12345" Fixture.fresh)) as [r s'] eqn:Hrun.
  assert (Hr : exists resp, r = Ok resp).
  { apply (f_equal fst) in Hrun. vm_compute in Hrun. rewrite <- Hrun. eauto. }
  destruct Hr as [resp ->].
  destruct (submission_carries_current_code _ _ _ _ _ _ Hrun)
    as [_ [[_ Hno] | (data & Hev & Hcode & _)]].
  - now destruct (Hno resp).
  - exists resp, s', data. repeat split; assumption.
Defined.

(** ** login.py: the resubmission is judged on [success] alone *)

(** X8.  After a response asking for a one-time code, the response to
    the resubmission is not checked for a captcha or for another
    two-factor request: if its [success] is false the login ends with
    [InvalidCredentials] carrying that second response, whatever its
    other flags say. *)
Theorem resubmission_is_judged_on_success_only
    L W self s r1 s1 d1 v code r2 s2 d2 w :
  _send_login_request L W self s = (Ok r1, s1) ->
  json_loads L (resp_text r1) = Some (JObj d1) ->
  truthy (default (JBool false) (assoc "captcha_needed" d1)) = false ->
  assoc "requires_twofactor" d1 = Some v ->
  truthy v = true ->
  generate_one_time_code L (shared_secret self)
    (Z.quot (clock W (ticks s1)) 1000) = Ok code ->
  _send_login_request L W self
    (set_one_time_code code
       (set_events (fun l => l ++ [OneTimeCode code])
          (set_ticks (S (ticks s1)) s1))) = (Ok r2, s2) ->
  json_loads L (resp_text r2) = Some (JObj d2) ->
  assoc "success" d2 = Some w ->
  truthy w = false ->
  login L W self s = (Raise (InvalidCredentials (py_str L (JObj d2))), s2).
Proof.
  intros Hsend Hj1 Hcap Hflag Hv Hgen Hsend2 Hj2 Hsucc Hw.
  unfold login. rewrite (bind_eq_ok _ _ _ _ _ Hsend).
  assert (Hcheck : _check_for_captcha L r1 s1 = (Ok tt, s1)).
  { unfold _check_for_captcha, response_json, bind.
    rewrite Hj1. cbn. now rewrite Hcap. }
  rewrite (bind_eq_ok _ _ _ _ _ Hcheck).
  assert (Henter : _enter_steam_guard_if_necessary L W self r1 s1 = (Ok r2, s2)).
  { unfold _enter_steam_guard_if_necessary, response_json, bind at 1 2.
    rewrite Hj1. cbn. rewrite Hflag. cbn. rewrite Hv.
    unfold guard_one_time_code, int_time, time_time, bind. cbn.
    rewrite Hgen. cbn. exact Hsend2. }
  rewrite (bind_eq_ok _ _ _ _ _ Henter).
  unfold _assert_valid_credentials, response_json, bind.
  rewrite Hj2. cbn. rewrite Hsucc. cbn. now rewrite Hw.
Qed.

Lemma resubmission_is_judged_on_success_only_witness :
  exists s2,
    login Fixture2.lib Fixture2.world Fixture2.eve Fixture.fresh =
      (Raise (InvalidCredentials "{'success': False, 'requires_twofactor': True}"), s2) /\
    codes (events s2) = ["otp@51377280"] /\
    map req_url (requests (events s2)) =
      [STORE_URL +:+ "/login/getrsakey/"; dologin_url;
       STORE_URL +:+ "/login/getrsakey/"; dologin_url].
Proof.
  eexists. split.
  - eapply (resubmission_is_judged_on_success_only Fixture2.lib Fixture2.world
              Fixture2.eve Fixture.fresh
              (mkResponse 200 Fixture.twofactor_body []) _
              [("success", JBool false); ("requires_twofactor", JBool true)]
              (JBool true) "otp@51377280"
              (mkResponse 200 Fixture.twofactor_body []) _
              [("success", JBool false); ("requires_twofactor", JBool true)]
              (JBool false)).
    + vm_compute. reflexivity.
    + reflexivity.
    + reflexivity.
    + reflexivity.
    + reflexivity.
    + vm_compute. reflexivity.
    + vm_compute. reflexivity.
    + reflexivity.
    + reflexivity.
    + reflexivity.
  - split; vm_compute; reflexivity.
Defined.

(** ** login.py: what the redirect step sends when it fails *)

(** X9.  With a payload and a list of transfer URLs, whatever the
    provider does, the posts of [_perform_redirects] are an initial part
    of that list, in order, each with the payload: the first post that
    fails ends the step and the URLs after it are not contacted; the
    step returns only after the whole list. *)
Theorem perform_redirects_posts_prefix W d p urls s r s' :
  assoc "transfer_parameters" d = Some p ->
  p <> JNull ->
  assoc "transfer_urls" d = Some (JArr (map JStr urls)) ->
  _perform_redirects W (JObj d) s = (r, s') ->
  exists k,
    (k <= length urls)%nat /\
    events s' =
      events s ++
      map (fun u => Sent (mkRequest POST u NoParams (JsonData p) []))
          (firstn k urls) /\
    (r = Ok tt -> k = length urls).
Proof.
  intros Hp Hnn Hurls Hrun.
  assert (Hloop :
    for_each (fun url => u <- as_url url ;;
                session_request W (mkRequest POST u NoParams (JsonData p) []) ;;;
                ret tt)
             (map JStr urls) s = (r, s')).
  { revert Hrun. unfold _perform_redirects, bind. cbn. rewrite Hp. cbn.
    destruct p; try congruence; cbn; rewrite Hurls; cbn; auto. }
  destruct (redirect_loop_prefix _ _ _ _ _ _ Hloop) as (k & Hev & Hk).
  exists (Nat.min k (length urls)). split; [lia|]. split.
  - rewrite Hev. f_equal. f_equal.
    destruct (Nat.le_ge_cases k (length urls)) as [Hle|Hge].
    + now rewrite Nat.min_l.
    + rewrite Nat.min_r by exact Hge.
      now rewrite !firstn_all2 by lia.
  - intros Hr. rewrite (Hk Hr). apply Nat.min_id.
Qed.

Lemma perform_redirects_posts_prefix_witness :
  exists s',
    _perform_redirects Fixture.world
      (JObj [("transfer_parameters", Fixture.transfer_parameters);
             ("transfer_urls",
              JArr (map JStr [Fixture.transfer_community;
                              "https://unknown.example/transfer";
                              Fixture.transfer_help]))])
      Fixture.fresh = (Raise (ClientError "cannot connect"), s') /\
    map req_url (requests (events s')) =
      [Fixture.transfer_community; "https://unknown.example/transfer"].
Proof.
  eexists. split; [vm_compute; reflexivity|].
  match goal with |- context [events ?st] =>
    destruct (perform_redirects_posts_prefix Fixture.world
                [("transfer_parameters", Fixture.transfer_parameters);
                 ("transfer_urls",
                  JArr (map JStr [Fixture.transfer_community;
                                  "https://unknown.example/transfer";
                                  Fixture.transfer_help]))]
                Fixture.transfer_parameters
                [Fixture.transfer_community; "https://unknown.example/transfer";
                 Fixture.transfer_help]
                Fixture.fresh (Raise (ClientError "cannot connect")) st)
      as (k & Hk & Hev & _)
  end.
  - reflexivity.
  - discriminate.
  - reflexivity.
  - vm_compute. reflexivity.
  - vm_compute. reflexivity.
Defined.

(** X10.  Edge cases of the redirect step, none of which sends anything:
    a [transfer_parameters] that is JSON [null] is treated like a
    missing one; a payload without [transfer_urls] is a [KeyError]; a
    response that is not an object has no [get]. *)
Theorem perform_redirects_edge_cases W s :
  (forall d, assoc "transfer_parameters" d = Some JNull ->
     _perform_redirects W (JObj d) s = (Raise no_parameters, s)) /\
  (forall d p, assoc "transfer_parameters" d = Some p -> p <> JNull ->
     assoc "transfer_urls" d = None ->
     _perform_redirects W (JObj d) s = (Raise (KeyError "transfer_urls"), s)) /\
  (forall j, (forall d, j <> JObj d) ->
     _perform_redirects W j s = (Raise (AttributeError "get"), s)).
Proof.
  split; [|split].
  - intros d H. now apply perform_redirects_null.
  - intros d p Hp Hnn Hurls. unfold _perform_redirects, bind. cbn.
    rewrite Hp. cbn. destruct p; try congruence; cbn; now rewrite Hurls.
  - intros j Hj. destruct j; try reflexivity. now destruct (Hj d).
Qed.

Lemma perform_redirects_edge_cases_witness :
  _perform_redirects Fixture.world
    (JObj [("success", JBool true); ("transfer_parameters", JNull);
           ("transfer_urls", JArr [JStr Fixture.transfer_help])])
    Fixture.fresh = (Raise no_parameters, Fixture.fresh) /\
  _perform_redirects Fixture.world
    (JObj [("success", JBool true);
           ("transfer_parameters", Fixture.transfer_parameters)])
    Fixture.fresh = (Raise (KeyError "transfer_urls"), Fixture.fresh) /\
  _perform_redirects Fixture.world (JArr []) Fixture.fresh =
    (Raise (AttributeError "get"), Fixture.fresh).
Proof.
  destruct (perform_redirects_edge_cases Fixture.world Fixture.fresh)
    as (H1 & H2 & H3).
  split; [|split].
  - apply H1. reflexivity.
  - apply (H2 _ Fixture.transfer_parameters); [reflexivity | discriminate | reflexivity].
  - apply H3. discriminate.
Defined.

(** ** login.py: the cookies the propagation leaves alone *)

Lemma jar_get_set_other_name d d' n n' v j :
  n <> n' -> jar_get d n (jar_set d' n' v j) = jar_get d n j.
Proof.
  intros Hn. unfold jar_get, jar_set.
  destruct (decide (d' = d)) as [->|Hd].
  - rewrite lookup_insert_eq. cbn. rewrite lookup_insert_ne by congruence.
    destruct (j !! d) as [c|]; cbn; [reflexivity | apply lookup_empty].
  - now rewrite lookup_insert_ne.
Qed.

Lemma jar_get_set_other_domain d d' n n' v j :
  d <> d' -> jar_get d n (jar_set d' n' v j) = jar_get d n j.
Proof.
  intros Hd. unfold jar_get, jar_set. rewrite lookup_insert_ne; congruence.
Qed.

(** X11.  [set_sessionid_cookies] changes nothing but the [sessionid]
    cookie of the two target entries: every cookie of another name, and
    every cookie of another domain entry, reads as before, and nothing
    is sent.  When [help.steampowered.com] holds no [sessionid] the step
    raises [KeyError]; the lookup has by then filed an entry for
    [help.steampowered.com], empty if there was none, and nothing else
    of the state has changed. *)
Theorem set_sessionid_cookies_frame L s :
  let run := set_sessionid_cookies L s in
  events (snd run) = events s /\
  (forall d n,
     n <> "sessionid" \/
     (d <> url_host L community_domain /\ d <> url_host L store_domain) ->
     jar_get d n (cookie_jar (snd run)) = jar_get d n (cookie_jar s)) /\
  (jar_get help_domain "sessionid" (cookie_jar s) = None ->
     fst run = Raise (KeyError "sessionid") /\
     snd run = set_cookie_jar (jar_touch help_domain (cookie_jar s)) s /\
     cookie_jar (snd run) !! help_domain =
       Some (default ∅ (cookie_jar s !! help_domain)) /\
     (forall d n, jar_get d n (cookie_jar (snd run)) = jar_get d n (cookie_jar s))).
Proof.
  cbn zeta. unfold set_sessionid_cookies, cookie_value, bind, update_cookies.
  cbn zeta. cbn [cookie_jar set_cookie_jar].
  rewrite jar_get_touch.
  destruct (jar_get help_domain "sessionid" (cookie_jar s)) as [v|] eqn:Hv; cbn.
  - split; [reflexivity|]. split; [|discriminate].
    intros d n [Hn | [Hc Hs]].
    + now rewrite !jar_get_set_other_name, jar_get_touch.
    + now rewrite !jar_get_set_other_domain, jar_get_touch.
  - split; [reflexivity|]. split; [intros d n _; apply jar_get_touch|].
    intros _. split; [reflexivity|]. split; [reflexivity|].
    split; [|intros d n; apply jar_get_touch].
    unfold jar_touch. destruct (cookie_jar s !! help_domain) as [c|] eqn:Hc; cbn.
    + exact Hc.
    + apply lookup_insert_eq.
Qed.

Lemma set_sessionid_cookies_frame_witness :
  let s := set_cookie_jar
             (jar_set "help.steampowered.com" "steamLogin" "7656%7C%7Cabc"
                (jar_set "help.steampowered.com" "sessionid" "s3ss10n" ∅))
             Fixture.fresh in
  jar_get "help.steampowered.com" "steamLogin"
    (cookie_jar (snd (set_sessionid_cookies Fixture.lib s))) = Some "7656%7C%7Cabc" /\
  fst (set_sessionid_cookies Fixture.lib Fixture.fresh) = Raise (KeyError "sessionid") /\
  cookie_jar Fixture.fresh !! "help.steampowered.com" = None /\
  cookie_jar (snd (set_sessionid_cookies Fixture.lib Fixture.fresh))
    !! "help.steampowered.com" = Some ∅.
Proof.
  cbn zeta. split.
  - match goal with |- context [set_sessionid_cookies _ ?st] =>
      destruct (set_sessionid_cookies_frame Fixture.lib st) as (_ & Hframe & _)
    end.
    rewrite Hframe; [vm_compute; reflexivity | left; discriminate].
  - destruct (set_sessionid_cookies_frame Fixture.lib Fixture.fresh)
      as (_ & _ & Hmiss).
    destruct (Hmiss eq_refl) as (Hraise & _ & Hentry & _).
    split; [exact Hraise|]. split; [reflexivity|]. exact Hentry.
Defined.

(** ** Strings: [in] and [split] *)

Lemma append_cons c a b : String c a +:+ b = String c (a +:+ b).
Proof. reflexivity. Qed.

Lemma append_empty_l b : "" +:+ b = b.
Proof. reflexivity. Qed.

Lemma append_empty_r s : s +:+ "" = s.
Proof.
  induction s as [|c s IH]; [reflexivity | now rewrite append_cons, IH].
Qed.

Lemma append_assoc_string a b c : (a +:+ b) +:+ c = a +:+ (b +:+ c).
Proof.
  induction a as [|x a IH]; [reflexivity | now rewrite !append_cons, IH].
Qed.

Lemma prefix_append n b : String.prefix n (n +:+ b) = true.
Proof.
  induction n as [|c n IH]; [now destruct b|].
  rewrite append_cons. cbn [String.prefix].
  destruct (Ascii.ascii_dec c c); [exact IH | congruence].
Qed.

(** A text with [n] somewhere in it contains [n]. *)
Lemma contains_append n a b : contains n (a +:+ n +:+ b) = true.
Proof.
  induction a as [|c a IH].
  - rewrite append_empty_l. destruct (n +:+ b) eqn:E; cbn [contains];
      rewrite <- E, prefix_append; reflexivity.
  - rewrite append_cons. cbn [contains]. rewrite IH. apply orb_true_r.
Qed.

Lemma contains_cons_false sep c s :
  contains sep (String c s) = false ->
  String.prefix sep (String c s) = false /\ contains sep s = false.
Proof. cbn [contains]. intros H. now apply orb_false_iff in H. Qed.

(** Without an occurrence of the separator, [split] yields the string
    itself as its single piece. *)
Lemma split_go_no_sep sep s cur :
  contains sep s = false -> split_go sep s 0 cur = [cur +:+ s].
Proof.
  revert cur. induction s as [|c s IH]; intros cur H.
  - cbn [split_go]. now rewrite append_empty_r.
  - apply contains_cons_false in H. destruct H as [Hp Hc].
    cbn [split_go]. rewrite Hp, (IH _ Hc), append_assoc_string. reflexivity.
Qed.

(** Up to the first occurrence of a one-character separator. *)
Lemma split_go_char c a rest cur :
  contains (String c "") a = false ->
  split_go (String c "") (a +:+ String c rest) 0 cur =
    (cur +:+ a) :: split_go (String c "") rest 0 "".
Proof.
  revert cur. induction a as [|x a IH]; intros cur H.
  - rewrite append_empty_l. cbn [split_go String.prefix].
    destruct (Ascii.ascii_dec c c); [|congruence].
    rewrite append_empty_r. now destruct rest.
  - apply contains_cons_false in H. destruct H as [Hp Hc].
    rewrite append_cons. cbn [split_go]. cbn [String.prefix] in *.
    destruct (Ascii.ascii_dec c x) as [->|Hne].
    + now destruct a.
    + rewrite (IH _ Hc), append_assoc_string. reflexivity.
Qed.

(** ** confirmation.py: parsing identifiers *)

(** X12.  A [Confirmation] built from an element id [conf<x>], where [x]
    has no further [conf] in it, gets [x] as its id; an element id
    without [conf] cannot be turned into a confirmation: the
    constructor raises [IndexError]. *)
Theorem confirmation_id_is_the_suffix x data_confid data_key :
  (contains "conf" x = false ->
     new_Confirmation ("conf" +:+ x) data_confid data_key =
       Ok (mkConfirmation x data_confid data_key)) /\
  (contains "conf" x = false ->
     new_Confirmation x data_confid data_key = Raise IndexError).
Proof.
  split; intros H; unfold new_Confirmation.
  - assert (E : split "conf" ("conf" +:+ x) = "" :: split_go "conf" x 0 "")
      by (destruct x; reflexivity).
    now rewrite E, (split_go_no_sep _ _ _ H).
  - unfold split. now rewrite (split_go_no_sep _ _ _ H).
Qed.

Lemma confirmation_id_is_the_suffix_witness :
  new_Confirmation "conf4242" "1001" "9988776655" =
    Ok (mkConfirmation "4242" "1001" "9988776655") /\
  new_Confirmation "multi4242" "1001" "9988776655" = Raise IndexError.
Proof.
  split.
  - apply (proj1 (confirmation_id_is_the_suffix "4242" "1001" "9988776655")).
    reflexivity.
  - apply (proj2 (confirmation_id_is_the_suffix "multi4242" "1001" "9988776655")).
    reflexivity.
Defined.

(** X13.  The trade offer identifier read off a detail page is the piece
    of the first [.tradeoffer] element's id between its first and its
    second underscore: for an id [a_b] with no underscore in [a] or [b]
    it is [b].  A page without such an element, an element without an
    id, and an id without underscore give [IndexError], [KeyError],
    [IndexError]. *)
Theorem trade_offer_id_is_after_the_underscore L html :
  (forall t rest a b,
     soup_select L html ".tradeoffer" = t :: rest ->
     assoc "id" (tag_attrs t) = Some (a +:+ "_" +:+ b) ->
     contains "_" a = false -> contains "_" b = false ->
     trade_offer_id_of L (JStr html) = Ok b) /\
  (soup_select L html ".tradeoffer" = [] ->
     trade_offer_id_of L (JStr html) = Raise IndexError) /\
  (forall t rest,
     soup_select L html ".tradeoffer" = t :: rest ->
     assoc "id" (tag_attrs t) = None ->
     trade_offer_id_of L (JStr html) = Raise (KeyError "id")) /\
  (forall t rest full_offer_id,
     soup_select L html ".tradeoffer" = t :: rest ->
     assoc "id" (tag_attrs t) = Some full_offer_id ->
     contains "_" full_offer_id = false ->
     trade_offer_id_of L (JStr html) = Raise IndexError).
Proof.
  unfold trade_offer_id_of. repeat split.
  - intros t rest a b Hsel Hid Ha Hb. rewrite Hsel, Hid. unfold split.
    change (a +:+ "_" +:+ b) with (a +:+ String "_" b).
    rewrite (split_go_char _ _ _ _ Ha), (split_go_no_sep _ _ _ Hb). reflexivity.
  - intros Hsel. now rewrite Hsel.
  - intros t rest Hsel Hid. now rewrite Hsel, Hid.
  - intros t rest full Hsel Hid Hno. rewrite Hsel, Hid. unfold split.
    now rewrite (split_go_no_sep _ _ _ Hno).
Qed.

Lemma trade_offer_id_is_after_the_underscore_witness :
  trade_offer_id_of Fixture.lib (JStr (Fixture.details_html "B")) = Ok "B" /\
  trade_offer_id_of Fixture.lib (JStr "<p>gone</p>") = Raise IndexError.
Proof.
  destruct (trade_offer_id_is_after_the_underscore Fixture.lib
              (Fixture.details_html "B")) as (H1 & _).
  destruct (trade_offer_id_is_after_the_underscore Fixture.lib "<p>gone</p>")
    as (_ & H2 & _).
  split.
  - apply (H1 (mkTag [("class", "tradeoffer"); ("id", "tradeofferid_B")] "") []
              "tradeofferid" "B"); reflexivity.
  - apply H2. reflexivity.
Defined.

(** ** confirmation.py: the list page *)

Lemma get_confirmations_run L W self s :
  exists e s',
    _get_confirmations L W self s = (Raise e, s') /\
    events s' = events s ++ [Sent conf_request] /\
    ticks s' = ticks s.
Proof.
  unfold _get_confirmations, _fetch_confirmations_page, bind, session_request.
  fold conf_request.
  destruct (server W _ conf_request) as [resp|e]; cbn.
  - destruct (contains incorrect_codes_marker (resp_text resp)); cbn;
      eexists _, _; (split; [reflexivity|]); split; reflexivity.
  - eexists _, _. split; [reflexivity|]. split; reflexivity.
Qed.

(** X15.  [_get_confirmations] never returns a list: whatever the
    provider does, the call raises (the transport's error, the rejected
    Steam Guard file, or the [AttributeError] of [.text] on the body
    text), after handing exactly the list request to the session and
    without reading the clock. *)
Theorem get_confirmations_always_raises L W self s :
  exists e s',
    _get_confirmations L W self s = (Raise e, s') /\
    events s' = events s ++ [Sent conf_request] /\
    ticks s' = ticks s.
Proof. apply get_confirmations_run. Qed.

(** X16.  Hence [send_trade_allow_request] never confirms anything: for
    every provider and every trade offer id it raises, and the list
    request is all it ever sends: no detail page is fetched, no allow
    request issued. *)
Theorem send_trade_allow_request_never_confirms L W self trade_offer_id s :
  exists e s',
    send_trade_allow_request L W self trade_offer_id s = (Raise e, s') /\
    events s' = events s ++ [Sent conf_request] /\
    List.filter is_allow (requests (events s')) =
      List.filter is_allow (requests (events s)).
Proof.
  destruct (get_confirmations_run L W self s) as (e & s' & Hrun & Hev & _).
  exists e, s'. unfold send_trade_allow_request.
  rewrite (bind_eq_raise _ _ _ _ _ Hrun).
  split; [reflexivity|]. split; [exact Hev|].
  rewrite Hev, requests_app, List.filter_app. cbn. apply app_nil_r.
Qed.

(** X17.  [SteamClient._confirm_transaction], which the offer operations
    call when the provider asks for a mobile confirmation, therefore
    always raises too: without a loaded guard file before any request,
    else after the list request at most. *)
Theorem confirm_transaction_always_raises L W trade_offer_id s :
  exists e s',
    Client._confirm_transaction L W trade_offer_id s = (Raise e, s') /\
    (events s' = events s \/ events s' = events s ++ [Sent conf_request]) /\
    (steam_guard s = None ->
       e = TypeError "'NoneType' object is not subscriptable" /\ s' = s).
Proof.
  unfold Client._confirm_transaction, bind.
  destruct (steam_guard s) as [g|]; cbn.
  2:{ eexists _, _. split; [reflexivity|]. split; [now left | now split]. }
  destruct (assoc "identity_secret" g) as [secret|]; cbn.
  2:{ eexists _, _. split; [reflexivity|]. split; [now left | discriminate]. }
  destruct (assoc "steamid" g) as [steamid|]; cbn.
  2:{ eexists _, _. split; [reflexivity|]. split; [now left | discriminate]. }
  destruct (get_confirmations_run L W
              (mkConfirmationExecutor secret steamid) s)
    as (e & s' & Hrun & Hev & _).
  unfold send_trade_allow_request. rewrite (bind_eq_raise _ _ _ _ _ Hrun).
  exists e, s'. split; [reflexivity|]. split; [now right | discriminate].
Qed.

Lemma confirm_transaction_always_raises_witness :
  Client._confirm_transaction Fixture.lib Fixture.world "B" Fixture.fresh =
    (Raise (TypeError "'NoneType' object is not subscriptable"), Fixture.fresh).
Proof.
  destruct (confirm_transaction_always_raises Fixture.lib Fixture.world "B"
              Fixture.fresh) as (e & s' & Hrun & _ & Hnone).
  destruct (Hnone eq_refl) as [-> ->]. exact Hrun.
Defined.

(** ** confirmation.py: signing *)

(** X18.  The parameters [_create_confirmation_params] returns are
    consistent: [k] is the confirmation key of the identity secret for
    exactly the [tag] and the timestamp [t] sent along, [t] is the one
    clock reading the call takes, [a] is the account and [p] its device
    id; the call sends nothing. *)
Theorem confirmation_params_are_consistent L W self tag_string s params s' :
  _create_confirmation_params L W self tag_string s = (Ok params, s') ->
  exists k dev,
    let t := Z.quot (clock W (ticks s)) 1000 in
    generate_confirmation_key L (_identity_secret self) tag_string t = Ok k /\
    generate_device_id L (_my_steam_id self) = Ok dev /\
    params = [("p", PStr dev); ("a", PStr (_my_steam_id self)); ("k", PStr k);
              ("t", PInt t); ("m", PStr "android"); ("tag", PStr tag_string)] /\
    ticks s' = S (ticks s) /\
    events s' = events s.
Proof.
  unfold _create_confirmation_params, int_time, time_time, bind. cbn.
  destruct (generate_confirmation_key L _ _ _) as [k|e] eqn:Hk; cbn; [|discriminate].
  destruct (generate_device_id L _) as [dev|e] eqn:Hdev; cbn; [|discriminate].
  intros H. inversion H; subst. exists k, dev. cbn. repeat split; assumption.
Qed.

Lemma confirmation_params_are_consistent_witness :
  exists params s',
    _create_confirmation_params Fixture.lib Fixture.world Fixture.executor
      "details7" Fixture.fresh = (Ok params, s') /\
    assoc "k" params = Some (PStr "sig(details7@1541318400)") /\
    assoc "t" params = Some (PInt 1541318400).
Proof.
  destruct (_create_confirmation_params Fixture.lib Fixture.world
              Fixture.executor "details7" Fixture.fresh) as [r s'] eqn:Hrun.
  assert (Hr : exists params, r = Ok params).
  { apply (f_equal fst) in Hrun. vm_compute in Hrun. rewrite <- Hrun. eauto. }
  destruct Hr as [params ->].
  destruct (confirmation_params_are_consistent _ _ _ _ _ _ _ Hrun)
    as (k & dev & Hk & Hdev & -> & _).
  eexists. exists s'. split; [reflexivity|].
  vm_compute in Hk. inversion Hk. split; reflexivity.
Defined.

(** X19.  When [_fetch_confirmation_details_page] returns, it has sent
    one GET to [/details/<id>] without extra headers, signed for the tag
    ["details" + id] at the time it read, and what it returns is the
    [html] member of the JSON answer. *)
Theorem details_page_request L W self confirmation s page s' :
  _fetch_confirmation_details_page L W self confirmation s = (Ok page, s') ->
  exists k dev resp data,
    let t := Z.quot (clock W (ticks s)) 1000 in
    let tag := "details" +:+ id confirmation in
    let request :=
      mkRequest GET (CONF_URL +:+ "/details/" +:+ id confirmation)
        (ParamDict [("p", PStr dev); ("a", PStr (_my_steam_id self));
                    ("k", PStr k); ("t", PInt t); ("m", PStr "android");
                    ("tag", PStr tag)])
        NoData [] in
    generate_confirmation_key L (_identity_secret self) tag t = Ok k /\
    events s' = events s ++ [Sent request] /\
    server W (length (requests (events s))) request = Answer resp /\
    json_loads L (resp_text resp) = Some data /\
    json_item "html" data = Ok page.
Proof.
  unfold _fetch_confirmation_details_page, _create_confirmation_params,
    details_url, int_time, time_time, response_json, session_request, bind. cbn.
  destruct (generate_confirmation_key L _ _ _) as [k|e] eqn:Hk; cbn; [|discriminate].
  destruct (generate_device_id L _) as [dev|e]; cbn; [|discriminate].
  destruct (server W _ _) as [resp|e] eqn:Hserver; cbn; [|discriminate].
  destruct (json_loads L _) as [data|] eqn:Hjson; cbn; [|discriminate].
  destruct (json_item "html" data) as [p|e] eqn:Hhtml; cbn; [|discriminate].
  intros H. inversion H; subst. exists k, dev, resp, data. cbn.
  repeat split; assumption.
Qed.

Lemma details_page_request_witness :
  exists s',
    _fetch_confirmation_details_page Fixture.lib Fixture.world Fixture.executor
      (mkConfirmation "2" "confid2" "key2") Fixture.fresh
      = (Ok (JStr (Fixture.details_html "B")), s') /\
    map req_url (requests (events s')) = [CONF_URL +:+ "/details/2"].
Proof.
  eexists. split; [vm_compute; reflexivity|].
  match goal with |- context [events ?st] =>
    destruct (details_page_request Fixture.lib Fixture.world Fixture.executor
                (mkConfirmation "2" "confid2" "key2") Fixture.fresh
                (JStr (Fixture.details_html "B")) st)
      as (k & dev & resp & data & _ & Hev & _)
  end.
  - vm_compute. reflexivity.
  - vm_compute. reflexivity.
Defined.

(** ** client.py: calls of the Web API *)

(** X20.  [api_call] hands exactly one request to the session, to
    [API_URL/interface/method/version], whether or not the client has
    logged in.  Only the exact string [GET] makes it a GET with the
    parameters in the query; every other [request_method] (also [get]
    or [PUT]) is sent as a POST with the parameters as form data. *)
Theorem api_call_sends_one_request
    W API_URL request_method interface api_method version params s :
  let run :=
    Api.api_call W API_URL request_method interface api_method version params s in
  exists request,
    events (snd run) = events s ++ [Sent request] /\
    was_login_executed (snd run) = was_login_executed s /\
    req_url request =
      API_URL +:+ "/" +:+ interface +:+ "/" +:+ api_method +:+ "/" +:+ version /\
    (request_method = "GET" ->
       req_method request = GET /\ req_data request = NoData /\
       req_params request =
         match params with Some d => ParamDict d | None => NoParams end) /\
    (request_method <> "GET" ->
       req_method request = POST /\ req_params request = NoParams /\
       req_data request =
         match params with
         | Some d => Form (map (fun kv => (fst kv, param_json (snd kv))) d)
         | None => NoData
         end).
Proof.
  cbn zeta. unfold Api.api_call, bind.
  destruct (String.eqb request_method "GET") eqn:Hm.
  - apply String.eqb_eq in Hm. unfold session_request.
    destruct (server W _ _) as [resp|e]; cbn;
      [destruct (Api.is_invalid_api_key _); cbn|];
      eexists; (split; [reflexivity|]); (split; [reflexivity|]);
      (split; [reflexivity|]); (split; [intros _; repeat split | congruence]).
  - apply String.eqb_neq in Hm. unfold session_request.
    destruct (server W _ _) as [resp|e]; cbn;
      [destruct (Api.is_invalid_api_key _); cbn|];
      eexists; (split; [reflexivity|]); (split; [reflexivity|]);
      (split; [reflexivity|]); (split; [congruence | intros _; repeat split]).
Qed.

Lemma api_call_sends_one_request_witness :
  exists request,
    events (snd (Api.api_call Fixture3.world Fixture3.api "get" "IEconService"
                   "DeclineTradeOffer" "v1" (Some [("key", PStr "KEY")])
                   Fixture.fresh)) = [Sent request] /\
    req_method request = POST /\
    req_url request = "https://api.steampowered.com/IEconService/DeclineTradeOffer/v1" /\
    req_data request = Form [("key", JStr "KEY")].
Proof.
  destruct (api_call_sends_one_request Fixture3.world Fixture3.api "get"
              "IEconService" "DeclineTradeOffer" "v1" (Some [("key", PStr "KEY")])
              Fixture.fresh) as (request & Hev & _ & Hurl & _ & Hpost).
  destruct Hpost as (Hm & _ & Hd); [discriminate|].
  exists request. repeat split; assumption.
Defined.

(** X21.  What [api_call] makes of the answer: a body with the "Access
    is denied" sentence anywhere in it raises
    [InvalidCredentials('Invalid API key')]; any other body is returned
    as it is, whatever the HTTP status. *)
Theorem api_call_rejects_denied_key
    W API_URL request_method interface api_method version params s resp :
  (forall request,
     req_url request = str_join "/" [API_URL; interface; api_method; version] ->
     server W (length (requests (events s))) request = Answer resp) ->
  let run :=
    Api.api_call W API_URL request_method interface api_method version params s in
  (forall a b, resp_text resp = a +:+ Api.invalid_key_message +:+ b ->
     fst run = Raise (InvalidCredentials "Invalid API key")) /\
  (contains Api.invalid_key_message (resp_text resp) = false ->
     fst run = Ok (resp_text resp)).
Proof.
  intros Hserver. cbn zeta. unfold Api.api_call, bind, session_request.
  assert (Hcase : forall a b,
            resp_text resp = a +:+ Api.invalid_key_message +:+ b ->
            Api.is_invalid_api_key (resp_text resp) = true).
  { intros a b ->. apply contains_append. }
  destruct (String.eqb request_method "GET");
    rewrite Hserver by reflexivity; cbn;
    (split; [intros a b Ht; now rewrite (Hcase a b Ht)
            | intros Hno; unfold Api.is_invalid_api_key; now rewrite Hno]).
Qed.

Lemma api_call_rejects_denied_key_witness :
  fst (Api.api_call Fixture3.world Fixture3.api "POST" "IEconService"
         "DeclineTradeOffer" "v1" (Some [("key", PStr "KEY")]) Fixture.fresh)
    = Raise (InvalidCredentials "Invalid API key").
Proof.
  destruct (api_call_rejects_denied_key Fixture3.world Fixture3.api "POST"
              "IEconService" "DeclineTradeOffer" "v1"
              (Some [("key", PStr "KEY")]) Fixture.fresh
              (mkResponse 200 Fixture3.denied_body [])) as [Hdenied _].
  - intros [m u p d h] Hurl. cbn in Hurl. subst u. reflexivity.
  - apply (Hdenied "<html><body>" "</body></html>"). reflexivity.
Defined.

(** ** client.py: only active offers *)

Lemma assoc_dict_set_eq {V : Type} k (v : V) d : assoc k (dict_set k v d) = Some v.
Proof.
  induction d as [|[k' v'] d IH]; cbn.
  - now rewrite String.eqb_refl.
  - destruct (String.eqb k k') eqn:E; cbn; rewrite E; [reflexivity | exact IH].
Qed.

Lemma assoc_dict_set_ne {V : Type} k k' (v : V) d :
  k <> k' -> assoc k (dict_set k' v d) = assoc k d.
Proof.
  intros Hne. induction d as [|[k0 v0] d IH]; cbn.
  - apply String.eqb_neq in Hne. now rewrite Hne.
  - destruct (String.eqb k' k0) eqn:E; cbn.
    + apply String.eqb_eq in E. subst k0.
      apply String.eqb_neq in Hne. now rewrite Hne.
    + destruct (String.eqb k k0); [reflexivity | exact IH].
Qed.

Lemma dict_set_id {V : Type} k (v : V) d :
  assoc k d = Some v -> dict_set k v d = d.
Proof.
  induction d as [|[k' v'] d IH]; cbn; [discriminate|].
  destruct (String.eqb k k') eqn:E.
  - intros H. inversion H. reflexivity.
  - intros H. now rewrite IH.
Qed.

Lemma filter_active_is_filter Active offers kept :
  Api.filter_active Active offers = Ok kept ->
  kept = List.filter (is_active_offer Active) offers.
Proof.
  revert kept. induction offers as [|o offers IH]; intros kept H; cbn in *.
  - now inversion H.
  - unfold is_active_offer. destruct (json_item "trade_offer_state" o) as [st|e];
      [|discriminate].
    destruct (Api.filter_active Active offers) as [l|e]; [|discriminate].
    inversion H. rewrite (IH l eq_refl). now destruct (Active st).
Qed.

Lemma filter_active_fixed Active offers kept :
  Api.filter_active Active offers = Ok kept ->
  Api.filter_active Active kept = Ok kept.
Proof.
  revert kept. induction offers as [|o offers IH]; intros kept H; cbn in *.
  - now inversion H.
  - destruct (json_item "trade_offer_state" o) as [st|e] eqn:Hst; [|discriminate].
    destruct (Api.filter_active Active offers) as [l|e]; [|discriminate].
    inversion H. specialize (IH l eq_refl).
    destruct (Active st) eqn:Hact; [|exact IH].
    cbn. now rewrite Hst, IH, Hact.
Qed.

(** What a successful filtering looks like. *)
Lemma filter_non_active_offers_inv Active x y :
  Api._filter_non_active_offers Active x = Ok y ->
  exists top response received sent,
    x = JObj top /\
    assoc "response" top = Some (JObj response) /\
    Api.filter_active_of Active
      (default (JArr []) (assoc "trade_offers_received" response)) = Ok received /\
    Api.filter_active_of Active
      (default (JArr []) (assoc "trade_offers_sent" response)) = Ok sent /\
    y = JObj (dict_set "response"
                (JObj (dict_set "trade_offers_sent" (JArr sent)
                         (dict_set "trade_offers_received" (JArr received)
                            response))) top).
Proof.
  unfold Api._filter_non_active_offers.
  destruct x as [| | | | |top]; try discriminate.
  destruct (assoc "response" top) as [[| | | | |response]|] eqn:Hresp;
    try discriminate.
  destruct (Api.filter_active_of Active (default _ (assoc "trade_offers_received" _)))
    as [received|e] eqn:Hr; [|discriminate].
  destruct (Api.filter_active_of Active (default _ (assoc "trade_offers_sent" _)))
    as [sent|e] eqn:Hs; [|discriminate].
  intros H. inversion H. exists top, response, received, sent.
  repeat split; try reflexivity; assumption.
Qed.

Lemma filter_active_of_list Active x kept :
  Api.filter_active_of Active x = Ok kept ->
  Api.filter_active_of Active (JArr kept) = Ok kept /\
  Forall (fun o => is_active_offer Active o = true) kept /\
  (forall offers, x = JArr offers ->
     kept = List.filter (is_active_offer Active) offers).
Proof.
  unfold Api.filter_active_of. destruct (json_iter x) as [l|e] eqn:Hit; [|discriminate].
  intros H. split; [|split].
  - cbn. exact (filter_active_fixed _ _ _ H).
  - rewrite (filter_active_is_filter _ _ _ H). apply Forall_forall.
    intros o Ho. apply list_elem_of_In, filter_In in Ho. tauto.
  - intros offers ->. cbn in Hit. inversion Hit. subst l.
    exact (filter_active_is_filter _ _ _ H).
Qed.

(** X22.  After [_filter_non_active_offers] the response holds, under
    [trade_offers_received] and [trade_offers_sent], lists whose every
    offer is active; where the input had a list there, the output is
    that list with exactly the inactive offers removed, order kept; a
    missing list becomes an empty one; every other member of the
    response is as before. *)
Theorem filter_non_active_offers_keeps_active Active x y :
  Api._filter_non_active_offers Active x = Ok y ->
  exists top response top' response' received sent,
    x = JObj top /\ assoc "response" top = Some (JObj response) /\
    y = JObj top' /\ assoc "response" top' = Some (JObj response') /\
    assoc "trade_offers_received" response' = Some (JArr received) /\
    assoc "trade_offers_sent" response' = Some (JArr sent) /\
    Forall (fun o => is_active_offer Active o = true) received /\
    Forall (fun o => is_active_offer Active o = true) sent /\
    (forall offers, assoc "trade_offers_received" response = Some (JArr offers) ->
       received = List.filter (is_active_offer Active) offers) /\
    (forall offers, assoc "trade_offers_sent" response = Some (JArr offers) ->
       sent = List.filter (is_active_offer Active) offers) /\
    (assoc "trade_offers_received" response = None -> received = []) /\
    (assoc "trade_offers_sent" response = None -> sent = []) /\
    (forall k, k <> "trade_offers_received" -> k <> "trade_offers_sent" ->
       assoc k response' = assoc k response).
Proof.
  intros H. apply filter_non_active_offers_inv in H.
  destruct H as (top & response & received & sent & -> & Hresp & Hr & Hs & ->).
  destruct (filter_active_of_list _ _ _ Hr) as (_ & Hra & Hrl).
  destruct (filter_active_of_list _ _ _ Hs) as (_ & Hsa & Hsl).
  eexists top, response, _, _, received, sent.
  split; [reflexivity|]. split; [exact Hresp|]. split; [reflexivity|].
  split; [apply assoc_dict_set_eq|].
  split; [rewrite assoc_dict_set_ne by discriminate; apply assoc_dict_set_eq|].
  split; [apply assoc_dict_set_eq|].
  split; [exact Hra|]. split; [exact Hsa|].
  split; [intros offers Ho; apply Hrl; now rewrite Ho|].
  split; [intros offers Ho; apply Hsl; now rewrite Ho|].
  split; [intros Hn; rewrite Hn in Hr; cbn in Hr; now inversion Hr|].
  split; [intros Hn; rewrite Hn in Hs; cbn in Hs; now inversion Hs|].
  intros k Hk1 Hk2. now rewrite !assoc_dict_set_ne.
Qed.

Lemma filter_non_active_offers_keeps_active_witness :
  Api._filter_non_active_offers Fixture3.active Fixture3.offers_json =
    Ok (JObj [("response",
               JObj [("trade_offers_received",
                      JArr [Fixture3.offer 1 2; Fixture3.offer 3 2]);
                     ("descriptions", JArr []);
                     ("trade_offers_sent", JArr [])])]).
Proof.
  destruct (Api._filter_non_active_offers Fixture3.active Fixture3.offers_json)
    as [y|e] eqn:Hrun; [|vm_compute in Hrun; discriminate].
  destruct (filter_non_active_offers_keeps_active _ _ _ Hrun)
    as (top & response & top' & response' & received & sent & _).
  vm_compute in Hrun. now rewrite <- Hrun.
Defined.

(** X23.  Filtering is idempotent: a response that came out of
    [_filter_non_active_offers] goes through it unchanged. *)
Theorem filter_non_active_offers_idempotent Active x y :
  Api._filter_non_active_offers Active x = Ok y ->
  Api._filter_non_active_offers Active y = Ok y.
Proof.
  intros H. apply filter_non_active_offers_inv in H.
  destruct H as (top & response & received & sent & -> & Hresp & Hr & Hs & ->).
  destruct (filter_active_of_list _ _ _ Hr) as (Hr' & _).
  destruct (filter_active_of_list _ _ _ Hs) as (Hs' & _).
  set (response1 := dict_set "trade_offers_received" (JArr received) response).
  set (response2 := dict_set "trade_offers_sent" (JArr sent) response1).
  assert (H1 : assoc "trade_offers_received" response2 = Some (JArr received)).
  { unfold response2. rewrite assoc_dict_set_ne by discriminate.
    apply assoc_dict_set_eq. }
  assert (H2 : assoc "trade_offers_sent" response2 = Some (JArr sent))
    by apply assoc_dict_set_eq.
  unfold Api._filter_non_active_offers.
  rewrite assoc_dict_set_eq, H1, H2. cbn [default from_option].
  unfold Datatypes.id. rewrite Hr', Hs'.
  rewrite (dict_set_id _ _ _ H1), (dict_set_id _ _ _ H2).
  now rewrite (dict_set_id _ _ (dict_set "response" (JObj response2) top))
    by apply assoc_dict_set_eq.
Qed.

Lemma filter_non_active_offers_idempotent_witness :
  exists y,
    Api._filter_non_active_offers Fixture3.active Fixture3.offers_json = Ok y /\
    Api._filter_non_active_offers Fixture3.active y = Ok y.
Proof.
  destruct (Api._filter_non_active_offers Fixture3.active Fixture3.offers_json)
    as [y|e] eqn:Hrun; [|vm_compute in Hrun; discriminate].
  exists y. split; [reflexivity|].
  exact (filter_non_active_offers_idempotent _ _ _ Hrun).
Defined.

(** X24.  [get_trade_offers] without merging returns the provider's
    answer with only active offers in its two lists, after one GET to
    [CEconService/GetTradeOffers/v1]; no login is involved. *)
Theorem get_trade_offers_returns_active_only
    L W API_URL key Active merge_fn s y s' :
  Api.get_trade_offers L W API_URL key Active merge_fn false s = (Ok y, s') ->
  exists request top response received sent,
    events s' = events s ++ [Sent request] /\
    req_method request = GET /\
    req_url request = API_URL +:+ "/CEconService/GetTradeOffers/v1" /\
    y = JObj top /\ assoc "response" top = Some (JObj response) /\
    assoc "trade_offers_received" response = Some (JArr received) /\
    assoc "trade_offers_sent" response = Some (JArr sent) /\
    Forall (fun o => is_active_offer Active o = true) received /\
    Forall (fun o => is_active_offer Active o = true) sent.
Proof.
  unfold Api.get_trade_offers, Api.api_call, bind, session_request. cbn.
  destruct (server W _ _) as [resp|e]; cbn; [|discriminate].
  destruct (Api.is_invalid_api_key _); cbn; [discriminate|].
  destruct (json_loads L _) as [x|]; cbn; [|discriminate].
  destruct (Api._filter_non_active_offers Active x) as [y0|e] eqn:Hf; cbn;
    [|discriminate].
  intros H. inversion H; subst. cbn.
  destruct (filter_non_active_offers_inv _ _ _ Hf)
    as (top & response & received & sent & -> & Hresp & Hr & Hs & ->).
  destruct (filter_active_of_list _ _ _ Hr) as (_ & Hra & _).
  destruct (filter_active_of_list _ _ _ Hs) as (_ & Hsa & _).
  eexists _, _, _, received, sent.
  split; [reflexivity|]. split; [reflexivity|]. split; [reflexivity|].
  split; [reflexivity|]. split; [apply assoc_dict_set_eq|].
  split; [rewrite assoc_dict_set_ne by discriminate; apply assoc_dict_set_eq|].
  split; [apply assoc_dict_set_eq|]. split; assumption.
Qed.

Lemma get_trade_offers_returns_active_only_witness :
  exists y s' request,
    Api.get_trade_offers Fixture3.lib Fixture3.world Fixture3.api "KEY"
      Fixture3.active (fun j => Ok j) false Fixture.fresh = (Ok y, s') /\
    events s' = [Sent request] /\
    req_url request = "https://api.steampowered.com/CEconService/GetTradeOffers/v1".
Proof.
  destruct (Api.get_trade_offers Fixture3.lib Fixture3.world Fixture3.api "KEY"
              Fixture3.active (fun j => Ok j) false Fixture.fresh)
    as [r s'] eqn:Hrun.
  assert (Hr : exists y, r = Ok y).
  { apply (f_equal fst) in Hrun. vm_compute in Hrun. rewrite <- Hrun. eauto. }
  destruct Hr as [y ->].
  destruct (get_trade_offers_returns_active_only _ _ _ _ _ _ _ _ _ Hrun)
    as (request & _ & _ & _ & _ & Hev & _ & Hurl & _).
  exists y, s', request. split; [reflexivity|]. split; assumption.
Defined.

(** X25.  [get_profile] returns the first player of the answer; when the
    provider knows no such account the list is empty and the call
    raises [IndexError]. *)
Theorem get_profile_returns_first_player
    L W API_URL key steam_id s resp d r players :
  server W (length (requests (events s)))
    (mkRequest GET (API_URL +:+ "/ISteamUser/GetPlayerSummaries/v0002")
       (ParamDict [("steamids", PStr steam_id); ("key", PStr key)]) NoData [])
    = Answer resp ->
  contains Api.invalid_key_message (resp_text resp) = false ->
  json_loads L (resp_text resp) = Some (JObj d) ->
  assoc "response" d = Some (JObj r) ->
  assoc "players" r = Some (JArr players) ->
  fst (Api.get_profile L W API_URL key steam_id s) =
    match players with
    | player :: _ => Ok player
    | [] => Raise IndexError
    end.
Proof.
  intros Hserver Hok Hjson Hr Hp.
  unfold Api.get_profile, Api.api_call, Api.is_invalid_api_key, bind,
    session_request. cbn.
  match goal with |- context [server W ?n ?req] =>
    change (server W n req) with
      (server W (length (requests (events s)))
         (mkRequest GET (API_URL +:+ "/ISteamUser/GetPlayerSummaries/v0002")
            (ParamDict [("steamids", PStr steam_id); ("key", PStr key)])
            NoData []))
  end.
  rewrite Hserver. cbn. rewrite Hok. cbn. rewrite Hjson. cbn.
  rewrite Hr. cbn. rewrite Hp. cbn. now destruct players.
Qed.

Lemma get_profile_returns_first_player_witness :
  fst (Api.get_profile Fixture3.lib Fixture3.world Fixture3.api "KEY"
         "76561197960287930" Fixture.fresh)
    = Ok (JObj [("personaname", JStr "gaben")]) /\
  fst (Api.get_profile Fixture3.lib Fixture3.world Fixture3.api "KEY"
         "1" Fixture.fresh) = Raise IndexError.
Proof.
  split.
  - apply (get_profile_returns_first_player Fixture3.lib Fixture3.world
             Fixture3.api "KEY" "76561197960287930" Fixture.fresh
             (mkResponse 200 Fixture3.players_body [])
             [("response", JObj [("players", JArr [JObj [("personaname", JStr "gaben")]])])]
             [("players", JArr [JObj [("personaname", JStr "gaben")]])]
             [JObj [("personaname", JStr "gaben")]]);
      vm_compute; reflexivity.
  - apply (get_profile_returns_first_player Fixture3.lib Fixture3.world
             Fixture3.api "KEY" "1" Fixture.fresh
             (mkResponse 200 Fixture3.no_players_body [])
             [("response", JObj [("players", JArr [])])]
             [("players", JArr [])] []);
      vm_compute; reflexivity.
Defined.

(** ** client.py: is the session alive *)

Lemma lower_append a b : lower (a +:+ b) = lower a +:+ lower b.
Proof.
  induction a as [|c a IH]; [reflexivity|].
  rewrite append_cons. cbn [lower]. now rewrite append_cons, IH.
Qed.

(** X26.  For a logged-in client whose user name and community page are
    ASCII text, on which [str.lower] turns A-Z into a-z and nothing
    else, [is_session_alive] sends one GET to the community page and
    answers whether the user name occurs in it, letter case ignored on
    both sides: any spelling of the name in the page counts (and an
    empty user name always does). *)
Theorem is_session_alive_ignores_case L W s u resp :
  (forall x, isascii x = true -> str_lower L x = lower x) ->
  isascii u = true ->
  isascii (resp_text resp) = true ->
  was_login_executed s = true ->
  client_username s = Some u ->
  server W (length (requests (events s)))
    (mkRequest GET COMMUNITY_URL NoParams NoData []) = Answer resp ->
  let run := Client.is_session_alive L W s in
  events (snd run) =
    events s ++ [Sent (mkRequest GET COMMUNITY_URL NoParams NoData [])] /\
  fst run = Ok (contains (lower u) (lower (resp_text resp))) /\
  (forall a u' b,
     resp_text resp = a +:+ u' +:+ b ->
     lower u' = lower u ->
     fst run = Ok true).
Proof.
  intros Hlower Hascii_u Hascii_t Hflag Hu Hserver. cbn zeta.
  unfold Client.is_session_alive. rewrite login_required_passes by exact Hflag.
  unfold bind, session_request. cbn. rewrite Hu, Hserver. cbn.
  rewrite (Hlower _ Hascii_u), (Hlower _ Hascii_t).
  split; [reflexivity|]. split; [reflexivity|].
  intros a u' b Htext Hlow.
  now rewrite Htext, !lower_append, Hlow, contains_append.
Qed.

Lemma is_session_alive_ignores_case_witness :
  fst (Client.is_session_alive Fixture3.lib Fixture3.world Fixture3.logged_in)
    = Ok true.
Proof.
  destruct (is_session_alive_ignores_case Fixture3.lib Fixture3.world
              Fixture3.logged_in "Alice"
              (mkResponse 200 "<a href='/id/ALICE/'>Alice's profile</a>" [])
              (fun x _ => eq_refl) eq_refl eq_refl eq_refl eq_refl eq_refl)
    as (_ & _ & Hany).
  apply (Hany "<a href='/id/" "ALICE" "/'>Alice's profile</a>"); reflexivity.
Defined.

(** ** confirmation.py: market listings *)

(** X27.  [confirm_sell_listing] shares the discovery step with the
    trade-offer path and so never confirms either: it raises after the
    list request, with no detail page and no allow request. *)
Theorem confirm_sell_listing_never_confirms L W self asset_id s :
  exists e s',
    confirm_sell_listing L W self asset_id s = (Raise e, s') /\
    events s' = events s ++ [Sent conf_request] /\
    List.filter is_allow (requests (events s')) =
      List.filter is_allow (requests (events s)).
Proof.
  destruct (get_confirmations_run L W self s) as (e & s' & Hrun & Hev & _).
  exists e, s'. unfold confirm_sell_listing.
  rewrite (bind_eq_raise _ _ _ _ _ Hrun).
  split; [reflexivity|]. split; [exact Hev|].
  rewrite Hev, requests_app, List.filter_app. cbn. apply app_nil_r.
Qed.

Lemma index_of_none sub s : contains sub s = false -> index_of sub s = None.
Proof.
  induction s as [|c s IH]; cbn [contains index_of]; intros H;
    apply orb_false_iff in H; destruct H as [Hp Hc]; rewrite Hp.
  - reflexivity.
  - now rewrite (IH Hc).
Qed.

Lemma drop_chars_append a b : drop_chars (String.length a) (a +:+ b) = b.
Proof.
  induction a as [|c a IH]; [now destruct b|].
  rewrite append_cons. exact IH.
Qed.

Lemma drop_chars_add n m s : drop_chars (n + m) s = drop_chars m (drop_chars n s).
Proof.
  revert s. induction n as [|n IH]; intros s; [reflexivity|].
  destruct s as [|c s]; cbn [Nat.add drop_chars].
  - now destruct m.
  - apply IH.
Qed.

Lemma take_chars_append a b : take_chars (String.length a) (a +:+ b) = a.
Proof.
  induction a as [|c a IH]; [now destruct b|].
  rewrite append_cons. cbn [String.length take_chars]. now rewrite IH.
Qed.

(** X28.  The listing identifier is read from the third [script] element
    of the detail page: from its stripped text, the JSON between the
    first ['confiteminfo', ] and the first [, UserYou] after it, newlines
    removed, and of that the member [id].  A page with fewer than three
    script elements gives [IndexError]; a script without the opening
    marker gives [ValueError]. *)
Theorem sell_listing_id_is_between_the_markers L html :
  (forall script pre body post v,
     nth_error (soup_select L html "script") 2 = Some script ->
     strip (tag_text script) =
       pre +:+ "'confiteminfo', " +:+ body +:+ ", UserYou" +:+ post ->
     index_of "'confiteminfo', " (strip (tag_text script))
       = Some (String.length pre) ->
     index_of ", UserYou" (body +:+ ", UserYou" +:+ post)
       = Some (String.length body) ->
     json_loads L (remove_newlines body) = Some v ->
     sell_listing_id_of L (JStr html) = json_item "id" v) /\
  ((length (soup_select L html "script") < 3)%nat ->
     sell_listing_id_of L (JStr html) = Raise IndexError) /\
  (forall script,
     nth_error (soup_select L html "script") 2 = Some script ->
     contains "'confiteminfo', " (strip (tag_text script)) = false ->
     sell_listing_id_of L (JStr html) = Raise substring_not_found).
Proof.
  unfold sell_listing_id_of. split; [|split].
  - intros script pre body post v Hscript Htext Hi Hj Hjson.
    rewrite Hscript, Hi, Htext.
    assert (Hdrop : drop_chars (String.length pre + 16)
                      (pre +:+ "'confiteminfo', " +:+ body +:+ ", UserYou" +:+ post)
                    = body +:+ ", UserYou" +:+ post).
    { rewrite drop_chars_add, drop_chars_append.
      apply (drop_chars_append "'confiteminfo', "). }
    rewrite Hdrop, Hj, take_chars_append, Hjson. reflexivity.
  - intros Hlen.
    assert (Hn : nth_error (soup_select L html "script") 2 = None)
      by (apply nth_error_None; lia).
    now rewrite Hn.
  - intros script Hscript Hno. now rewrite Hscript, (index_of_none _ _ Hno).
Qed.

Lemma sell_listing_id_is_between_the_markers_witness :
  sell_listing_id_of Fixture3.lib (JStr (Fixture3.listing_html "B")) = Ok (JStr "B") /\
  sell_listing_id_of Fixture3.lib (JStr "<p>gone</p>") = Raise IndexError.
Proof.
  destruct (sell_listing_id_is_between_the_markers Fixture3.lib
              (Fixture3.listing_html "B")) as (H1 & _).
  destruct (sell_listing_id_is_between_the_markers Fixture3.lib "<p>gone</p>")
    as (_ & H2 & _).
  split.
  - apply (H1 (mkTag [] (Fixture3.listing_script "B")) "BuildHover( "
              ("{'id':" +:+ Fixture3.newline +:+ "'B'}") " );"
              (JObj [("id", JStr "B")])); vm_compute; reflexivity.
  - apply H2. vm_compute. lia.
Defined.

Lemma select_listing_cons L W self c rest target s :
  _select_sell_listing_confirmation L W self (c :: rest) target s =
  match resolve_listing L W self c s with
  | (Ok i, s1) =>
      if json_eq_str i target then (Ok c, s1)
      else _select_sell_listing_confirmation L W self rest target s1
  | (Raise e, s1) => (Raise e, s1)
  end.
Proof.
  cbn [_select_sell_listing_confirmation]. unfold resolve_listing, bind.
  destruct (_fetch_confirmation_details_page L W self c s) as [[page|e] s1];
    [|reflexivity].
  destruct (_get_confirmation_sell_listing_id L page s1) as [[i|e] s2];
    [|reflexivity].
  now destruct (json_eq_str i target).
Qed.

Lemma resolve_listing_events L W self c s i s1 :
  resolve_listing L W self c s = (Ok i, s1) ->
  exists params,
    events s1 = events s ++
      [Sent (mkRequest GET (details_url c) (ParamDict params) NoData [])].
Proof.
  unfold resolve_listing, _fetch_confirmation_details_page,
    _create_confirmation_params, _get_confirmation_sell_listing_id, int_time,
    time_time, response_json, session_request, bind. cbn.
  destruct (generate_confirmation_key L _ _ _) as [k|e]; cbn; [|discriminate].
  destruct (generate_device_id L _) as [dev|e]; cbn; [|discriminate].
  destruct (server W _ _) as [resp|e]; cbn; [|discriminate].
  destruct (json_loads L _) as [j|]; cbn; [|discriminate].
  destruct (json_item "html" j) as [page|e]; cbn; [|discriminate].
  destruct (sell_listing_id_of L page) as [i'|e]; cbn; [|discriminate].
  intros H; inversion H; subst; cbn. eexists. reflexivity.
Qed.

Lemma select_listing_misses L W self target cs s s1 :
  listing_scan_misses L W self target cs s = Some s1 ->
  _select_sell_listing_confirmation L W self cs target s =
    (Raise ConfirmationExpected, s1) /\
  exists new,
    requests (events s1) = requests (events s) ++ new /\
    map req_url new = map details_url cs.
Proof.
  revert s. induction cs as [|c cs IH]; intros s H.
  - cbn in H. inversion H; subst. split; [reflexivity|].
    exists []. split; [now rewrite app_nil_r | reflexivity].
  - rewrite select_listing_cons. cbn [listing_scan_misses] in H.
    destruct (resolve_listing L W self c s) as [[i|e] s0] eqn:Hres; [|discriminate].
    destruct (json_eq_str i target); [discriminate|].
    destruct (IH _ H) as (Hsel & new & Hreq & Hurls).
    split; [exact Hsel|].
    destruct (resolve_listing_events _ _ _ _ _ _ _ Hres) as (params & Hev).
    eexists (_ :: new). split.
    + rewrite Hreq, Hev, requests_app. cbn. rewrite <- app_assoc. reflexivity.
    + cbn. now rewrite Hurls.
Qed.

Lemma select_listing_hits L W self target pre c post s s1 s2 :
  listing_scan_misses L W self target pre s = Some s1 ->
  resolve_listing L W self c s1 = (Ok (JStr target), s2) ->
  _select_sell_listing_confirmation L W self (pre ++ c :: post) target s =
    (Ok c, s2) /\
  exists new,
    requests (events s2) = requests (events s) ++ new /\
    map req_url new = map details_url (pre ++ [c]).
Proof.
  revert s. induction pre as [|c0 pre IH]; intros s Hpre Hc.
  - cbn in Hpre. inversion Hpre; subst. cbn [app].
    rewrite select_listing_cons, Hc. cbn [json_eq_str].
    rewrite String.eqb_refl. split; [reflexivity|].
    destruct (resolve_listing_events _ _ _ _ _ _ _ Hc) as (params & Hev).
    eexists [_]. split; [rewrite Hev, requests_app; reflexivity | reflexivity].
  - cbn [app]. rewrite select_listing_cons. cbn [listing_scan_misses] in Hpre.
    destruct (resolve_listing L W self c0 s) as [[i|e] s0] eqn:Hres; [|discriminate].
    destruct (json_eq_str i target); [discriminate|].
    destruct (IH _ Hpre Hc) as (Hsel & new & Hreq & Hurls).
    split; [exact Hsel|].
    destruct (resolve_listing_events _ _ _ _ _ _ _ Hres) as (params & Hev).
    eexists (_ :: new). split.
    + rewrite Hreq, Hev, requests_app. cbn. rewrite <- app_assoc. reflexivity.
    + cbn. now rewrite Hurls.
Qed.

(** X29.  The sell-listing selection followed by the allow step, on a
    given list: detail pages are requested in list order up to the
    first entry whose listing id is the string [asset_id], that entry's
    tokens go into the one allow request, and later entries are not
    asked about; an identifier that is not a string never matches; with
    no matching entry there is one detail request per entry, no allow
    request, and [ConfirmationExpected]. *)
Theorem listing_scan_stops_at_first_match L W self asset_id :
  (forall pre c post s s1 s2 k dev,
     listing_scan_misses L W self asset_id pre s = Some s1 ->
     resolve_listing L W self c s1 = (Ok (JStr asset_id), s2) ->
     generate_confirmation_key L (_identity_secret self) "allow"
       (Z.quot (clock W (ticks s2)) 1000) = Ok k ->
     generate_device_id L (_my_steam_id self) = Ok dev ->
     let run :=
       (confirmation <-
          _select_sell_listing_confirmation L W self (pre ++ c :: post) asset_id ;;
        _send_confirmation L W self confirmation) s in
     run = _send_confirmation L W self c s2 /\
     exists params new,
       requests (events (snd run)) = requests (events s) ++ new /\
       map req_url new = map details_url (pre ++ [c]) ++ [ajaxop_url] /\
       List.filter is_allow new = [allow_request params] /\
       assoc "cid" params = Some (PStr (data_confid c)) /\
       assoc "ck" params = Some (PStr (data_key c))) /\
  (forall cs s s1,
     listing_scan_misses L W self asset_id cs s = Some s1 ->
     (confirmation <- _select_sell_listing_confirmation L W self cs asset_id ;;
      _send_confirmation L W self confirmation) s
       = (Raise ConfirmationExpected, s1) /\
     exists new,
       requests (events s1) = requests (events s) ++ new /\
       map req_url new = map details_url cs /\
       List.filter is_allow new = []).
Proof.
  split.
  - intros pre c post s s1 s2 k dev Hpre Hc Hk Hdev run.
    destruct (select_listing_hits _ _ _ _ _ _ post _ _ _ Hpre Hc)
      as (Hsel & new & Hreq & Hurls).
    assert (Hrun : run = _send_confirmation L W self c s2).
    { unfold run. now rewrite (bind_eq_ok _ _ _ _ _ Hsel). }
    split; [exact Hrun|].
    eexists _, (new ++ [_]). rewrite Hrun.
    rewrite (send_confirmation_events _ _ _ _ _ _ _ Hk Hdev).
    rewrite requests_app, Hreq, <- app_assoc. cbn [requests].
    split; [reflexivity|]. split; [|split].
    + rewrite map_app, Hurls. reflexivity.
    + rewrite List.filter_app, (filter_allow_details _ _ Hurls). reflexivity.
    + split; reflexivity.
  - intros cs s s1 Hcs.
    destruct (select_listing_misses _ _ _ _ _ _ _ Hcs) as (Hsel & new & Hreq & Hurls).
    split; [now rewrite (bind_eq_raise _ _ _ _ _ Hsel)|].
    exists new. split; [exact Hreq|]. split; [exact Hurls|].
    exact (filter_allow_details _ _ Hurls).
Qed.

Lemma listing_scan_stops_at_first_match_witness :
  let two := [mkConfirmation "1" "confid1" "key1";
              mkConfirmation "2" "confid2" "key2"] in
  (exists params new,
     requests (events (snd
       ((confirmation <-
           _select_sell_listing_confirmation Fixture3.lib Fixture3.world
             Fixture.executor Fixture.three_confirmations "B" ;;
         _send_confirmation Fixture3.lib Fixture3.world Fixture.executor
           confirmation) Fixture.fresh))) = new /\
     map req_url new =
       [CONF_URL +:+ "/details/1"; CONF_URL +:+ "/details/2"; ajaxop_url] /\
     List.filter is_allow new = [allow_request params] /\
     assoc "cid" params = Some (PStr "confid2")) /\
  exists s1,
    (confirmation <-
       _select_sell_listing_confirmation Fixture3.lib Fixture3.world
         Fixture.executor two "Z" ;;
     _send_confirmation Fixture3.lib Fixture3.world Fixture.executor confirmation)
      Fixture.fresh = (Raise ConfirmationExpected, s1) /\
    map req_url (requests (events s1)) =
      [CONF_URL +:+ "/details/1"; CONF_URL +:+ "/details/2"].
Proof.
  cbn zeta. split.
  - destruct (proj1 (listing_scan_stops_at_first_match Fixture3.lib Fixture3.world
                       Fixture.executor "B")
                [mkConfirmation "1" "confid1" "key1"]
                (mkConfirmation "2" "confid2" "key2")
                [mkConfirmation "3" "confid3" "key3"]
                Fixture.fresh
                (snd (resolve_listing Fixture3.lib Fixture3.world Fixture.executor
                        (mkConfirmation "1" "confid1" "key1") Fixture.fresh))
                (snd (resolve_listing Fixture3.lib Fixture3.world Fixture.executor
                        (mkConfirmation "2" "confid2" "key2")
                        (snd (resolve_listing Fixture3.lib Fixture3.world
                                Fixture.executor
                                (mkConfirmation "1" "confid1" "key1")
                                Fixture.fresh))))
                "sig(allow@1541318403)" "android:76561197991861652")
      as (_ & params & new & H1 & H2 & H3 & H4 & _).
    + vm_compute. reflexivity.
    + vm_compute. reflexivity.
    + vm_compute. reflexivity.
    + reflexivity.
    + exists params, new. repeat split; assumption.
  - destruct (proj2 (listing_scan_stops_at_first_match Fixture3.lib Fixture3.world
                       Fixture.executor "Z")
                [mkConfirmation "1" "confid1" "key1";
                 mkConfirmation "2" "confid2" "key2"] Fixture.fresh
                (snd (_select_sell_listing_confirmation Fixture3.lib Fixture3.world
                        Fixture.executor
                        [mkConfirmation "1" "confid1" "key1";
                         mkConfirmation "2" "confid2" "key2"] "Z"
                        Fixture.fresh)))
      as (Hrun & new & H1 & H2 & _).
    + vm_compute. reflexivity.
    + eexists. split; [exact Hrun|]. rewrite H1. exact H2.
Defined.
